(** * Cephalus: the state kernel and the temporal-difference agent

    A shallow embedding of [cephalus/kernel.py], [cephalus/frame.py],
    [cephalus/modules/state_prediction.py] and [cephalus/q/td.py].

    Python classes become Rocq modules holding a record [t] and the methods
    as functions; methods that mutate [self] or raise are computations in a
    state-and-exception monad in which the state survives an exception, as
    a Python object does.  Numbers are IEEE 754 binary floating-point
    values: Python's [float] is binary64 and TensorFlow's default tensor
    type is binary32 ([tf.zeros], which the kernel uses for its own
    tensors, has dtype float32). *)

From Stdlib Require Import ZArith List Bool Lia String.
From Stdlib Require Import Floats.SpecFloat.
From stdpp Require Import base list gmap.
Import ListNotations.

(* ================================================================== *)
(** * Part I: definitions *)
(* ================================================================== *)

(** ** IEEE 754 arithmetic *)

Module Float.

Record format := Format { prec : Z; emax : Z }.

Definition binary32 : format := Format 24 128.
Definition binary64 : format := Format 53 1024.

Definition add (f : format) : spec_float -> spec_float -> spec_float :=
  SFadd (prec f) (emax f).
Definition mul (f : format) : spec_float -> spec_float -> spec_float :=
  SFmul (prec f) (emax f).
Definition div (f : format) : spec_float -> spec_float -> spec_float :=
  SFdiv (prec f) (emax f).

Definition is_nan (x : spec_float) : bool :=
  match x with S754_nan => true | _ => false end.

Definition is_zero (x : spec_float) : bool :=
  match x with S754_zero _ => true | _ => false end.

(** Conversion of a value to format [f], rounding to nearest even: what
    TensorFlow does to a Python float that meets a float32 tensor. *)
Definition round (f : format) (x : spec_float) : spec_float :=
  match x with
  | S754_finite s m e => binary_round (prec f) (emax f) s m e
  | _ => x
  end.

(** The integer [n] in format [f] ([len(...)] used as a divisor). *)
Definition of_Z (f : format) (n : Z) : spec_float :=
  binary_normalize (prec f) (emax f) n 0 false.

(** The decimal literal [m * 10^-k] (negated when [neg]), correctly
    rounded, as Python reads a float literal. *)
Definition decimal (f : format) (neg : bool) (m : positive) (k : nat) : spec_float :=
  let '(mz, ez, lz) :=
    SFdiv_core_binary (prec f) (emax f) (Zpos m) 0 (Z.pow 10 (Z.of_nat k)) 0 in
  binary_round_aux (prec f) (emax f) neg mz ez lz.

End Float.

(** Python float literals and float32 constants used below. *)
Definition py (m : positive) (k : nat) : spec_float :=
  Float.decimal Float.binary64 false m k.
Definition py_neg (m : positive) (k : nat) : spec_float :=
  Float.decimal Float.binary64 true m k.
Definition f32 (x : spec_float) : spec_float := Float.round Float.binary32 x.

(** 1.0 as a float32. *)
Definition one32 : spec_float := S754_finite false 8388608 (-23)%Z.

(** ** Exceptions and the state-and-exception monad *)

Inductive exn :=
| AssertionError
| AttributeError
| TypeError
| ValueError
| ZeroDivisionError
| InvalidArgumentError
| InvalidReference.   (* model only: a reference that names no object *)

Inductive result (A : Type) :=
| Ok (a : A)
| Raise (e : exn).
Arguments Ok {A} a.
Arguments Raise {A} e.

Definition is_ok {A} (r : result A) : bool :=
  match r with Ok _ => true | Raise _ => false end.

(** A method on an object of type [S]: it returns or raises, and leaves
    the object in a (possibly changed) state either way. *)
Definition M (S A : Type) : Type := S -> result A * S.

Definition ret {S A} (a : A) : M S A := fun s => (Ok a, s).
Definition raise {S A} (e : exn) : M S A := fun s => (Raise e, s).
Definition bind {S A B} (c : M S A) (k : A -> M S B) : M S B :=
  fun s => match c s with
           | (Ok a, s') => k a s'
           | (Raise e, s') => (Raise e, s')
           end.
Definition get {S} : M S S := fun s => (Ok s, s).
Definition modify {S} (f : S -> S) : M S unit := fun s => (Ok tt, f s).
Definition lift {S A} (r : result A) : M S A := fun s => (r, s).

(** [assert b] *)
Definition assert {S} (b : bool) : M S unit :=
  if b then ret tt else raise AssertionError.

(** [try: body finally: final] *)
Definition try_finally {S A} (body : M S A) (final : M S unit) : M S A :=
  fun s => match body s with
           | (r, s1) => match final s1 with
                        | (Ok _, s2) => (r, s2)
                        | (Raise e, s2) => (Raise e, s2)
                        end
           end.

Notation "x <- c ;; k" := (bind c (fun x => k))
  (at level 100, c at next level, right associativity).
Notation "c ;; k" := (bind c (fun _ => k))
  (at level 100, right associativity).

(** [for x in xs: body acc x], threading an accumulator. *)
Fixpoint for_each {S A X} (xs : list X) (body : A -> X -> M S A) (acc : A) : M S A :=
  match xs with
  | [] => ret acc
  | x :: xs' => acc' <- body acc x ;; for_each xs' body acc'
  end.

Definition is_some {A} (o : option A) : bool :=
  match o with Some _ => true | None => false end.
Definition is_none {A} (o : option A) : bool :=
  match o with Some _ => false | None => true end.

(** ** Scalars of type [Union[float, tf.Tensor]] *)

Module Num.

Inductive t :=
| PyFloat (x : spec_float)   (* a Python float: binary64 *)
| Tensor (x : spec_float).   (* a scalar float32 tf.Tensor *)

(** A Python float that meets a tensor is converted to the tensor's type. *)
Definition to_tensor (v : t) : spec_float :=
  match v with
  | PyFloat x => f32 x
  | Tensor x => x
  end.

Definition is_nan (v : t) : bool :=
  match v with PyFloat x | Tensor x => Float.is_nan x end.

(** [a < b] and [a > b]; between two floats in binary64, otherwise as
    tensors. *)
Definition lt (a b : t) : bool :=
  match a, b with
  | PyFloat x, PyFloat y => SFltb x y
  | _, _ => SFltb (to_tensor a) (to_tensor b)
  end.
Definition gt (a b : t) : bool := lt b a.
Definition le (a b : t) : bool :=
  match a, b with
  | PyFloat x, PyFloat y => SFleb x y
  | _, _ => SFleb (to_tensor a) (to_tensor b)
  end.

(** The builtins [max(a, b)] and [min(a, b)]: the first argument is kept
    unless the second one is strictly greater (smaller). *)
Definition max (a b : t) : t := if gt b a then b else a.
Definition min (a b : t) : t := if lt b a then b else a.

(** [a / b]: float division raises on a zero divisor, tensor division
    does not. *)
Definition truediv (a b : t) : result t :=
  match a, b with
  | PyFloat x, PyFloat y =>
      if Float.is_zero y then Raise ZeroDivisionError
      else Ok (PyFloat (Float.div Float.binary64 x y))
  | _, _ => Ok (Tensor (Float.div Float.binary32 (to_tensor a) (to_tensor b)))
  end.

End Num.

(** [tf.maximum(x, y)] and [tf.minimum(x, y)] on float32 scalars: not a
    number when either argument is not a number; otherwise the first
    argument, unless the second one is strictly greater (smaller).  So a
    NaN is passed on, and of two zeros of different sign the first is
    returned. *)
Definition tf_maximum (x y : spec_float) : spec_float :=
  if Float.is_nan x || Float.is_nan y then S754_nan
  else if SFltb x y then y else x.
Definition tf_minimum (x y : spec_float) : spec_float :=
  if Float.is_nan x || Float.is_nan y then S754_nan
  else if SFltb y x then y else x.

(** ** The TD agent ([cephalus/q/td.py]) *)

Module ActionDecision.

(** Modelled from the spec: the class ActionDecision of
    cephalus.q.action_policies, which is not among the sources.  The spec
    lists its fields (state input, step index, selected action, Q-value
    predictions and confidences, reward, target Q-value); td.py reads and
    writes the attributes named here.  A fresh decision has no reward and
    no target. *)
Record t := mk {
  state_input : list spec_float;
  step : nat;
  selected_action : option nat;
  selected_q_value_prediction : option spec_float;
  exploit_q_value_prediction : option spec_float;
  exploit_confidence : option Num.t;
  reward : option Num.t;
  q_value_target : option Num.t;
  q_value_target_confidence : option Num.t
}.

Definition new (state_input : list spec_float) (step : nat) : t :=
  mk state_input step None None None None None None None.

Definition set_reward (d : t) (r : Num.t) : t :=
  mk (state_input d) (step d) (selected_action d) (selected_q_value_prediction d)
     (exploit_q_value_prediction d) (exploit_confidence d)
     (Some r) (q_value_target d) (q_value_target_confidence d).

Definition set_target (d : t) (q : Num.t) (confidence : option Num.t) : t :=
  mk (state_input d) (step d) (selected_action d) (selected_q_value_prediction d)
     (exploit_q_value_prediction d) (exploit_confidence d)
     (reward d) (Some q) confidence.

End ActionDecision.

Module ActionPolicy.

(** Modelled from the spec: the interface ActionPolicy of
    cephalus.q.action_policies, which is not among the sources: an
    action-selection operation that fills in a decision, and a loss
    computed from a closed decision.  The Q-model the policy consults is
    part of the policy function. *)
Record t := mk {
  choose_action : ActionDecision.t -> ActionDecision.t;
  get_loss : ActionDecision.t -> option spec_float
}.

End ActionPolicy.

Module TDAgent.

(** [discount: Union[float, Callable[[float, float], float]]] *)
Inductive Discount :=
| Constant (d : spec_float)
| Scheduled (f : nat -> nat -> spec_float).

Record t := mk {
  max_observable_reward : option Num.t;
  min_observable_reward : option Num.t;
  episodes : nat;
  total_steps : nat;
  _action_policy : ActionPolicy.t;
  discount : Discount;
  stabilize : bool;
  _previous_decision : option ActionDecision.t;
  _current_decision : option ActionDecision.t
}.

(** [TDAgent(q_model, action_policy, discount, stabilize)] *)
Definition __init__ (action_policy : ActionPolicy.t) (discount : Discount)
    (stabilize : bool) : t :=
  mk None None 0 0 action_policy discount stabilize None None.

Definition set_episodes (n : nat) (a : t) : t :=
  mk (max_observable_reward a) (min_observable_reward a) n (total_steps a)
     (_action_policy a) (discount a) (stabilize a)
     (_previous_decision a) (_current_decision a).

Definition set_total_steps (n : nat) (a : t) : t :=
  mk (max_observable_reward a) (min_observable_reward a) (episodes a) n
     (_action_policy a) (discount a) (stabilize a)
     (_previous_decision a) (_current_decision a).

Definition set_bounds (hi lo : option Num.t) (a : t) : t :=
  mk hi lo (episodes a) (total_steps a)
     (_action_policy a) (discount a) (stabilize a)
     (_previous_decision a) (_current_decision a).

Definition set_decisions (previous current : option ActionDecision.t) (a : t) : t :=
  mk (max_observable_reward a) (min_observable_reward a) (episodes a) (total_steps a)
     (_action_policy a) (discount a) (stabilize a) previous current.

Definition get_discount (self : t) : spec_float :=
  match discount self with
  | Scheduled f => f (episodes self) (total_steps self)
  | Constant d => d
  end.

(** The two clamps of the stabilized branch: [tf.maximum] against the
    lower bound, then [tf.minimum] against the upper bound, each only when
    the bound is not [None]. *)
Definition stabilized_prediction (self : t) (prediction : spec_float) : spec_float :=
  let prediction :=
    match min_observable_reward self with
    | Some lo => tf_maximum prediction (Num.to_tensor lo)
    | None => prediction
    end in
  match max_observable_reward self with
  | Some hi => tf_minimum prediction (Num.to_tensor hi)
  | None => prediction
  end.

(** [tf.maximum], [tf.minimum] and [float * None] on a missing prediction. *)
Definition need_prediction (self : t) (prediction : option spec_float) : result spec_float :=
  match prediction with
  | Some p => Ok p
  | None =>
      if stabilize self
         && (is_some (min_observable_reward self) || is_some (max_observable_reward self))
      then Raise ValueError else Raise TypeError
  end.

Definition _update_previous_decision : M t unit :=
  self <- get ;;
  match _previous_decision self with
  | None => ret tt
  | Some previous =>
    match ActionDecision.reward previous with
    | None => raise AssertionError
    | Some reward =>
      assert (is_none (ActionDecision.q_value_target previous)) ;;
      result <-
        match _current_decision self with
        | Some current =>
            assert (is_none (ActionDecision.reward current)) ;;
            prediction <-
              lift (need_prediction self (ActionDecision.exploit_q_value_prediction current)) ;;
            let prediction_confidence := ActionDecision.exploit_confidence current in
            let discount := get_discount self in
            if stabilize self then
              let prediction := stabilized_prediction self prediction in
              ret (Num.Tensor
                     (Float.div Float.binary32
                        (Float.add Float.binary32 (Num.to_tensor reward)
                           (Float.mul Float.binary32 (f32 discount) prediction))
                        (f32 (Float.add Float.binary64 (py 1 0) discount))),
                   prediction_confidence)
            else
              ret (Num.Tensor
                     (Float.add Float.binary32 (Num.to_tensor reward)
                        (Float.mul Float.binary32 (f32 discount) prediction)),
                   prediction_confidence)
        | None =>
            let prediction_confidence := Some (Num.PyFloat (py 1 0)) in
            if stabilize self then
              let discount := get_discount self in
              q <- lift (Num.truediv reward
                           (Num.PyFloat (Float.add Float.binary64 (py 1 0) discount))) ;;
              ret (q, prediction_confidence)
            else
              ret (reward, prediction_confidence)
        end ;;
      modify (set_decisions
                (Some (ActionDecision.set_target previous (fst result) (snd result)))
                (_current_decision self))
    end
  end.

(** The two [print] calls evaluate [selected_q_value_prediction.numpy()]
    and [float(q_value_target)], which raise on [None]. *)
Definition _close_previous_decision : M t (option spec_float) :=
  self <- get ;;
  loss <-
    match _previous_decision self with
    | Some previous =>
        (if is_some (ActionDecision.selected_q_value_prediction previous)
         then ret tt else raise AttributeError) ;;
        (if is_some (ActionDecision.q_value_target previous)
         then ret tt else raise TypeError) ;;
        ret (ActionPolicy.get_loss (_action_policy self) previous)
    | None => ret None
    end ;;
  modify (set_decisions (_current_decision self) None) ;;
  ret loss.

(** The bounds update shared by [reset] (with [reward = 0.0]) and
    [accept_reward]. *)
Definition observe (reward : Num.t) (self : t) : t :=
  set_bounds
    (match max_observable_reward self with
     | None => Some reward
     | Some hi => Some (Num.max reward hi)
     end)
    (match min_observable_reward self with
     | None => Some reward
     | Some lo => Some (Num.min reward lo)
     end)
    self.

Definition reset : M t (option spec_float) :=
  self <- get ;;
  modify (set_episodes (episodes self + 1)) ;;
  _update_previous_decision ;;
  self <- get ;;
  (if stabilize self
   then modify (observe (Num.PyFloat (S754_zero false)))
   else ret tt) ;;
  _close_previous_decision.

Definition choose_action (state_input : list spec_float) : M t (option nat) :=
  self <- get ;;
  assert (is_none (_current_decision self)) ;;
  let step :=
    match _previous_decision self with
    | Some previous => ActionDecision.step previous + 1
    | None => 0
    end in
  let decision :=
    ActionPolicy.choose_action (_action_policy self)
      (ActionDecision.new state_input step) in
  modify (set_decisions (_previous_decision self) (Some decision)) ;;
  _update_previous_decision ;;
  ret (ActionDecision.selected_action decision).

Definition accept_reward (reward : Num.t) : M t (option spec_float) :=
  self <- get ;;
  match _current_decision self with
  | None => raise AssertionError
  | Some current =>
    assert (is_none (ActionDecision.reward current)) ;;
    modify (set_total_steps (total_steps self + 1)) ;;
    modify (set_decisions (_previous_decision self)
              (Some (ActionDecision.set_reward current reward))) ;;
    (if stabilize self then modify (observe reward) else ret tt) ;;
    _close_previous_decision
  end.

(** A caller's view of the agent: the three public operations, and the
    agent after a sequence of calls (a call that raises leaves the agent
    as the exception found it). *)
Inductive call :=
| Reset
| ChooseAction (state_input : list spec_float)
| AcceptReward (reward : Num.t).

Definition run_call (c : call) (self : t) : t :=
  match c with
  | Reset => snd (reset self)
  | ChooseAction s => snd (choose_action s self)
  | AcceptReward r => snd (accept_reward r self)
  end.

Definition run_calls (cs : list call) (self : t) : t :=
  fold_left (fun a c => run_call c a) cs self.

(** The range of the reward bounds contains zero. *)
Definition bounds_contain_zero (self : t) : bool :=
  match min_observable_reward self, max_observable_reward self with
  | Some lo, Some hi =>
      Num.le lo (Num.PyFloat (S754_zero false))
      && Num.le (Num.PyFloat (S754_zero false)) hi
  | _, _ => false
  end.

Definition bounds (self : t) : option Num.t * option Num.t :=
  (max_observable_reward self, min_observable_reward self).






(** [clone] *)
Definition clone (self : t) : t :=
  __init__ (_action_policy self) (discount self) (stabilize self).

(** Whether a call returns (rather than raises). *)
Definition returns (c : call) (self : t) : bool :=
  match c with
  | Reset => is_ok (fst (reset self))
  | ChooseAction s => is_ok (fst (choose_action s self))
  | AcceptReward r => is_ok (fst (accept_reward r self))
  end.

(** Whether every call of a sequence returns. *)
Fixpoint all_return (cs : list call) (self : t) : bool :=
  match cs with
  | [] => true
  | c :: cs' => returns c self && all_return cs' (run_call c self)
  end.

(** The calling protocol: [choose_action] and [accept_reward] alternate,
    and [reset] comes only between a reward and the next choice.
    [pending] tells whether a decision awaits its reward. *)
Fixpoint follows_protocol (pending : bool) (cs : list call) : bool :=
  match cs with
  | [] => true
  | Reset :: cs' => negb pending && follows_protocol false cs'
  | ChooseAction _ :: cs' => negb pending && follows_protocol true cs'
  | AcceptReward _ :: cs' => pending && follows_protocol false cs'
  end.

Definition count_resets (cs : list call) : nat :=
  length (List.filter (fun c => match c with Reset => true | _ => false end) cs).

Definition count_rewards (cs : list call) : nat :=
  length (List.filter (fun c => match c with AcceptReward _ => true | _ => false end) cs).

(** Both bounds are set and [v] lies between them. *)
Definition within_bounds (v : Num.t) (self : t) : bool :=
  match min_observable_reward self, max_observable_reward self with
  | Some lo, Some hi => Num.le lo v && Num.le v hi
  | _, _ => false
  end.

(** What the agent asks of its policy: [choose_action] fills in a
    decision; it leaves the reward and the target as they are and supplies
    the selected and the exploit prediction. *)
Definition fills_in (policy : ActionPolicy.t) : Prop :=
  forall d,
    let d' := ActionPolicy.choose_action policy d in
    ActionDecision.reward d' = ActionDecision.reward d
    /\ ActionDecision.q_value_target d' = ActionDecision.q_value_target d
    /\ is_some (ActionDecision.selected_q_value_prediction d') = true
    /\ is_some (ActionDecision.exploit_q_value_prediction d') = true.

(** [1.0 + discount] is never zero, whatever the counters are. *)
Definition discount_not_minus_one (discount : Discount) : Prop :=
  match discount with
  | Constant d => Float.is_zero (Float.add Float.binary64 (py 1 0) d) = false
  | Scheduled f =>
      forall episodes total_steps,
        Float.is_zero (Float.add Float.binary64 (py 1 0) (f episodes total_steps)) = false
  end.

End TDAgent.

(** ** The TD targets as the specification words them *)

Module TDSpec.

(** A bound that has been observed meets the float32 prediction as a
    float32. *)
Definition bound (b : option Num.t) : option spec_float :=
  match b with
  | Some v => Some (Num.to_tensor v)
  | None => None
  end.

Definition not_a_number (b : option spec_float) : bool :=
  match b with Some b => Float.is_nan b | None => false end.

(** [clamp(p, min_r, max_r)], each clamp applied only when its bound has
    been observed: [p] is raised to [min_r] where it lies below it, and
    what that gives is lowered to [max_r] where it lies above it.  As in
    the rest of the formula, the result is not a number when [p] or a
    bound is not a number. *)
Definition clamp (p : spec_float) (min_r max_r : option Num.t) : spec_float :=
  if Float.is_nan p || not_a_number (bound min_r) || not_a_number (bound max_r)
  then S754_nan
  else
    let raised := match bound min_r with
                  | Some lo => if SFltb p lo then lo else p
                  | None => p
                  end in
    match bound max_r with
    | Some hi => if SFltb hi raised then hi else raised
    | None => raised
    end.

(** [(r + d * clamp(p, min_r, max_r)) / (1 + d)]: the sum [1 + d] is a
    Python float, everything else is float32 tensor arithmetic. *)
Definition stabilized_target (r : Num.t) (d p : spec_float)
    (min_r max_r : option Num.t) : Num.t :=
  Num.Tensor
    (Float.div Float.binary32
       (Float.add Float.binary32 (Num.to_tensor r)
          (Float.mul Float.binary32 (f32 d) (clamp p min_r max_r)))
       (f32 (Float.add Float.binary64 (py 1 0) d))).

(** [r + d * p] *)
Definition plain_target (r : Num.t) (d p : spec_float) : Num.t :=
  Num.Tensor
    (Float.add Float.binary32 (Num.to_tensor r)
       (Float.mul Float.binary32 (f32 d) p)).

(** [r / (1 + d)], the end-of-episode target with stabilization. *)
Definition final_target (r : Num.t) (d : spec_float) : result Num.t :=
  Num.truediv r (Num.PyFloat (Float.add Float.binary64 (py 1 0) d)).

End TDSpec.

(** ** Tensors *)

Module Tensor.

(** A float32 tensor: its shape and its values in row-major order. *)
Record t := mk { shape : list nat; values : list spec_float }.

Definition scalar (x : spec_float) : t := mk [] [x].

(** [tf.zeros(shape)] *)
Definition zeros (shape : list nat) : t :=
  mk shape (repeat (S754_zero false) (fold_right Nat.mul 1 shape)).

(** [tf.reduce_any(tf.math.is_nan(x))] *)
Definition any_nan (x : t) : bool := existsb Float.is_nan (values x).

Definition map (f : spec_float -> spec_float) (x : t) : t :=
  mk (shape x) (List.map f (values x)).

(** Element-wise sum of two tensors of one shape. *)
Definition add (x y : t) : result t :=
  if bool_decide (shape x = shape y)
  then Ok (mk (shape x) (zip_with (Float.add Float.binary32) (values x) (values y)))
  else Raise InvalidArgumentError.

(** [tf.add_n(inputs)]: the inputs are summed from left to right; all
    must have one shape, and there must be at least one. *)
Definition add_n (inputs : list t) : result t :=
  match inputs with
  | [] => Raise ValueError
  | x :: rest =>
      fold_left (fun acc y => match acc with
                              | Ok a => add a y
                              | Raise e => Raise e
                              end) rest (Ok x)
  end.

(** [s * x] for a Python float [s]. *)
Definition rmul (s : spec_float) (x : t) : t :=
  map (Float.mul Float.binary32 (f32 s)) x.

(** [x / s] for a Python float [s]. *)
Definition truediv (x : t) (s : spec_float) : t :=
  map (fun v => Float.div Float.binary32 v (f32 s)) x.

(** [x / n] for a Python int [n]. *)
Definition truediv_int (x : t) (n : nat) : t :=
  map (fun v => Float.div Float.binary32 v (Float.of_Z Float.binary32 (Z.of_nat n))) x.

(** [tf.clip_by_value(x, lo, hi)], which is
    [tf.maximum(tf.minimum(x, hi), lo)]. *)
Definition clip_by_value (x : t) (lo hi : spec_float) : t :=
  map (fun v => tf_maximum (tf_minimum v (f32 hi)) (f32 lo)) x.

(** [tf.concat([x, y], axis=-1)] on two vectors. *)
Definition concat (x y : t) : result t :=
  match shape x, shape y with
  | [n], [m] => Ok (mk [n + m] (values x ++ values y))
  | _, _ => Raise InvalidArgumentError
  end.

(** Every value is a float32: a representation the format has. *)
Definition valid (x : t) : bool :=
  forallb (valid_binary (Float.prec Float.binary32) (Float.emax Float.binary32))
          (values x).

(** Every value lies in [[lo, hi]]. *)
Definition within (lo hi : spec_float) (x : t) : bool :=
  forallb (fun v => SFleb (f32 lo) v && SFleb v (f32 hi)) (values x).

End Tensor.

(** A [tf.Variable] is known by its identity; its current value belongs
    to the TensorFlow runtime. *)
Inductive TfVariable :=
| KernelVariable (name : string) (initial_value : Tensor.t)
| ModuleVariable (owner index : nat).

(** [Union[tf.Tensor, tf.Variable]] *)
Inductive TensorOrVariable :=
| IsTensor (x : Tensor.t)
| IsVariable (v : TfVariable).

Definition is_variable (x : TensorOrVariable) : bool :=
  match x with IsVariable _ => true | IsTensor _ => false end.

(** ** Gradient tapes and frames *)

Module GradientTape.

(** [tf.GradientTape(persistent=True, watch_accessed_variables=False)] *)
Record t := mk { _recording : bool; _watched : list TensorOrVariable }.

Definition new : t := mk false [].
Definition __enter__ (tape : t) : t := mk true (_watched tape).
Definition __exit__ (tape : t) : t := mk false (_watched tape).
Definition watch (tape : t) (weight : TensorOrVariable) : t :=
  mk (_recording tape) (_watched tape ++ [weight]).

End GradientTape.

Module StateFrame.

(** [InputSample] of cephalus.modules.interface, which is not among the
    sources: frame.py names it as the element type of [input_samples] only,
    and kernel.py neither builds nor reads a sample.  A sample is known
    here by its identity. *)
Inductive InputSample := InputSampleRef (id : nat).

Section WithData.
Context {Data : Type}.

(** The dataclass of frame.py, field by field.  [stream_id],
    [previous_state] and [tape] have no default: the constructor requires
    them.  The last two fields are not declared in frame.py: they are the
    attributes kernel.py assigns to a frame ([input_tensors] in
    [gather_inputs], [current_state_gradient] in [step]) and reads
    ([input_tensors], in [gather_inputs] and [predict_state]).  Such an
    attribute does not exist on a frame until something assigns it
    ([None] here), and reading it before raises [AttributeError]; once
    assigned, [input_tensors] holds [None] or a list. *)
Record t := mk {
  stream_id : string;
  previous_state : TensorOrVariable;
  tape : option GradientTape.t;
  clock_ticks : Z;
  input_samples : option (list InputSample);
  attended_input_tensor : option Tensor.t;
  current_state : option Tensor.t;
  combined_loss : option Tensor.t;
  trained : bool;
  module_data : gmap nat Data;
  input_tensors : option (option (list TensorOrVariable));
  current_state_gradient : option Tensor.t
}.

(** The frame the constructor builds from its three required arguments:
    every other field has its default, and no further attribute exists. *)
Definition new (stream_id : string) (previous_state : TensorOrVariable)
    (tape : option GradientTape.t) : t :=
  mk stream_id previous_state tape 0 None None None None false ∅ None None.

(** [StateFrame(stream_id=..., previous_state=..., tape=...)]; a call that
    does not pass [stream_id] ([None] here) raises [TypeError]. *)
Definition __init__ (stream_id : option string) (previous_state : TensorOrVariable)
    (tape : option GradientTape.t) : result t :=
  match stream_id with
  | Some stream_id => Ok (new stream_id previous_state tape)
  | None => Raise TypeError
  end.

(** [frame.input_tensors], read *)
Definition get_input_tensors (f : t) : result (option (list TensorOrVariable)) :=
  match input_tensors f with
  | Some value => Ok value
  | None => Raise AttributeError
  end.

Definition set_module_data (module : nat) (data : Data) (f : t) : t :=
  mk (stream_id f) (previous_state f) (tape f) (clock_ticks f) (input_samples f)
     (attended_input_tensor f) (current_state f) (combined_loss f) (trained f)
     (<[module := data]> (module_data f))
     (input_tensors f) (current_state_gradient f).

(** [frame.input_tensors = value] *)
Definition set_input_tensors (value : option (list TensorOrVariable)) (f : t) : t :=
  mk (stream_id f) (previous_state f) (tape f) (clock_ticks f) (input_samples f)
     (attended_input_tensor f) (current_state f) (combined_loss f) (trained f)
     (module_data f)
     (Some value) (current_state_gradient f).

Definition set_attended_input_tensor (x : option Tensor.t) (f : t) : t :=
  mk (stream_id f) (previous_state f) (tape f) (clock_ticks f) (input_samples f)
     x (current_state f) (combined_loss f) (trained f)
     (module_data f)
     (input_tensors f) (current_state_gradient f).

Definition set_current_state (x : Tensor.t) (f : t) : t :=
  mk (stream_id f) (previous_state f) (tape f) (clock_ticks f) (input_samples f)
     (attended_input_tensor f) (Some x) (combined_loss f) (trained f)
     (module_data f)
     (input_tensors f) (current_state_gradient f).

Definition set_combined_loss (x : Tensor.t) (f : t) : t :=
  mk (stream_id f) (previous_state f) (tape f) (clock_ticks f) (input_samples f)
     (attended_input_tensor f) (current_state f) (Some x) (trained f)
     (module_data f)
     (input_tensors f) (current_state_gradient f).

Definition set_tape (tape : option GradientTape.t) (f : t) : t :=
  mk (stream_id f) (previous_state f) tape (clock_ticks f) (input_samples f)
     (attended_input_tensor f) (current_state f) (combined_loss f) (trained f)
     (module_data f)
     (input_tensors f) (current_state_gradient f).

Definition set_trained (b : bool) (f : t) : t :=
  mk (stream_id f) (previous_state f) (tape f) (clock_ticks f) (input_samples f)
     (attended_input_tensor f) (current_state f) (combined_loss f) b
     (module_data f)
     (input_tensors f) (current_state_gradient f).

(** [frame.current_state_gradient = x] *)
Definition set_current_state_gradient (x : Tensor.t) (f : t) : t :=
  mk (stream_id f) (previous_state f) (tape f) (clock_ticks f) (input_samples f)
     (attended_input_tensor f) (current_state f) (combined_loss f) (trained f)
     (module_data f)
     (input_tensors f) (Some x).

End WithData.
Arguments t : clear implicits.
End StateFrame.

(** ** Configuration and modules *)

Module StateKernelConfig.
Section WithRuntime.
Context {V : Type}.

(** Modelled from the spec: the class StateKernelConfig of
    cephalus.config, which is not among the sources.  It exposes state
    width, input width, optimizer, future-gradient coefficient and a
    stabilization flag (the model template matters to the providers
    only).  The optimizer's [apply_gradients] updates the runtime's
    variables from (gradient, weight) pairs. *)
Record t := mk {
  state_width : nat;
  input_width : nat;
  optimizer : V -> list (option Tensor.t * TensorOrVariable) -> result V;
  future_gradient_coefficient : spec_float;
  stabilized_gradient : bool
}.

End WithRuntime.
Arguments t : clear implicits.
End StateKernelConfig.

(** What [module.configure(kernel)] does to the kernel: assignments to
    the kernel's properties. *)
Inductive registration :=
| Set_state_prediction_provider
| Set_retroactive_gradient_provider
| Set_input_attention_provider
| Set_initial_state (value : TensorOrVariable)
| Set_default_input (value : TensorOrVariable).

(** Whether an assignment sets the initial state, and whether it
    designates the state prediction provider. *)
Definition sets_initial_state (r : registration) : bool :=
  match r with Set_initial_state _ => true | _ => false end.

Definition designates_state_prediction (r : registration) : bool :=
  match r with Set_state_prediction_provider => true | _ => false end.

Module StateKernelModule.
Section WithRuntime.
Context {Environment Data V : Type}.

(** Modelled from the spec: the interfaces of cephalus.modules.interface,
    which are not among the sources.  A module has an identity, the
    capabilities kernel.py tests with [isinstance], a loss scale, and the
    methods kernel.py calls.  A method reads the runtime's variables
    [V] and the frames it is given, and returns a value ([None] included)
    or raises; it does not write the fields of a frame that the kernel
    owns ([attend_inputs] yields the frame's attended input tensor).
    [predict_state] also reads the kernel the module belongs to:
    state_prediction.py evaluates [self.kernel.initial_state] there, so
    the method is given what that property yields when it is called.
    [configure] lists the assignments [module.configure(kernel)] makes to
    the kernel's properties. *)
Record t := mk {
  id : nat;
  is_InputProvider : bool;
  is_GradientProvider : bool;
  is_RetroactiveLossProvider : bool;
  loss_scale : spec_float;
  configure : StateKernelConfig.t V -> list registration;
  get_trainable_weights : list TfVariable;
  get_new_frame_data :
    V -> StateFrame.t Data -> option (StateFrame.t Data) -> result (option Data);
  get_input : V -> Environment -> StateFrame.t Data -> result (option Tensor.t);
  attend_inputs : V -> StateFrame.t Data -> result (option Tensor.t);
  predict_state :
    result TensorOrVariable -> V -> StateFrame.t Data -> result (option TensorOrVariable);
  get_loss :
    V -> StateFrame.t Data -> StateFrame.t Data -> result (option Tensor.t);
  get_current_state_gradient :
    V -> Environment -> StateFrame.t Data -> result (option Tensor.t);
  train_retroactive_loss :
    V -> StateFrame.t Data -> StateFrame.t Data -> result V
}.

End WithRuntime.
Arguments t : clear implicits.
End StateKernelModule.


(** ** The state kernel ([cephalus/kernel.py]) *)

Module StateKernel.
Section WithRuntime.
Context {Environment Data V : Type}.

Abbreviation KernelModule := (StateKernelModule.t Environment Data V).
Abbreviation Frame := (StateFrame.t Data).
Abbreviation Config := (StateKernelConfig.t V).

(** [_modules] is a Python set.  The list holds its elements, without
    duplicates, in the order in which a loop over the set meets them;
    Python does not say which order that is, and the model takes the order
    of insertion.  What is proved below of a loop over the modules is
    stated against the kernel's own list, whatever its order. *)
Record t := mk {
  _config : option Config;
  _initial_state : option TensorOrVariable;
  _initial_state_is_trainable : bool;
  _default_input : option TensorOrVariable;
  _default_input_is_trainable : bool;
  _modules : list KernelModule;
  _input_attention_provider : option KernelModule;
  _state_prediction_provider : option KernelModule;
  _retroactive_gradient_provider : option KernelModule;
  _trainable_weights : option (list TensorOrVariable)
}.

Definition set__config (c : option Config) (k : t) : t :=
  mk c (_initial_state k) (_initial_state_is_trainable k)
     (_default_input k) (_default_input_is_trainable k) (_modules k)
     (_input_attention_provider k) (_state_prediction_provider k)
     (_retroactive_gradient_provider k) (_trainable_weights k).

Definition set__initial_state (x : option TensorOrVariable) (trainable : bool) (k : t) : t :=
  mk (_config k) x trainable
     (_default_input k) (_default_input_is_trainable k) (_modules k)
     (_input_attention_provider k) (_state_prediction_provider k)
     (_retroactive_gradient_provider k) (_trainable_weights k).

Definition set__default_input (x : option TensorOrVariable) (trainable : bool) (k : t) : t :=
  mk (_config k) (_initial_state k) (_initial_state_is_trainable k)
     x trainable (_modules k)
     (_input_attention_provider k) (_state_prediction_provider k)
     (_retroactive_gradient_provider k) (_trainable_weights k).

Definition set__modules (ms : list KernelModule) (k : t) : t :=
  mk (_config k) (_initial_state k) (_initial_state_is_trainable k)
     (_default_input k) (_default_input_is_trainable k) ms
     (_input_attention_provider k) (_state_prediction_provider k)
     (_retroactive_gradient_provider k) (_trainable_weights k).

Definition set__input_attention_provider (m : option KernelModule) (k : t) : t :=
  mk (_config k) (_initial_state k) (_initial_state_is_trainable k)
     (_default_input k) (_default_input_is_trainable k) (_modules k)
     m (_state_prediction_provider k)
     (_retroactive_gradient_provider k) (_trainable_weights k).

Definition set__state_prediction_provider (m : option KernelModule) (k : t) : t :=
  mk (_config k) (_initial_state k) (_initial_state_is_trainable k)
     (_default_input k) (_default_input_is_trainable k) (_modules k)
     (_input_attention_provider k) m
     (_retroactive_gradient_provider k) (_trainable_weights k).

Definition set__retroactive_gradient_provider (m : option KernelModule) (k : t) : t :=
  mk (_config k) (_initial_state k) (_initial_state_is_trainable k)
     (_default_input k) (_default_input_is_trainable k) (_modules k)
     (_input_attention_provider k) (_state_prediction_provider k)
     m (_trainable_weights k).

Definition set__trainable_weights (ws : option (list TensorOrVariable)) (k : t) : t :=
  mk (_config k) (_initial_state k) (_initial_state_is_trainable k)
     (_default_input k) (_default_input_is_trainable k) (_modules k)
     (_input_attention_provider k) (_state_prediction_provider k)
     (_retroactive_gradient_provider k) ws.

(** A kernel as the class attributes and [__init__] leave it, before any
    module is added. *)
Definition empty : t := mk None None false None false [] None None None None.

(** *** Properties *)

Definition state_width (self : t) : result nat :=
  match _config self with
  | Some c => Ok (StateKernelConfig.state_width c)
  | None => Raise AssertionError
  end.

Definition input_width (self : t) : result nat :=
  match _config self with
  | Some c => Ok (StateKernelConfig.input_width c)
  | None => Raise AssertionError
  end.

Definition optimizer (self : t) :
    result (V -> list (option Tensor.t * TensorOrVariable) -> result V) :=
  match _config self with
  | Some c => Ok (StateKernelConfig.optimizer c)
  | None => Raise AssertionError
  end.

(** The two properties that read the configuration without an
    assertion: on a kernel without one they raise [AttributeError]. *)
Definition future_gradient_coefficient (self : t) : result spec_float :=
  match _config self with
  | Some c => Ok (StateKernelConfig.future_gradient_coefficient c)
  | None => Raise AttributeError
  end.

Definition stabilized_gradient (self : t) : result bool :=
  match _config self with
  | Some c => Ok (StateKernelConfig.stabilized_gradient c)
  | None => Raise AttributeError
  end.

(** [state_prediction_provider.setter] *)
Definition set_state_prediction_provider (module : KernelModule) : M t unit :=
  self <- get ;;
  assert (is_none (_state_prediction_provider self)) ;;
  modify (set__state_prediction_provider (Some module)).

(** [retroactive_gradient_provider.setter] *)
Definition set_retroactive_gradient_provider (module : KernelModule) : M t unit :=
  self <- get ;;
  assert (is_none (_retroactive_gradient_provider self)) ;;
  modify (set__retroactive_gradient_provider (Some module)).

(** [input_attention_provider.setter] *)
Definition set_input_attention_provider (value : KernelModule) : M t unit :=
  modify (set__input_attention_provider (Some value)).

Definition initial_state (self : t) : result TensorOrVariable :=
  match _initial_state self with
  | Some x => Ok x
  | None => Raise AssertionError
  end.

(** [initial_state.setter] *)
Definition set_initial_state (value : TensorOrVariable) : M t unit :=
  self <- get ;;
  assert (is_none (_initial_state self)) ;;
  modify (set__initial_state (Some value) (is_variable value)).

Definition initial_state_is_trainable (self : t) : result bool :=
  match _initial_state self with
  | Some _ => Ok (_initial_state_is_trainable self)
  | None => Raise AssertionError
  end.

Definition default_input (self : t) : result TensorOrVariable :=
  match _default_input self with
  | Some x => Ok x
  | None => Raise AssertionError
  end.

(** [default_input.setter] *)
Definition set_default_input (value : TensorOrVariable) : M t unit :=
  modify (set__default_input (Some value) (is_variable value)).

Definition default_input_is_trainable (self : t) : result bool :=
  match _default_input self with
  | Some _ => Ok (_default_input_is_trainable self)
  | None => Raise AssertionError
  end.

(** *** Modules and configuration *)

Definition recompute_trainable_weights : M t unit :=
  self <- get ;;
  assert (is_some (_config self)) ;;
  train_initial <- lift (initial_state_is_trainable self) ;;
  from_initial <-
    (if train_initial : bool
     then x <- lift (initial_state self) ;; ret [x]
     else ret []) ;;
  train_default <- lift (default_input_is_trainable self) ;;
  from_default <-
    (if train_default : bool
     then x <- lift (default_input self) ;; ret [x]
     else ret []) ;;
  let from_modules :=
    flat_map (fun m => List.map IsVariable (StateKernelModule.get_trainable_weights m))
             (_modules self) in
  modify (set__trainable_weights (Some (from_initial ++ from_default ++ from_modules))).

Definition get_trainable_weights (self : t) : result (list TensorOrVariable) :=
  match _config self with
  | None => Raise AssertionError
  | Some _ =>
      match _trainable_weights self with
      | None => Raise AssertionError
      | Some ws => Ok ws
      end
  end.

(** [module.configure(kernel)]: the module's assignments, made through
    the kernel's property setters. *)
Definition module_configure (module : KernelModule) : M t unit :=
  self <- get ;;
  match _config self with
  | None => raise AttributeError
  | Some config =>
      for_each (StateKernelModule.configure module config)
        (fun _ r =>
           match r with
           | Set_state_prediction_provider => set_state_prediction_provider module
           | Set_retroactive_gradient_provider => set_retroactive_gradient_provider module
           | Set_input_attention_provider => set_input_attention_provider module
           | Set_initial_state value => set_initial_state value
           | Set_default_input value => set_default_input value
           end) tt
  end.

(** [module in self._modules], by identity. *)
Definition has_module (module : KernelModule) (self : t) : bool :=
  existsb (fun m => Nat.eqb (StateKernelModule.id m) (StateKernelModule.id module))
          (_modules self).

Definition add_module (module : KernelModule) : M t unit :=
  self <- get ;;
  if has_module module self then ret tt
  else
    modify (set__modules (_modules self ++ [module])) ;;
    if is_some (_config self)
    then module_configure module ;; recompute_trainable_weights
    else ret tt.

Definition discard_module (module : KernelModule) : M t unit :=
  self <- get ;;
  assert (negb (match _state_prediction_provider self with
                | Some p => Nat.eqb (StateKernelModule.id p) (StateKernelModule.id module)
                | None => false
                end)) ;;
  if has_module module self then
    modify (set__modules
              (List.filter (fun m => negb (Nat.eqb (StateKernelModule.id m)
                                              (StateKernelModule.id module)))
                      (_modules self))) ;;
    if is_some (_config self) then recompute_trainable_weights else ret tt
  else ret tt.

(** The identities of the kernel's modules. *)
Definition module_ids (self : t) : list nat :=
  List.map StateKernelModule.id (_modules self).

(** The identity of an object created now: one no module of the kernel has. *)
Definition fresh_id (self : t) : nat :=
  S (fold_right Nat.max 0 (List.map StateKernelModule.id (_modules self))).

Section Configure.
(** The default providers [StandardInputAttentionProvider()] and
    [StandardStatePredictionProvider()], given the identity of the new
    object. *)
Context (StandardInputAttentionProvider StandardStatePredictionProvider :
           nat -> KernelModule).

Definition configure (config : Config) : M t unit :=
  self <- get ;;
  assert (is_none (_config self)) ;;
  modify (set__config (Some config)) ;;
  for_each (_modules self) (fun _ module => module_configure module) tt ;;
  self <- get ;;
  (if is_none (_input_attention_provider self)
   then add_module (StandardInputAttentionProvider (fresh_id self))
   else ret tt) ;;
  self <- get ;;
  (if is_none (_state_prediction_provider self)
   then add_module (StandardStatePredictionProvider (fresh_id self))
   else ret tt) ;;
  self <- get ;;
  (if is_none (_initial_state self)
   then set_initial_state
          (IsVariable (KernelVariable "initial_state"
                         (Tensor.zeros [StateKernelConfig.state_width config])))
   else ret tt) ;;
  recompute_trainable_weights.

(** [StateKernel(modules, config)] *)
Definition __init__ (modules : list KernelModule) (config : option Config) : M t unit :=
  for_each modules (fun _ module => add_module module) tt ;;
  match config with
  | Some c => configure c
  | None => ret tt
  end.

(** What a program does to a kernel before it runs it, and the kernel
    after a sequence of such operations (an operation that raises leaves
    the kernel as the exception found it). *)
Inductive operation :=
| AddModule (module : KernelModule)
| DiscardModule (module : KernelModule)
| Configure (config : Config).

Definition run_operation (o : operation) (self : t) : t :=
  match o with
  | AddModule m => snd (add_module m self)
  | DiscardModule m => snd (discard_module m self)
  | Configure c => snd (configure c self)
  end.

Definition run_operations (os : list operation) (self : t) : t :=
  fold_left (fun k o => run_operation o k) os self.

End Configure.

(** *** Frames and steps *)

(** The objects a run of the kernel lives in: the frames that exist (a
    frame is referred to by its position; a frame comes to exist when
    [StateFrame(...)] returns), and the TensorFlow runtime (the variables
    and what the optimizer keeps). *)
Record World := mkWorld {
  frames : list Frame;
  runtime : V
}.

Definition frame (f : nat) : M World Frame :=
  fun w => match frames w !! f with
           | Some fr => (Ok fr, w)
           | None => (Raise InvalidReference, w)
           end.

Definition update_frame (f : nat) (g : Frame -> Frame) : M World unit :=
  modify (fun w => mkWorld (alter g f (frames w)) (runtime w)).

Definition allocate (fr : Frame) : M World nat :=
  fun w => (Ok (length (frames w)), mkWorld (frames w ++ [fr]) (runtime w)).

Definition get_runtime : M World V := fun w => (Ok (runtime w), w).

Definition put_runtime (v : V) : M World unit :=
  modify (fun w => mkWorld (frames w) v).

Definition optional_frame (f : option nat) : M World (option Frame) :=
  match f with
  | Some f => fr <- frame f ;; ret (Some fr)
  | None => ret None
  end.

Definition get_previous_state (self : t) (previous_frame : option Frame) :
    result TensorOrVariable :=
  match _config self with
  | None => Raise AssertionError
  | Some _ =>
      match previous_frame with
      | None => initial_state self
      | Some fr =>
          match StateFrame.current_state fr with
          | Some previous_state => Ok (IsTensor previous_state)
          | None => Raise AssertionError
          end
      end
  end.

Definition new_gradient_tape (self : t) : result GradientTape.t :=
  match _config self with
  | None => Raise AssertionError
  | Some _ =>
      let tape := GradientTape.__enter__ GradientTape.new in
      match get_trainable_weights self with
      | Ok weights => Ok (fold_left GradientTape.watch weights tape)
      | Raise e => Raise e
      end
  end.

(** The constructor is called with [previous_state] and [tape] alone. *)
Definition new_frame (self : t) (previous_frame : option nat) : M World nat :=
  assert (is_some (_config self)) ;;
  previous <- optional_frame previous_frame ;;
  previous_state <- lift (get_previous_state self previous) ;;
  tape <- lift (new_gradient_tape self) ;;
  fr <- lift (StateFrame.__init__ None previous_state (Some tape)) ;;
  new_frame <- allocate fr ;;
  for_each (_modules self)
    (fun _ module =>
       v <- get_runtime ;;
       fr <- frame new_frame ;;
       previous <- optional_frame previous_frame ;;
       module_data <- lift (StateKernelModule.get_new_frame_data module v fr previous) ;;
       match module_data with
       | Some data =>
           update_frame new_frame
             (StateFrame.set_module_data (StateKernelModule.id module) data)
       | None => ret tt
       end) tt ;;
  ret new_frame.

Definition gather_inputs (self : t) (environment : Environment) (f : nat) : M World unit :=
  assert (is_some (_config self)) ;;
  fr <- frame f ;;
  assert (is_none (StateFrame.current_state fr)) ;;
  assigned <- lift (StateFrame.get_input_tensors fr) ;;
  assert (is_none assigned) ;;
  default <- lift (default_input self) ;;
  input_tensors <-
    for_each (_modules self)
      (fun input_tensors module =>
         if negb (StateKernelModule.is_InputProvider module) then ret input_tensors
         else
           v <- get_runtime ;;
           fr <- frame f ;;
           input_tensor <- lift (StateKernelModule.get_input module v environment fr) ;;
           match input_tensor with
           | Some x =>
               width <- lift (input_width self) ;;
               assert (bool_decide (Tensor.shape x = [width])) ;;
               ret (input_tensors ++ [IsTensor x])
           | None => ret input_tensors
           end) [default] ;;
  update_frame f (StateFrame.set_input_tensors (Some input_tensors)).

(** [self.input_attention_provider.attend_inputs(frame)] *)
Definition attend_inputs (self : t) (f : nat) : M World unit :=
  match _input_attention_provider self with
  | None => raise AttributeError
  | Some provider =>
      v <- get_runtime ;;
      fr <- frame f ;;
      attended <- lift (StateKernelModule.attend_inputs provider v fr) ;;
      update_frame f (StateFrame.set_attended_input_tensor attended)
  end.

Section Runtime.
(** What the TensorFlow runtime supplies: the value of a variable,
    [tape.gradient(loss, weights)] on a frame's tape, and
    [tf.clip_by_global_norm(gradients, 1.0)]. *)
Context (read_variable : V -> TfVariable -> Tensor.t).
Context (tape_gradient :
           V -> Frame -> Tensor.t -> list TensorOrVariable ->
           result (list (option Tensor.t))).
Context (clip_by_global_norm : list (option Tensor.t) -> list (option Tensor.t)).

Definition value_of (v : V) (x : TensorOrVariable) : Tensor.t :=
  match x with
  | IsTensor x => x
  | IsVariable var => read_variable v var
  end.

Definition predict_state (self : t) (f : nat) : M World unit :=
  assert (is_some (_config self)) ;;
  fr <- frame f ;;
  assigned <- lift (StateFrame.get_input_tensors fr) ;;
  assert (is_some assigned) ;;
  assert (is_none (StateFrame.current_state fr)) ;;
  match _state_prediction_provider self with
  | None => raise AssertionError
  | Some provider =>
      v <- get_runtime ;;
      new_state <-
        lift (StateKernelModule.predict_state provider (initial_state self) v fr) ;;
      match new_state with
      | None => raise AssertionError
      | Some new_state =>
          let new_state := value_of v new_state in
          assert (negb (Tensor.any_nan new_state)) ;;
          let new_state := Tensor.clip_by_value new_state (py_neg 1000000 0) (py 1000000 0) in
          update_frame f (StateFrame.set_current_state new_state)
      end
  end.

(** The loop of [get_loss]: the scaled losses and the total scale. *)
Fixpoint collect_losses (modules : list KernelModule) (v : V)
    (previous_frame current_frame : Frame)
    (losses : list Tensor.t) (total_scale : spec_float) :
    result (list Tensor.t * spec_float) :=
  match modules with
  | [] => Ok (losses, total_scale)
  | module :: rest =>
      match StateKernelModule.get_loss module v previous_frame current_frame with
      | Raise e => Raise e
      | Ok module_loss =>
          match module_loss with
          | Some loss =>
              if SFltb (S754_zero false) (StateKernelModule.loss_scale module) then
                collect_losses rest v previous_frame current_frame
                  (losses ++ [Tensor.rmul (StateKernelModule.loss_scale module) loss])
                  (Float.add Float.binary64 total_scale (StateKernelModule.loss_scale module))
              else collect_losses rest v previous_frame current_frame losses total_scale
          | None => collect_losses rest v previous_frame current_frame losses total_scale
          end
      end
  end.

Definition get_loss (self : t) (v : V) (previous_frame current_frame : Frame) :
    result (option Tensor.t) :=
  match _config self with
  | None => Raise AssertionError
  | Some _ =>
      if is_none (StateFrame.current_state previous_frame) then Raise AssertionError
      else
        match collect_losses (_modules self) v previous_frame current_frame
                [] (S754_zero false) with
        | Raise e => Raise e
        | Ok (losses, total_scale) =>
            if negb (SFltb (S754_zero false) total_scale
                     || match losses with [] => true | _ => false end)
            then Raise AssertionError
            else
              match losses with
              | [loss] => Ok (Some (Tensor.truediv loss total_scale))
              | [] => Ok None
              | _ =>
                  match Tensor.add_n losses with
                  | Ok sum => Ok (Some (Tensor.truediv sum total_scale))
                  | Raise e => Raise e
                  end
              end
        end
  end.

Definition train (self : t) (previous_frame current_frame : nat) : M World unit :=
  assert (is_some (_config self)) ;;
  previous <- frame previous_frame ;;
  assert (negb (StateFrame.trained previous)) ;;
  assert (is_some (StateFrame.tape previous)) ;;
  try_finally
    (previous <- frame previous_frame ;;
     current <- frame current_frame ;;
     v <- get_runtime ;;
     loss <- lift (get_loss self v previous current) ;;
     let loss := match loss with
                 | Some loss => loss
                 | None => Tensor.zeros []
                 end in
     (if bool_decide (Tensor.shape loss = []) then ret tt else raise ValueError) ;;
     assert (negb (Tensor.any_nan loss)) ;;
     weights <- lift (get_trainable_weights self) ;;
     loss_gradients <- lift (tape_gradient v previous loss weights) ;;
     assert (negb (existsb (fun g => match g with
                                     | Some g => Tensor.any_nan g
                                     | None => false
                                     end) loss_gradients)) ;;
     let loss_gradients := clip_by_global_norm loss_gradients in
     apply_gradients <- lift (optimizer self) ;;
     v <- lift (apply_gradients v (zip loss_gradients weights)) ;;
     put_runtime v ;;
     update_frame previous_frame (StateFrame.set_combined_loss loss) ;;
     for_each (_modules self)
       (fun _ module =>
          if StateKernelModule.is_RetroactiveLossProvider module then
            v <- get_runtime ;;
            previous <- frame previous_frame ;;
            current <- frame current_frame ;;
            v <- lift (StateKernelModule.train_retroactive_loss module v previous current) ;;
            put_runtime v
          else ret tt) tt)
    (previous <- frame previous_frame ;;
     match StateFrame.tape previous with
     | None => raise AttributeError
     | Some tape =>
         update_frame previous_frame
           (StateFrame.set_tape (Some (GradientTape.__exit__ tape))) ;;
         update_frame previous_frame (StateFrame.set_tape None) ;;
         update_frame previous_frame (StateFrame.set_trained true)
     end).

(** The loop of [step] that asks the gradient providers for the current
    state's gradients. *)
Definition collect_state_gradients (self : t) (environment : Environment) (f : nat) :
    M World (list Tensor.t) :=
  for_each (_modules self)
    (fun state_gradients module =>
       if negb (StateKernelModule.is_GradientProvider module) then ret state_gradients
       else
         v <- get_runtime ;;
         fr <- frame f ;;
         state_gradient <-
           lift (StateKernelModule.get_current_state_gradient module v environment fr) ;;
         match state_gradient with
         | Some g =>
             assert (negb (Tensor.any_nan g)) ;;
             ret (state_gradients ++ [g])
         | None => ret state_gradients
         end) [].

Definition step (self : t) (environment : Environment) (previous_frame : option nat) :
    M World nat :=
  f <- new_frame self previous_frame ;;
  gather_inputs self environment f ;;
  attend_inputs self f ;;
  predict_state self f ;;
  match previous_frame with
  | Some previous => train self previous f
  | None => ret tt
  end ;;
  state_gradients <- collect_state_gradients self environment f ;;
  match state_gradients with
  | [] => ret tt
  | _ =>
      sum <- lift (Tensor.add_n state_gradients) ;;
      let combined_gradient := Tensor.truediv_int sum (length state_gradients) in
      update_frame f (StateFrame.set_current_state_gradient combined_gradient)
  end ;;
  ret f.

End Runtime.

(** What training decides about a frame: its [trained] flag and its tape. *)
Definition status (fr : Frame) : bool * option GradientTape.t :=
  (StateFrame.trained fr, StateFrame.tape fr).

Definition statuses (w : World) : list (bool * option GradientTape.t) :=
  List.map status (frames w).

End WithRuntime.
Arguments t : clear implicits.
Arguments World : clear implicits.
End StateKernel.


(** ** The state prediction providers ([cephalus/modules/state_prediction.py]) *)

Module StatePrediction.
Section WithRuntime.
Context {Environment Data V : Type}.

Abbreviation KernelModule := (StateKernelModule.t Environment Data V).

(** A Keras model, cloned from the configuration's template: its
    trainable weights and its value on an input. *)
Record Model := mkModel {
  trainable_weights : list TfVariable;
  apply : V -> Tensor.t -> result Tensor.t
}.

(** Modelled from the spec: what the three providers inherit from
    StatePredictionProvider (cephalus.modules.interface, not among the
    sources): no further capability, no frame data, and a [configure] that
    designates the module as the kernel's state prediction provider.  All
    three return [None] from [get_loss]. *)
Definition provider (id : nat) (loss_scale : spec_float)
    (weights : list TfVariable)
    (predict_state :
       result TensorOrVariable -> V -> StateFrame.t Data ->
       result (option TensorOrVariable)) :
    KernelModule :=
  StateKernelModule.mk id false false false loss_scale
    (fun _ => [Set_state_prediction_provider])
    weights
    (fun _ _ _ => Ok None)
    (fun _ _ _ => Ok None)
    (fun _ _ => Ok None)
    predict_state
    (fun _ _ _ => Ok None)
    (fun _ _ _ => Ok None)
    (fun v _ _ => Ok v).

(** [_predict_state(frame.previous_state, frame.attended_input_tensor)]:
    the state model on the concatenation of the two. *)
Definition model_prediction (read_variable : V -> TfVariable -> Tensor.t)
    (state_model : Model) (v : V) (frame : StateFrame.t Data) :
    result (option TensorOrVariable) :=
  match StateFrame.attended_input_tensor frame with
  | None => Raise ValueError
  | Some attended =>
      let state := match StateFrame.previous_state frame with
                   | IsTensor x => x
                   | IsVariable var => read_variable v var
                   end in
      match Tensor.concat state attended with
      | Raise e => Raise e
      | Ok sm_in =>
          match apply state_model v sm_in with
          | Ok x => Ok (Some (IsTensor x))
          | Raise e => Raise e
          end
      end
  end.

Definition StandardStatePredictionProvider
    (read_variable : V -> TfVariable -> Tensor.t) (state_model : Model)
    (loss_scale : spec_float) (id : nat) : KernelModule :=
  provider id loss_scale (trainable_weights state_model)
    (fun _ => model_prediction read_variable state_model).

(** [predict_state] returns [self.kernel.initial_state], read when it is
    called; the property raises while the kernel has no initial state. *)
Definition NullStatePredictionProvider (loss_scale : spec_float) (id : nat) :
    KernelModule :=
  provider id loss_scale []
    (fun kernel_initial_state _ _ =>
       match kernel_initial_state with
       | Ok x => Ok (Some x)
       | Raise e => Raise e
       end).

Definition UntrainedStatePredictionProvider
    (read_variable : V -> TfVariable -> Tensor.t) (state_model : Model)
    (loss_scale : spec_float) (id : nat) : KernelModule :=
  provider id loss_scale [] (fun _ => model_prediction read_variable state_model).

End WithRuntime.
End StatePrediction.

(** ** The kernel's loss and gradient as the specification words them *)

Module KernelSpec.
Section WithRuntime.
Context {Environment Data V : Type}.

(** The modules that contribute to the loss, in the kernel's order: those
    whose loss is not [None] and whose scale is strictly positive; each
    with its scale and its raw loss. *)
Fixpoint contributions (modules : list (StateKernelModule.t Environment Data V))
    (v : V) (previous_frame current_frame : StateFrame.t Data) :
    result (list (spec_float * Tensor.t)) :=
  match modules with
  | [] => Ok []
  | module :: rest =>
      match StateKernelModule.get_loss module v previous_frame current_frame with
      | Raise e => Raise e
      | Ok loss =>
          match contributions rest v previous_frame current_frame with
          | Raise e => Raise e
          | Ok cs =>
              Ok (match loss with
                  | Some loss =>
                      if SFltb (S754_zero false) (StateKernelModule.loss_scale module)
                      then (StateKernelModule.loss_scale module, loss) :: cs
                      else cs
                  | None => cs
                  end)
          end
      end
  end.

(** The sum of the scales, a Python float. *)
Definition total_scale (cs : list (spec_float * Tensor.t)) : spec_float :=
  fold_left (fun total c => Float.add Float.binary64 total (fst c)) cs (S754_zero false).

(** The scale-weighted average: the sum of [scale * loss] divided by the
    sum of the scales; absent when nothing contributes, and an invariant
    violation when losses exist but the total scale is not positive. *)
Definition weighted_average (cs : list (spec_float * Tensor.t)) : result (option Tensor.t) :=
  match cs with
  | [] => Ok None
  | _ =>
      if SFltb (S754_zero false) (total_scale cs) then
        match Tensor.add_n (List.map (fun c => Tensor.rmul (fst c) (snd c)) cs) with
        | Ok sum => Ok (Some (Tensor.truediv sum (total_scale cs)))
        | Raise e => Raise e
        end
      else Raise AssertionError
  end.

(** The inputs the input-providing modules return for a frame, in the
    kernel's order, those that are [None] left out. *)
Fixpoint provided_inputs (modules : list (StateKernelModule.t Environment Data V))
    (v : V) (environment : Environment) (frame : StateFrame.t Data) :
    result (list Tensor.t) :=
  match modules with
  | [] => Ok []
  | module :: rest =>
      if StateKernelModule.is_InputProvider module then
        match StateKernelModule.get_input module v environment frame with
        | Raise e => Raise e
        | Ok None => provided_inputs rest v environment frame
        | Ok (Some x) =>
            match provided_inputs rest v environment frame with
            | Ok xs => Ok (x :: xs)
            | Raise e => Raise e
            end
        end
      else provided_inputs rest v environment frame
  end.

(** The gradients the gradient-providing modules return for a frame, in
    the kernel's order, those that are [None] left out; a gradient that
    contains a NaN is an assertion error. *)
Fixpoint provided_gradients (modules : list (StateKernelModule.t Environment Data V))
    (v : V) (environment : Environment) (frame : StateFrame.t Data) :
    result (list Tensor.t) :=
  match modules with
  | [] => Ok []
  | module :: rest =>
      if StateKernelModule.is_GradientProvider module then
        match StateKernelModule.get_current_state_gradient module v environment frame with
        | Raise e => Raise e
        | Ok None => provided_gradients rest v environment frame
        | Ok (Some g) =>
            if Tensor.any_nan g then Raise AssertionError
            else match provided_gradients rest v environment frame with
                 | Ok gs => Ok (g :: gs)
                 | Raise e => Raise e
                 end
        end
      else provided_gradients rest v environment frame
  end.

End WithRuntime.

End KernelSpec.


(** ** Concrete instances *)

Module Demo.

(** *** A TD agent *)

(** A policy that always selects action 0 and predicts the Q-value 2.0
    with confidence 1.0; its loss is the target of the closed decision. *)
Definition policy : ActionPolicy.t :=
  ActionPolicy.mk
    (fun d =>
       ActionDecision.mk (ActionDecision.state_input d) (ActionDecision.step d)
         (Some 0) (Some (f32 (py 2 0))) (Some (f32 (py 2 0)))
         (Some (Num.Tensor (f32 (py 1 0))))
         (ActionDecision.reward d) (ActionDecision.q_value_target d)
         (ActionDecision.q_value_target_confidence d))
    (fun d => match ActionDecision.q_value_target d with
              | Some q => Some (Num.to_tensor q)
              | None => None
              end).

(** [TDAgent(q_model, policy, 0.9)] and [TDAgent(q_model, policy, 0.5)] *)
Definition agent : TDAgent.t := TDAgent.__init__ policy (TDAgent.Constant (py 9 1)) true.
Definition agent_half : TDAgent.t := TDAgent.__init__ policy (TDAgent.Constant (py 5 1)) true.

(** After [choose_action], [accept_reward(1.0)]: one decision, rewarded. *)
Definition rewarded : TDAgent.t :=
  TDAgent.run_calls
    [TDAgent.ChooseAction []; TDAgent.AcceptReward (Num.PyFloat (py 1 0))] agent.

(** The agent inside the next [choose_action], as
    [_update_previous_decision] finds it. *)
Definition pending : TDAgent.t :=
  TDAgent.set_decisions (TDAgent._previous_decision rewarded)
    (Some (ActionPolicy.choose_action policy (ActionDecision.new [] 1))) rewarded.

(** After [choose_action], [accept_reward(0.0)] with discount 0.5. *)
Definition rewarded_zero : TDAgent.t :=
  TDAgent.run_calls
    [TDAgent.ChooseAction []; TDAgent.AcceptReward (Num.PyFloat (S754_zero false))]
    agent_half.

(** *** A kernel *)

Definition read_variable (v : unit) (var : TfVariable) : Tensor.t :=
  match var with
  | KernelVariable _ initial_value => initial_value
  | ModuleVariable _ _ => Tensor.zeros []
  end.

Definition tape_gradient (v : unit) (frame : StateFrame.t unit) (loss : Tensor.t)
    (weights : list TensorOrVariable) : result (list (option Tensor.t)) :=
  Ok (List.map (fun _ => None) weights).

Definition clip_by_global_norm (gradients : list (option Tensor.t)) :
    list (option Tensor.t) := gradients.

Definition config : StateKernelConfig.t unit :=
  StateKernelConfig.mk 2 1 (fun v _ => Ok v) (py 9 1) true.

Definition plain_module (id : nat) : StateKernelModule.t unit unit unit :=
  StateKernelModule.mk id false false false (py 1 0)
    (fun _ => []) []
    (fun _ _ _ => Ok None) (fun _ _ _ => Ok None) (fun _ _ => Ok None)
    (fun _ _ _ => Ok None) (fun _ _ _ => Ok None) (fun _ _ _ => Ok None)
    (fun v _ _ => Ok v).

(** An input attention provider: it designates itself, supplies the
    default input and attends to nothing. *)
Definition attention (id : nat) : StateKernelModule.t unit unit unit :=
  StateKernelModule.mk id false false false (py 1 0)
    (fun _ => [Set_input_attention_provider;
               Set_default_input (IsTensor (Tensor.zeros [1]))]) []
    (fun _ _ _ => Ok None) (fun _ _ _ => Ok None)
    (fun _ _ => Ok (Some (Tensor.zeros [1])))
    (fun _ _ _ => Ok None) (fun _ _ _ => Ok None) (fun _ _ _ => Ok None)
    (fun v _ _ => Ok v).

(** The null state prediction provider. *)
Definition prediction (id : nat) : StateKernelModule.t unit unit unit :=
  StatePrediction.NullStatePredictionProvider (py 1 0) id.

(** A state prediction provider whose prediction contains a NaN. *)
Definition nan_prediction (id : nat) : StateKernelModule.t unit unit unit :=
  StatePrediction.provider id (py 1 0) []
    (fun _ _ _ => Ok (Some (IsTensor (Tensor.mk [2] [f32 (py 1 0); S754_nan])))).

(** A module of loss scale 0.1 whose loss is always 0.1. *)
Definition loss_module (id : nat) : StateKernelModule.t unit unit unit :=
  StateKernelModule.mk id false false false (py 1 1)
    (fun _ => []) []
    (fun _ _ _ => Ok None) (fun _ _ _ => Ok None) (fun _ _ => Ok None)
    (fun _ _ _ => Ok None)
    (fun _ _ _ => Ok (Some (Tensor.scalar (f32 (py 1 1)))))
    (fun _ _ _ => Ok None)
    (fun v _ _ => Ok v).

(** A gradient provider whose gradient is always [c, c]. *)
Definition gradient_module (c : spec_float) (id : nat) : StateKernelModule.t unit unit unit :=
  StateKernelModule.mk id false true false (py 1 0)
    (fun _ => []) []
    (fun _ _ _ => Ok None) (fun _ _ _ => Ok None) (fun _ _ => Ok None)
    (fun _ _ _ => Ok None) (fun _ _ _ => Ok None)
    (fun _ _ _ => Ok (Some (Tensor.mk [2] [c; c])))
    (fun v _ _ => Ok v).

(** A module with one trainable weight of its own. *)
Definition weighted_module (id : nat) : StateKernelModule.t unit unit unit :=
  StateKernelModule.mk id false false false (py 1 0)
    (fun _ => []) [ModuleVariable id 0]
    (fun _ _ _ => Ok None) (fun _ _ _ => Ok None) (fun _ _ => Ok None)
    (fun _ _ _ => Ok None) (fun _ _ _ => Ok None) (fun _ _ _ => Ok None)
    (fun v _ _ => Ok v).

(** An input provider whose input is always [[x]], and one that has no
    input to give. *)
Definition input_module (x : spec_float) (id : nat) : StateKernelModule.t unit unit unit :=
  StateKernelModule.mk id true false false (py 1 0)
    (fun _ => []) []
    (fun _ _ _ => Ok None)
    (fun _ _ _ => Ok (Some (Tensor.mk [1] [x])))
    (fun _ _ => Ok None)
    (fun _ _ _ => Ok None) (fun _ _ _ => Ok None) (fun _ _ _ => Ok None)
    (fun v _ _ => Ok v).

Definition silent_input_module (id : nat) : StateKernelModule.t unit unit unit :=
  StateKernelModule.mk id true false false (py 1 0)
    (fun _ => []) []
    (fun _ _ _ => Ok None)
    (fun _ _ _ => Ok None)
    (fun _ _ => Ok None)
    (fun _ _ _ => Ok None) (fun _ _ _ => Ok None) (fun _ _ _ => Ok None)
    (fun v _ _ => Ok v).

(** [StateKernel(modules)], not yet configured, and after
    [configure(config)]. *)
Definition unconfigured : StateKernel.t unit unit unit :=
  snd (StateKernel.__init__ attention prediction
         [attention 0; prediction 1; loss_module 2;
          gradient_module (f32 (py 9 1)) 3;
          gradient_module (f32 (py 9 1)) 4;
          gradient_module (f32 (py 9 1)) 5]
         None StateKernel.empty).

Definition kernel : StateKernel.t unit unit unit :=
  snd (StateKernel.configure attention prediction config unconfigured).

(** A kernel with two input attention providers among its modules, and
    one with two state prediction providers. *)
Definition two_attentions : StateKernel.t unit unit unit :=
  snd (StateKernel.__init__ attention prediction
         [attention 0; attention 1; prediction 2] None StateKernel.empty).

Definition two_predictions : StateKernel.t unit unit unit :=
  snd (StateKernel.__init__ attention prediction
         [attention 0; prediction 1; prediction 2] None StateKernel.empty).

(** A kernel whose prediction contains a NaN. *)
Definition nan_kernel : StateKernel.t unit unit unit :=
  snd (StateKernel.__init__ attention prediction
         [attention 0; nan_prediction 1] (Some config) StateKernel.empty).

(** A kernel with two input providers: one that gives 1.0 and one that
    gives nothing. *)
Definition input_kernel : StateKernel.t unit unit unit :=
  snd (StateKernel.__init__ attention prediction
         [attention 0; prediction 1; input_module (f32 (py 1 0)) 2;
          silent_input_module 3]
         (Some config) StateKernel.empty).

Definition step (self : StateKernel.t unit unit unit) (previous_frame : option nat) :
    M (StateKernel.World unit unit) nat :=
  StateKernel.step read_variable tape_gradient clip_by_global_norm self tt previous_frame.

(** The world without frames. *)
Definition start : StateKernel.World unit unit := StateKernel.mkWorld [] tt.

(** A frame made by the caller, since [new_frame] cannot make one:
    [frame = StateFrame('demo', kernel.get_previous_state(previous_frame),
    kernel.new_gradient_tape())], and then [frame.input_tensors = None],
    the attribute that [gather_inputs] expects to find. *)
Definition frame_by_hand (self : StateKernel.t unit unit unit)
    (previous_frame : option nat) : M (StateKernel.World unit unit) nat :=
  previous <- StateKernel.optional_frame previous_frame ;;
  previous_state <- lift (StateKernel.get_previous_state self previous) ;;
  tape <- lift (StateKernel.new_gradient_tape self) ;;
  fr <- lift (StateFrame.__init__ (Some "demo"%string) previous_state (Some tape)) ;;
  f <- StateKernel.allocate fr ;;
  StateKernel.update_frame f (StateFrame.set_input_tensors None) ;;
  ret f.

(** The world with one such frame, as the constructor leaves it and with
    the attribute assigned. *)
Definition constructed : StateKernel.World unit unit :=
  snd ((previous_state <- lift (StateKernel.get_previous_state kernel None) ;;
        tape <- lift (StateKernel.new_gradient_tape kernel) ;;
        fr <- lift (StateFrame.__init__ (Some "demo"%string) previous_state (Some tape)) ;;
        StateKernel.allocate fr) start).

Definition fresh (self : StateKernel.t unit unit unit) : StateKernel.World unit unit :=
  snd (frame_by_hand self None start).

(** That frame with its inputs gathered and attended, and with its state
    predicted. *)
Definition attended (self : StateKernel.t unit unit unit) : StateKernel.World unit unit :=
  snd ((StateKernel.gather_inputs self tt 0 ;;
        StateKernel.attend_inputs self 0) (fresh self)).

Definition predicted (self : StateKernel.t unit unit unit) : StateKernel.World unit unit :=
  snd (StateKernel.predict_state read_variable self 0 (attended self)).

(** A second frame made from the first, taken as far. *)
Definition two_frames : StateKernel.World unit unit :=
  snd ((f <- frame_by_hand kernel (Some 0) ;;
        StateKernel.gather_inputs kernel tt f ;;
        StateKernel.attend_inputs kernel f ;;
        StateKernel.predict_state read_variable kernel f) (predicted kernel)).

(** The frame at position [f] of a world. *)
Definition frame_of (w : StateKernel.World unit unit) (f : nat) : StateFrame.t unit :=
  match StateKernel.frames w !! f with
  | Some fr => fr
  | None => StateFrame.new "none" (IsTensor (Tensor.zeros [])) None
  end.

(** *** Further instances *)

(** The agent after [choose_action] alone: its decision awaits a reward. *)
Definition chosen : TDAgent.t := TDAgent.run_calls [TDAgent.ChooseAction []] agent.

(** A state model that passes its first two inputs on, and the standard
    state prediction provider built on it. *)
Definition state_model : StatePrediction.Model (V := unit) :=
  StatePrediction.mkModel []
    (fun _ x => Ok (Tensor.mk [2] (firstn 2 (Tensor.values x)))).

Definition standard_prediction (id : nat) : StateKernelModule.t unit unit unit :=
  StatePrediction.StandardStatePredictionProvider read_variable state_model (py 1 0) id.

(** [StateKernel([attention])]: a kernel that relies on the default state
    prediction provider. *)
Definition attention_only : StateKernel.t unit unit unit :=
  snd (StateKernel.__init__ attention standard_prediction
         [attention 0] None StateKernel.empty).

End Demo.

(* ================================================================== *)
(** * Part II: theorems *)
(* ================================================================== *)

(** ** Order facts on floating-point values *)

Lemma SFltb_SFleb x y : SFltb x y = true -> SFleb x y = true.
Proof. unfold SFltb, SFleb. destruct (SFcompare x y) as [[]|]; congruence. Qed.

Lemma SFleb_nan_r x : SFleb x S754_nan = false.
Proof. destruct x; reflexivity. Qed.

Lemma SFleb_nan_l x : SFleb S754_nan x = false.
Proof. reflexivity. Qed.



Lemma SFleb_refl x : Float.is_nan x = false -> SFleb x x = true.
Proof.
  unfold SFleb. destruct x as [| | |s m e]; simpl; try easy.
  - now destruct s.
  - intros _. rewrite Z.compare_refl, Pos.compare_cont_refl. now destruct s.
Qed.

Lemma SFleb_not_nan x y : SFleb x y = true -> Float.is_nan x = false /\ Float.is_nan y = false.
Proof. destruct x, y; simpl; auto; discriminate. Qed.

(** Comparing the other way round gives the opposite answer. *)
Lemma SFcompare_antisym x y :
  SFcompare y x = match SFcompare x y with
                  | Some c => Some (CompOpp c)
                  | None => None
                  end.
Proof.
  destruct x as [sx|sx| |sx mx ex], y as [sy|sy| |sy my ey]; simpl;
    try reflexivity; try (now destruct sx); try (now destruct sy);
    try (now destruct sx, sy).
  destruct sx, sy; try reflexivity;
    rewrite (Z.compare_antisym ey ex);
    destruct (ey ?= ex)%Z; simpl; try reflexivity;
    rewrite (Pos.compare_cont_antisym mx my Eq); simpl;
    now destruct (Pos.compare_cont Eq mx my).
Qed.

(** Of two numbers, the one that is not below the other lies above it or
    equals it. *)
Lemma SFltb_false_SFleb x y :
  Float.is_nan x = false -> Float.is_nan y = false ->
  SFltb x y = false -> SFleb y x = true.
Proof.
  unfold SFltb, SFleb. rewrite (SFcompare_antisym x y).
  intros Hx Hy. destruct (SFcompare x y) as [[]|] eqn:E; simpl; try easy.
  destruct x, y; simpl in *; discriminate.
Qed.

(** ** Multiplying and dividing by one *)

Section ByOne.
Local Open Scope Z_scope.

Lemma valid32 s m e :
  valid_binary 24 128 (S754_finite s m e) = true ->
  fexp 24 128 (Zpos (digits2_pos m) + e) = e /\ e <= 104.
Proof.
  unfold valid_binary, bounded, canonical_mantissa.
  intros H. apply andb_prop in H as [H1 H2].
  apply Z.eqb_eq in H1. apply Z.leb_le in H2. auto.
Qed.

Lemma shr_exact m e :
  fexp 24 128 (Zpos (digits2_pos m) + e) = e ->
  shr_fexp 24 128 (Zpos m) e loc_Exact
  = ({| shr_m := Zpos m; shr_r := false; shr_s := false |}, e).
Proof.
  intros H. unfold shr_fexp. simpl Zdigits2. rewrite H, Z.sub_diag. reflexivity.
Qed.

(** A mantissa and exponent that the format has are rounded to
    themselves. *)
Lemma round_exact s m e :
  fexp 24 128 (Zpos (digits2_pos m) + e) = e -> e <= 104 ->
  binary_round_aux 24 128 s (Zpos m) e loc_Exact = S754_finite s m e.
Proof.
  intros H Hle. unfold binary_round_aux. rewrite (shr_exact m e H).
  cbn [shr_m loc_of_shr_record round_nearest_even].
  rewrite (shr_exact m e H). cbn [shr_m].
  apply Z.leb_le in Hle. change (128 - 24) with 104. now rewrite Hle.
Qed.

Lemma digits_shift m : Zpos (digits2_pos (m~0)) = Zpos (digits2_pos m) + 1.
Proof. cbn [digits2_pos]. lia. Qed.

Lemma SFmul_one32 x :
  valid_binary 24 128 x = true -> SFmul 24 128 one32 x = x.
Proof.
  destruct x as [s|s| |s m e]; try reflexivity.
  intros Hv. apply valid32 in Hv as [Hc Hle].
  unfold one32, SFmul. cbn [xorb].
  unfold binary_round_aux.
  assert (Hshr : shr_fexp 24 128 (Zpos (8388608 * m)) (-23 + e) loc_Exact
                 = ({| shr_m := Zpos m; shr_r := false; shr_s := false |}, e)).
  { unfold shr_fexp. cbn [Zdigits2].
    change (8388608 * m)%positive
      with (m~0~0~0~0~0~0~0~0~0~0~0~0~0~0~0~0~0~0~0~0~0~0~0)%positive.
    rewrite !digits_shift.
    replace (Zpos (digits2_pos m) + 1 + 1 + 1 + 1 + 1 + 1 + 1 + 1 + 1 + 1 + 1 + 1
             + 1 + 1 + 1 + 1 + 1 + 1 + 1 + 1 + 1 + 1 + 1 + (-23 + e))
      with (Zpos (digits2_pos m) + e) by lia.
    rewrite Hc. replace (e - (-23 + e)) with 23 by lia.
    unfold shr. cbn [iter_pos shr_1 shr_record_of_loc orb]. f_equal. lia. }
  rewrite Hshr. cbn [shr_m loc_of_shr_record round_nearest_even].
  rewrite (shr_exact m e Hc). cbn [shr_m].
  apply Z.leb_le in Hle. change (128 - 24) with 104. now rewrite Hle.
Qed.

Lemma div_eucl_pair a b : Z.div_eucl a b = (a / b, a mod b).
Proof. unfold Z.div, Z.modulo. now destruct (Z.div_eucl a b). Qed.

Lemma SFdiv_one32 x :
  valid_binary 24 128 x = true -> SFdiv 24 128 x one32 = x.
Proof.
  destruct x as [s|s| |s m e]; try reflexivity; try (now destruct s).
  intros Hv. apply valid32 in Hv as [Hc Hle].
  unfold one32, SFdiv, SFdiv_core_binary. cbn [Zdigits2].
  change (Zpos (digits2_pos 8388608)) with 24.
  rewrite xorb_false_r.
  pose proof Hc as Hc'. unfold fexp, emin in Hc'.
  set (d := Zpos (digits2_pos m)) in *.
  assert (Hcases : (Z.min (fexp 24 128 (d + e - (24 + -23))) (e - -23) = e - 1
                    /\ fexp 24 128 (d + 1 + (e - 1)) = e)
                   \/ Z.min (fexp 24 128 (d + e - (24 + -23))) (e - -23) = e).
  { unfold fexp, emin. lia. }
  destruct Hcases as [[He' Hc1]| He']; rewrite He'.
  - replace (e - -23 - (e - 1)) with 24 by lia.
    rewrite div_eucl_pair, Z.shiftl_mul_pow2 by lia.
    replace (Zpos m * 2 ^ 24) with (Zpos m~0 * 8388608) by lia.
    rewrite Z.div_mul, Z.mod_mul by lia.
    cbn [new_location Z.even new_location_even Z.eqb].
    unfold binary_round_aux.
    assert (Hshr : shr_fexp 24 128 (Zpos m~0) (e - 1) loc_Exact
                   = ({| shr_m := Zpos m; shr_r := false; shr_s := false |}, e)).
    { unfold shr_fexp. cbn [Zdigits2]. rewrite digits_shift. fold d.
      rewrite Hc1. replace (e - (e - 1)) with 1 by lia.
      unfold shr. cbn [iter_pos shr_1 shr_record_of_loc orb]. f_equal. lia. }
    rewrite Hshr. cbn [shr_m loc_of_shr_record round_nearest_even].
    rewrite (shr_exact m e Hc). cbn [shr_m].
    apply Z.leb_le in Hle. change (128 - 24) with 104. now rewrite Hle.
  - replace (e - -23 - e) with 23 by lia.
    rewrite div_eucl_pair, Z.shiftl_mul_pow2 by lia.
    replace (Zpos m * 2 ^ 23) with (Zpos m * 8388608) by lia.
    rewrite Z.div_mul, Z.mod_mul by lia.
    cbn [new_location Z.even new_location_even Z.eqb].
    now apply round_exact.
Qed.

End ByOne.

Lemma f32_one : f32 (py 1 0) = one32.
Proof. vm_compute. reflexivity. Qed.

Lemma map_valid (f : spec_float -> spec_float) (x : Tensor.t) :
  (forall v, valid_binary 24 128 v = true -> f v = v) ->
  Tensor.valid x = true -> Tensor.map f x = x.
Proof.
  intros Hf. destruct x as [shape values]. unfold Tensor.valid, Tensor.map. simpl.
  intros Hv. f_equal. induction values as [|v vs IH]; [reflexivity|].
  simpl in *. apply andb_prop in Hv as [Hv Hvs]. now rewrite Hf, IH.
Qed.

(** A float32 tensor multiplied by the Python float 1.0 and divided by
    it is itself. *)
Lemma unit_scale (x : Tensor.t) :
  Tensor.valid x = true ->
  Tensor.truediv (Tensor.rmul (py 1 0) x) (py 1 0) = x.
Proof.
  intros Hv. unfold Tensor.truediv, Tensor.rmul.
  rewrite (map_valid _ x); [|intros v Hvv|exact Hv].
  - apply map_valid; [|exact Hv]. intros v Hvv.
    rewrite f32_one. now apply SFdiv_one32.
  - rewrite f32_one. now apply SFmul_one32.
Qed.

(** ** The TD agent *)

Section TDAgentFacts.
Import TDAgent.

Ltac run_monad :=
  unfold bind, get, modify, assert, ret, raise, lift; simpl.

Lemma update_without_previous self :
  _previous_decision self = None -> _update_previous_decision self = (Ok tt, self).
Proof. intros H. unfold _update_previous_decision. run_monad. now rewrite H. Qed.

(** The two clamps of the code are the clamp of the specification: on a
    prediction or a bound that is not a number both give NaN, and
    otherwise [tf.maximum] raises the prediction to the lower bound and
    [tf.minimum] lowers it to the upper one. *)
Lemma stabilized_prediction_clamp self p :
  stabilized_prediction self p
  = TDSpec.clamp p (min_observable_reward self) (max_observable_reward self).
Proof.
  unfold stabilized_prediction, TDSpec.clamp, TDSpec.bound, TDSpec.not_a_number,
    tf_maximum, tf_minimum.
  destruct (min_observable_reward self) as [lo|], (max_observable_reward self) as [hi|].
  - generalize (Num.to_tensor lo) (Num.to_tensor hi). intros l h.
    destruct (Float.is_nan p) eqn:Hp; simpl.
    + now destruct p.
    + destruct (Float.is_nan l) eqn:Hl; simpl; [reflexivity|].
      destruct (SFltb p l); rewrite ?Hl, ?Hp; simpl;
        destruct (Float.is_nan h); reflexivity.
  - generalize (Num.to_tensor lo). intros l.
    destruct (Float.is_nan p) eqn:Hp; simpl; [reflexivity|].
    rewrite orb_false_r. now destruct (Float.is_nan l).
  - generalize (Num.to_tensor hi). intros h.
    destruct (Float.is_nan p) eqn:Hp; simpl; reflexivity.
  - destruct (Float.is_nan p) eqn:Hp; simpl; [now destruct p|reflexivity].
Qed.

(** On an interval, and for a number, the clamp of the specification is
    the usual one: the lower bound below the interval, the upper bound
    above it, and the number itself inside. *)
Lemma clamp_interval p lo hi :
  Float.is_nan p = false ->
  SFleb (Num.to_tensor lo) (Num.to_tensor hi) = true ->
  TDSpec.clamp p (Some lo) (Some hi)
  = if SFltb p (Num.to_tensor lo) then Num.to_tensor lo
    else if SFltb (Num.to_tensor hi) p then Num.to_tensor hi
    else p.
Proof.
  unfold TDSpec.clamp, TDSpec.bound, TDSpec.not_a_number.
  generalize (Num.to_tensor lo) (Num.to_tensor hi). intros l h Hp Hle.
  destruct (SFleb_not_nan _ _ Hle) as [Hl Hh]. rewrite Hp, Hl, Hh. simpl.
  destruct (SFltb p l) eqn:E; [|reflexivity].
  destruct (SFltb h l) eqn:E2; [|reflexivity].
  exfalso. unfold SFltb, SFleb in *. rewrite (SFcompare_antisym h l) in Hle.
  destruct (SFcompare h l) as [[]|]; simpl in *; discriminate.
Qed.

Lemma update_with_successor self previous current r p :
  _previous_decision self = Some previous ->
  ActionDecision.reward previous = Some r ->
  ActionDecision.q_value_target previous = None ->
  _current_decision self = Some current ->
  ActionDecision.reward current = None ->
  ActionDecision.exploit_q_value_prediction current = Some p ->
  _update_previous_decision self =
    (Ok tt,
     set_decisions
       (Some (ActionDecision.set_target previous
                (if stabilize self
                 then TDSpec.stabilized_target r (get_discount self) p
                        (min_observable_reward self) (max_observable_reward self)
                 else TDSpec.plain_target r (get_discount self) p)
                (ActionDecision.exploit_confidence current)))
       (Some current) self).
Proof.
  intros Hprev Hr Hq Hcur Hcr Hp.
  unfold _update_previous_decision. run_monad.
  rewrite Hprev, Hr, Hq, Hcur, Hcr, Hp. simpl.
  destruct (stabilize self); [|reflexivity].
  unfold TDSpec.stabilized_target. now rewrite stabilized_prediction_clamp.
Qed.

(** C2: with a rewarded previous decision and a current decision that
    predicts [p], closing the previous decision sets its target to
    [(r + d * clamp(p, min_r, max_r)) / (1 + d)] under stabilization and
    to [r + d * p] without it; the confidence is the current decision's.
    The clamp is the specification's own: where both bounds have been
    observed and form an interval, it is the lower bound for a prediction
    below the interval, the upper bound for one above it, and the
    prediction itself inside. *)
Theorem update_previous_decision_target self previous current r p :
  _previous_decision self = Some previous ->
  ActionDecision.reward previous = Some r ->
  ActionDecision.q_value_target previous = None ->
  _current_decision self = Some current ->
  ActionDecision.reward current = None ->
  ActionDecision.exploit_q_value_prediction current = Some p ->
  let d := get_discount self in
  let target :=
    if stabilize self
    then TDSpec.stabilized_target r d p
           (min_observable_reward self) (max_observable_reward self)
    else TDSpec.plain_target r d p in
  _update_previous_decision self =
    (Ok tt,
     set_decisions
       (Some (ActionDecision.set_target previous target
                (ActionDecision.exploit_confidence current)))
       (Some current) self)
  /\ (forall min_r max_r,
        min_observable_reward self = Some min_r ->
        max_observable_reward self = Some max_r ->
        SFleb (Num.to_tensor min_r) (Num.to_tensor max_r) = true ->
        Float.is_nan p = false ->
        TDSpec.clamp p (min_observable_reward self) (max_observable_reward self)
        = if SFltb p (Num.to_tensor min_r) then Num.to_tensor min_r
          else if SFltb (Num.to_tensor max_r) p then Num.to_tensor max_r
          else p).
Proof.
  intros Hprev Hr Hq Hcur Hcr Hp d target. split.
  - now apply update_with_successor.
  - intros min_r max_r -> -> Hle Hnan. now apply clamp_interval.
Qed.

Lemma update_at_end_of_episode self previous r :
  _previous_decision self = Some previous ->
  ActionDecision.reward previous = Some r ->
  ActionDecision.q_value_target previous = None ->
  _current_decision self = None ->
  let closed q :=
    set_decisions
      (Some (ActionDecision.set_target previous q (Some (Num.PyFloat (py 1 0)))))
      None self in
  _update_previous_decision self =
    if stabilize self then
      match TDSpec.final_target r (get_discount self) with
      | Ok q => (Ok tt, closed q)
      | Raise e => (Raise e, self)
      end
    else (Ok tt, closed r).
Proof.
  intros Hprev Hr Hq Hcur closed.
  unfold _update_previous_decision. run_monad.
  rewrite Hprev, Hr, Hq, Hcur. simpl.
  destruct (stabilize self); [|reflexivity]. simpl.
  unfold TDSpec.final_target. destruct (Num.truediv r _); reflexivity.
Qed.

(** C3: with a rewarded previous decision and no current decision,
    closing the previous decision sets its target to [r] without
    stabilization and to [r / (1 + d)] with it (raising where Python's
    float division raises); with stabilization, [d = 0.5] and [r = 0.0] the
    target is [0.0]. *)
Theorem end_of_episode_target self previous r :
  _previous_decision self = Some previous ->
  ActionDecision.reward previous = Some r ->
  ActionDecision.q_value_target previous = None ->
  _current_decision self = None ->
  let closed q :=
    set_decisions
      (Some (ActionDecision.set_target previous q (Some (Num.PyFloat (py 1 0)))))
      None self in
  (stabilize self = false ->
   _update_previous_decision self = (Ok tt, closed r))
  /\ (stabilize self = true ->
      _update_previous_decision self =
        match TDSpec.final_target r (get_discount self) with
        | Ok q => (Ok tt, closed q)
        | Raise e => (Raise e, self)
        end)
  /\ (stabilize self = true ->
      get_discount self = py 5 1 ->
      r = Num.PyFloat (S754_zero false) ->
      _update_previous_decision self = (Ok tt, closed (Num.PyFloat (S754_zero false)))).
Proof.
  intros Hprev Hr Hq Hcur closed.
  pose proof (update_at_end_of_episode self previous r Hprev Hr Hq Hcur) as H.
  cbv zeta in H. fold closed in H.
  split; [|split].
  - intros Hs. now rewrite H, Hs.
  - intros Hs. now rewrite H, Hs.
  - intros Hs Hd ->. rewrite H, Hs, Hd. reflexivity.
Qed.

(** [reset] closes the episode with that target: the loss it returns is
    the policy's loss on the decision so closed, and both decision slots
    are empty afterwards.  The discount is read after [episodes] has been
    incremented. *)
Lemma reset_closes_episode self previous r q :
  _previous_decision self = Some previous ->
  ActionDecision.reward previous = Some r ->
  ActionDecision.q_value_target previous = None ->
  _current_decision self = None ->
  is_some (ActionDecision.selected_q_value_prediction previous) = true ->
  (if stabilize self
   then TDSpec.final_target r (get_discount (set_episodes (episodes self + 1) self))
   else Ok r) = Ok q ->
  exists self',
    reset self =
      (Ok (ActionPolicy.get_loss (_action_policy self)
             (ActionDecision.set_target previous q (Some (Num.PyFloat (py 1 0))))),
       self')
    /\ _previous_decision self' = None
    /\ _current_decision self' = None
    /\ episodes self' = episodes self + 1.
Proof.
  intros Hprev Hr Hq Hcur Hsel Htarget.
  pose proof (update_at_end_of_episode (set_episodes (episodes self + 1) self)
                previous r Hprev Hr Hq Hcur) as Hupdate.
  cbv zeta in Hupdate. simpl stabilize in Hupdate.
  unfold reset. run_monad.
  destruct (stabilize self) eqn:Hs.
  - rewrite Hupdate, Htarget.
    unfold _close_previous_decision. run_monad. rewrite Hs. simpl.
    destruct previous; simpl in *. rewrite Hsel. simpl. eauto.
  - injection Htarget as <-. rewrite Hupdate.
    unfold _close_previous_decision. run_monad. rewrite Hs. simpl.
    destruct previous; simpl in *. rewrite Hsel. simpl. eauto.
Qed.

Lemma update_keeps_current self :
  _current_decision (snd (_update_previous_decision self)) = _current_decision self.
Proof.
  unfold _update_previous_decision. run_monad.
  destruct (_previous_decision self) as [previous|]; [|reflexivity].
  destruct (ActionDecision.reward previous); [|reflexivity].
  destruct (is_none (ActionDecision.q_value_target previous)); [|reflexivity]. simpl.
  destruct (_current_decision self) as [current|] eqn:Hc; simpl.
  - destruct (is_none (ActionDecision.reward current)); [|simpl; now rewrite Hc].
    simpl. destruct (need_prediction _ _); simpl; [|now rewrite Hc].
    destruct (stabilize self); reflexivity.
  - destruct (stabilize self); simpl; [|reflexivity].
    destruct (Num.truediv _ _); simpl; [reflexivity|now rewrite Hc].
Qed.

Lemma choose_action_unfold state_input self :
  choose_action state_input self =
    if is_none (_current_decision self) then
      let decision :=
        ActionPolicy.choose_action (_action_policy self)
          (ActionDecision.new state_input
             match _previous_decision self with
             | Some previous => ActionDecision.step previous + 1
             | None => 0
             end) in
      match _update_previous_decision
              (set_decisions (_previous_decision self) (Some decision) self) with
      | (Ok _, self') => (Ok (ActionDecision.selected_action decision), self')
      | (Raise e, self') => (Raise e, self')
      end
    else (Raise AssertionError, self).
Proof.
  unfold choose_action. cbv beta iota delta [bind get modify assert ret raise].
  destruct (is_none (_current_decision self)); [|reflexivity].
  cbv zeta. destruct (_update_previous_decision _) as [[[]|e] s1]; reflexivity.
Qed.

(** [choose_action] closes the previous decision with the target of C2,
    computed from the prediction of the decision it has just made. *)
Lemma choose_action_closes_previous state_input self previous r p :
  _current_decision self = None ->
  _previous_decision self = Some previous ->
  ActionDecision.reward previous = Some r ->
  ActionDecision.q_value_target previous = None ->
  let decision :=
    ActionPolicy.choose_action (_action_policy self)
      (ActionDecision.new state_input (ActionDecision.step previous + 1)) in
  ActionDecision.reward decision = None ->
  ActionDecision.exploit_q_value_prediction decision = Some p ->
  choose_action state_input self =
    (Ok (ActionDecision.selected_action decision),
     set_decisions
       (Some (ActionDecision.set_target previous
                (if stabilize self
                 then TDSpec.stabilized_target r (get_discount self) p
                        (min_observable_reward self) (max_observable_reward self)
                 else TDSpec.plain_target r (get_discount self) p)
                (ActionDecision.exploit_confidence decision)))
       (Some decision) self).
Proof.
  intros Hcur Hprev Hr Hq decision Hdr Hp.
  rewrite choose_action_unfold, Hcur, Hprev. cbv zeta. fold decision.
  rewrite (update_with_successor
             (set_decisions (Some previous) (Some decision) self)
             previous decision r p eq_refl Hr Hq eq_refl Hdr Hp).
  reflexivity.
Qed.

(** C8: [choose_action] with a decision pending raises an assertion error
    and leaves the agent as it was; in particular a second [choose_action]
    right after a successful one fails. *)
Theorem choose_action_pending self state_input :
  (is_some (_current_decision self) = true ->
   choose_action state_input self = (Raise AssertionError, self))
  /\ (forall action self' state_input',
        choose_action state_input self = (Ok action, self') ->
        choose_action state_input' self' = (Raise AssertionError, self')).
Proof.
  assert (Hpending : forall a s, is_some (_current_decision a) = true ->
            choose_action s a = (Raise AssertionError, a)).
  { intros a s H. rewrite choose_action_unfold.
    destruct (_current_decision a); [reflexivity|discriminate]. }
  split; [apply Hpending|].
  intros action self' s' H. apply Hpending.
  rewrite choose_action_unfold in H.
  destruct (is_none (_current_decision self)); [|discriminate].
  cbv zeta in H.
  match type of H with
  | context [_update_previous_decision ?a] =>
      pose proof (update_keeps_current a) as Hkeep;
      destruct (_update_previous_decision a) as [[[]|e] s1]
  end; [|discriminate].
  injection H as _ <-. simpl in Hkeep. rewrite Hkeep. reflexivity.
Qed.

Lemma update_same_bounds self :
  bounds (snd (_update_previous_decision self)) = bounds self
  /\ stabilize (snd (_update_previous_decision self)) = stabilize self.
Proof.
  unfold _update_previous_decision. run_monad.
  destruct (_previous_decision self) as [previous|]; [|easy].
  destruct (ActionDecision.reward previous); [|easy].
  destruct (is_none (ActionDecision.q_value_target previous)); [|easy]. simpl.
  destruct (_current_decision self) as [current|]; simpl.
  - destruct (is_none (ActionDecision.reward current)); [|easy].
    simpl. destruct (need_prediction _ _); simpl; [|easy].
    destruct (stabilize self) eqn:Hs; simpl; auto.
  - destruct (stabilize self) eqn:Hs; simpl; [|auto].
    destruct (Num.truediv _ _); simpl; auto.
Qed.

Lemma close_same_bounds self :
  bounds (snd (_close_previous_decision self)) = bounds self
  /\ stabilize (snd (_close_previous_decision self)) = stabilize self.
Proof.
  unfold _close_previous_decision. run_monad.
  destruct (_previous_decision self) as [previous|]; [|easy].
  destruct (is_some (ActionDecision.selected_q_value_prediction previous)); [|easy].
  simpl. destruct (is_some (ActionDecision.q_value_target previous)); easy.
Qed.

Lemma reset_unfold self :
  reset self =
    match _update_previous_decision (set_episodes (episodes self + 1) self) with
    | (Ok _, s1) =>
        _close_previous_decision
          (if stabilize s1 then observe (Num.PyFloat (S754_zero false)) s1 else s1)
    | (Raise e, s1) => (Raise e, s1)
    end.
Proof.
  unfold reset. cbv beta iota delta [bind get modify ret].
  destruct (_update_previous_decision _) as [[[]|e] s1]; [|reflexivity].
  destruct (stabilize s1); reflexivity.
Qed.

Lemma accept_reward_unfold reward self :
  accept_reward reward self =
    match _current_decision self with
    | None => (Raise AssertionError, self)
    | Some current =>
        if is_none (ActionDecision.reward current) then
          let s1 :=
            set_decisions (_previous_decision self)
              (Some (ActionDecision.set_reward current reward))
              (set_total_steps (total_steps self + 1) self) in
          _close_previous_decision (if stabilize self then observe reward s1 else s1)
        else (Raise AssertionError, self)
    end.
Proof.
  unfold accept_reward. cbv beta iota delta [bind get modify ret raise assert].
  destruct (_current_decision self) as [current|]; [|reflexivity].
  destruct (is_none (ActionDecision.reward current)); [|reflexivity].
  destruct (stabilize self); reflexivity.
Qed.














End TDAgentFacts.

(** ** Effects of computations *)

(** [preserves R c]: whatever [c] returns or raises, the state it leaves
    is [R]-related to the state it started in. *)
Definition preserves {S A} (R : relation S) (c : M S A) : Prop :=
  forall s, R s (snd (c s)).

Section Preserves.
Context {S : Type} (R : relation S) `{!Reflexive R} `{!Transitive R}.

Lemma preserves_ret {A} (a : A) : preserves R (ret a).
Proof. intros s. simpl. reflexivity. Qed.

Lemma preserves_raise {A} e : preserves R (@raise S A e).
Proof. intros s. simpl. reflexivity. Qed.

Lemma preserves_lift {A} (r : result A) : preserves R (lift r).
Proof. intros s. simpl. reflexivity. Qed.

Lemma preserves_get : preserves R get.
Proof. intros s. simpl. reflexivity. Qed.

Lemma preserves_assert b : preserves R (assert b).
Proof. destruct b; [apply preserves_ret | apply preserves_raise]. Qed.

Lemma preserves_bind {A B} (c : M S A) (k : A -> M S B) :
  preserves R c -> (forall a, preserves R (k a)) -> preserves R (bind c k).
Proof.
  intros Hc Hk s. unfold bind. specialize (Hc s).
  destruct (c s) as [[a|e] s1]; simpl in *; [|exact Hc].
  etransitivity; [exact Hc|apply Hk].
Qed.

Lemma preserves_for_each {A X} (xs : list X) (body : A -> X -> M S A) acc :
  (forall a x, preserves R (body a x)) -> preserves R (for_each xs body acc).
Proof.
  intros Hbody. revert acc. induction xs as [|x xs IH]; intros acc; simpl.
  - apply preserves_ret.
  - apply preserves_bind; [apply Hbody|exact IH].
Qed.

Lemma preserves_try_finally {A} (body : M S A) (final : M S unit) :
  preserves R body -> preserves R final -> preserves R (try_finally body final).
Proof.
  intros Hb Hf s. unfold try_finally. specialize (Hb s).
  destruct (body s) as [r s1]. specialize (Hf s1).
  destruct (final s1) as [[[]|e] s2]; simpl in *; etransitivity; eauto.
Qed.

Lemma bind_ok {A B} (c : M S A) (k : A -> M S B) s b s' :
  bind c k s = (Ok b, s') ->
  exists a s1, c s = (Ok a, s1) /\ k a s1 = (Ok b, s').
Proof.
  unfold bind. destruct (c s) as [[a|e] s1]; [eauto|discriminate].
Qed.

Lemma preserves_modify (f : S -> S) :
  (forall s, R s (f s)) -> preserves R (modify f).
Proof. intros H s. apply H. Qed.

End Preserves.

(** Breaks a goal [preserves R c] down along the structure of [c]. *)
Ltac preserves_step :=
  first
    [ apply preserves_ret; typeclasses eauto
    | apply preserves_raise; typeclasses eauto
    | apply preserves_lift; typeclasses eauto
    | apply preserves_get; typeclasses eauto
    | apply preserves_assert; typeclasses eauto
    | apply preserves_bind; [typeclasses eauto .. | | intros ?]
    | apply preserves_for_each; [typeclasses eauto .. | intros ? ?]
    | apply preserves_try_finally; [typeclasses eauto .. | | ]
    | match goal with
      | |- preserves _ (match ?x with _ => _ end) => destruct x
      | |- preserves _ (if ?b then _ else _) => destruct b
      end ].

(** ** The kernel: providers and configuration *)

Section KernelSetup.
Context {Environment Data V : Type}.
Import StateKernel.

Abbreviation Kernel := (StateKernel.t Environment Data V).
Abbreviation KernelModule := (StateKernelModule.t Environment Data V).

(** C7: with a state prediction provider designated, assigning another
    raises an assertion error and changes nothing; with an input attention
    provider designated, assigning another does not raise: it replaces the
    provider. *)
Theorem second_provider (self : Kernel) (designated module : KernelModule) :
  (_state_prediction_provider self = Some designated ->
   set_state_prediction_provider module self = (Raise AssertionError, self))
  /\ (_input_attention_provider self = Some designated ->
      set_input_attention_provider module self =
        (Ok tt, set__input_attention_provider (Some module) self)).
Proof.
  split; intros H.
  - unfold set_state_prediction_provider, bind, get, assert. now rewrite H.
  - reflexivity.
Qed.

(** The configuration, once set, stays. *)
Definition same_config : relation Kernel :=
  fun k k' => _config k' = _config k.

#[local] Instance same_config_refl : Reflexive same_config.
Proof. now intros k. Qed.

#[local] Instance same_config_trans : Transitive same_config.
Proof. intros a b c H1 H2. unfold same_config in *. congruence. Qed.

Lemma recompute_same_config :
  preserves same_config (@recompute_trainable_weights Environment Data V).
Proof.
  unfold recompute_trainable_weights.
  repeat preserves_step; now apply preserves_modify.
Qed.

Lemma module_configure_same_config (module : KernelModule) :
  preserves same_config (module_configure module).
Proof.
  unfold module_configure, set_state_prediction_provider,
    set_retroactive_gradient_provider, set_input_attention_provider,
    set_initial_state, set_default_input.
  repeat preserves_step; now apply preserves_modify.
Qed.

Lemma add_module_same_config (module : KernelModule) :
  preserves same_config (add_module module).
Proof.
  unfold add_module.
  repeat first [ apply module_configure_same_config
               | apply recompute_same_config
               | preserves_step ];
    now apply preserves_modify.
Qed.

(** C9: on a kernel that [configure] has configured, [configure] raises
    an assertion error and changes nothing. *)
Theorem configure_once (attention prediction : nat -> KernelModule)
    (self self' : Kernel) config config' :
  configure attention prediction config self = (Ok tt, self') ->
  configure attention prediction config' self' = (Raise AssertionError, self').
Proof.
  intros H.
  assert (Hc : _config self' = Some config).
  { unfold configure in H.
    apply bind_ok in H as (a & s1 & Hget & H). injection Hget as <- <-.
    apply bind_ok in H as ([] & s2 & Hassert & H).
    apply bind_ok in H as ([] & s3 & Hmodify & H). injection Hmodify as <-.
    match type of H with
    | ?rest _ = _ => assert (Hrest : preserves same_config rest)
    end.
    { unfold set_initial_state.
      repeat first [ apply add_module_same_config
                   | apply module_configure_same_config
                   | apply recompute_same_config
                   | preserves_step ];
        now apply preserves_modify. }
    specialize (Hrest (set__config (Some config) s2)).
    rewrite H in Hrest. exact Hrest. }
  unfold configure, bind, get, assert. now rewrite Hc.
Qed.

End KernelSetup.

(** [post c s Q]: run from [s], the computation [c] ends with a result and
    a state that satisfy [Q]. *)
Definition post {S A} (c : M S A) (s : S) (Q : result A -> S -> Prop) : Prop :=
  Q (fst (c s)) (snd (c s)).

Section Post.
Context {S : Type}.

Lemma post_run {A} (c : M S A) s Q : post c s Q -> forall r s', c s = (r, s') -> Q r s'.
Proof. unfold post. intros H r s' E. now rewrite E in H. Qed.

Lemma post_weaken {A} (c : M S A) s (Q Q' : result A -> S -> Prop) :
  post c s Q -> (forall r s', Q r s' -> Q' r s') -> post c s Q'.
Proof. unfold post; auto. Qed.

Lemma post_ret {A} (a : A) (s : S) Q : Q (Ok a) s -> post (ret a) s Q.
Proof. trivial. Qed.

Lemma post_raise {A} e (s : S) (Q : result A -> S -> Prop) :
  Q (Raise e) s -> post (raise e) s Q.
Proof. trivial. Qed.

Lemma post_lift {A} (r : result A) (s : S) Q : Q r s -> post (lift r) s Q.
Proof. trivial. Qed.

Lemma post_get (s : S) Q : Q (Ok s) s -> post get s Q.
Proof. trivial. Qed.

Lemma post_modify (f : S -> S) s Q : Q (Ok tt) (f s) -> post (modify f) s Q.
Proof. trivial. Qed.

Lemma post_assert b (s : S) Q :
  (b = true -> Q (Ok tt) s) -> (b = false -> Q (Raise AssertionError) s) ->
  post (assert b) s Q.
Proof. destruct b; unfold post; simpl; auto. Qed.

Lemma post_bind {A B} (c : M S A) (k : A -> M S B) s Q :
  post c s (fun r s1 => match r with
                        | Ok a => post (k a) s1 Q
                        | Raise e => Q (Raise e) s1
                        end) ->
  post (bind c k) s Q.
Proof. unfold post, bind. destruct (c s) as [[a|e] s1]; trivial. Qed.

Lemma post_try_finally {A} (body : M S A) (final : M S unit) s Q :
  post body s (fun r s1 =>
    post final s1 (fun rf s2 => Q (match rf with
                                   | Ok _ => r
                                   | Raise e => Raise e
                                   end) s2)) ->
  post (try_finally body final) s Q.
Proof.
  unfold post, try_finally. destruct (body s) as [r s1]. simpl.
  destruct (final s1) as [[[]|e] s2]; simpl; trivial.
Qed.

Lemma post_preserves {A} (R : relation S) (c : M S A) s (Q : result A -> S -> Prop) :
  preserves R c -> (forall r s', R s s' -> Q r s') -> post c s Q.
Proof. intros Hc HQ. apply HQ, Hc. Qed.

End Post.

(** ** Clamping *)

(** [tf.maximum(tf.minimum(v, hi), lo)] of a value that is not NaN is
    not NaN and lies between [lo] and [hi]. *)
Lemma clip_scalar v lo hi :
  Float.is_nan v = false -> SFleb lo hi = true ->
  let c := tf_maximum (tf_minimum v hi) lo in
  Float.is_nan c = false /\ SFleb lo c = true /\ SFleb c hi = true.
Proof.
  intros Hv Hlohi. destruct (SFleb_not_nan _ _ Hlohi) as [Hlo Hhi].
  unfold tf_maximum, tf_minimum. rewrite Hv, Hhi. simpl.
  destruct (SFltb hi v) eqn:E1.
  - rewrite Hhi, Hlo. simpl.
    destruct (SFltb hi lo) eqn:E2; auto using SFleb_refl.
  - rewrite Hv, Hlo. simpl.
    destruct (SFltb v lo) eqn:E2; auto using SFleb_refl, SFltb_false_SFleb.
Qed.

Lemma clip_by_value_within x lo hi :
  Tensor.any_nan x = false -> SFleb (f32 lo) (f32 hi) = true ->
  Tensor.any_nan (Tensor.clip_by_value x lo hi) = false
  /\ Tensor.within lo hi (Tensor.clip_by_value x lo hi) = true.
Proof.
  unfold Tensor.any_nan, Tensor.within, Tensor.clip_by_value, Tensor.map. simpl.
  intros Hx Hlohi. induction (Tensor.values x) as [|v vs IH]; [easy|].
  simpl in *. apply orb_false_elim in Hx as [Hv Hvs].
  destruct (clip_scalar v (f32 lo) (f32 hi) Hv Hlohi) as (H1 & H2 & H3).
  destruct (IH Hvs) as [IH1 IH2].
  rewrite H1, H2, H3, IH1, IH2. easy.
Qed.

(** ** The kernel at run time *)

Lemma assert_ok {S} b (s s' : S) u : assert b s = (Ok u, s') -> b = true /\ s' = s.
Proof. destruct b; simpl; [intros [= _ <-]; auto|discriminate]. Qed.

Lemma lift_ok {S A} (r : result A) (s s' : S) a : lift r s = (Ok a, s') -> r = Ok a /\ s' = s.
Proof. unfold lift. intros [= -> <-]. auto. Qed.

Section KernelRun.
Context {Environment Data V : Type}.
Context (read_variable : V -> TfVariable -> Tensor.t).
Context (tape_gradient :
           V -> StateFrame.t Data -> Tensor.t -> list TensorOrVariable ->
           result (list (option Tensor.t))).
Context (clip_by_global_norm : list (option Tensor.t) -> list (option Tensor.t)).
Import StateKernel.

Abbreviation Kernel := (StateKernel.t Environment Data V).
Abbreviation KernelModule := (StateKernelModule.t Environment Data V).
Abbreviation Frame := (StateFrame.t Data).
Abbreviation World := (StateKernel.World Data V).

Lemma frame_ok f (w w' : World) fr :
  frame f w = (Ok fr, w') -> frames w !! f = Some fr /\ w' = w.
Proof.
  unfold frame. destruct (frames w !! f); [intros [= -> <-]; auto|discriminate].
Qed.

Lemma frame_lookup f (w : World) fr :
  frames w !! f = Some fr -> frame f w = (Ok fr, w).
Proof. unfold frame. now intros ->. Qed.

Lemma predict_state_ok (self : Kernel) (f : nat) (w w' : World) :
  predict_state read_variable self f w = (Ok tt, w') ->
  exists fr0 inputs state,
    is_some (_config self) = true
    /\ frames w !! f = Some fr0
    /\ StateFrame.input_tensors fr0 = Some (Some inputs)
    /\ StateFrame.current_state fr0 = None
    /\ frames w' !! f = Some (StateFrame.set_current_state state fr0)
    /\ Tensor.any_nan state = false
    /\ Tensor.within (py_neg 1000000 0) (py 1000000 0) state = true.
Proof.
  intros H. unfold predict_state in H.
  apply bind_ok in H as ([] & s1 & H1 & H). apply assert_ok in H1 as [Hc ->].
  apply bind_ok in H as (fr & s1 & H1 & H). apply frame_ok in H1 as [Hfr ->].
  apply bind_ok in H as (assigned & s1 & H1 & H). apply lift_ok in H1 as [Hassigned ->].
  apply bind_ok in H as ([] & s1 & H1 & H). apply assert_ok in H1 as [Hsome ->].
  apply bind_ok in H as ([] & s1 & H1 & H). apply assert_ok in H1 as [Hcur ->].
  assert (Hin : exists inputs, StateFrame.input_tensors fr = Some (Some inputs)).
  { unfold StateFrame.get_input_tensors in Hassigned.
    destruct (StateFrame.input_tensors fr) as [value|]; [|discriminate].
    injection Hassigned as ->. destruct assigned; [eauto|discriminate]. }
  destruct Hin as [inputs Hin].
  assert (Hcur' : StateFrame.current_state fr = None)
    by now destruct (StateFrame.current_state fr).
  destruct (_state_prediction_provider self) as [provider|]; [|discriminate].
  apply bind_ok in H as (v & s1 & H1 & H). injection H1 as <- <-.
  apply bind_ok in H as (new_state & s1 & H1 & H). apply lift_ok in H1 as [_ ->].
  destruct new_state as [new_state|]; [|discriminate].
  apply bind_ok in H as ([] & s1 & H1 & H). apply assert_ok in H1 as [Hnan ->].
  apply negb_true_iff in Hnan.
  injection H as <-. simpl. rewrite list_lookup_alter_eq, Hfr. simpl.
  destruct (clip_by_value_within (value_of read_variable (runtime w) new_state)
              (py_neg 1000000 0) (py 1000000 0) Hnan eq_refl) as [Hc1 Hc2].
  eauto 12.
Qed.

(** C5: when [predict_state] returns, the state it has recorded on the
    frame contains no NaN and lies within [-1e6, 1e6]; a prediction that
    contains a NaN raises an assertion error, with nothing recorded.
    [predict_state] gets that far only on a frame to which the attribute
    [input_tensors] has been assigned: on a frame as the constructor of
    frame.py leaves it, reading the attribute raises [AttributeError]. *)
Theorem predict_state_recorded (self : Kernel) (f : nat) (w : World) :
  (forall w',
     predict_state read_variable self f w = (Ok tt, w') ->
     exists fr state,
       frames w' !! f = Some fr
       /\ StateFrame.current_state fr = Some state
       /\ Tensor.any_nan state = false
       /\ Tensor.within (py_neg 1000000 0) (py 1000000 0) state = true)
  /\ (forall fr inputs provider prediction,
        is_some (_config self) = true ->
        frames w !! f = Some fr ->
        StateFrame.input_tensors fr = Some (Some inputs) ->
        is_none (StateFrame.current_state fr) = true ->
        _state_prediction_provider self = Some provider ->
        StateKernelModule.predict_state provider (initial_state self) (runtime w) fr
          = Ok (Some prediction) ->
        let new_state := value_of read_variable (runtime w) prediction in
        predict_state read_variable self f w =
          if Tensor.any_nan new_state then (Raise AssertionError, w)
          else (Ok tt,
                mkWorld
                  (alter (StateFrame.set_current_state
                            (Tensor.clip_by_value new_state
                               (py_neg 1000000 0) (py 1000000 0)))
                         f (frames w))
                  (runtime w)))
  /\ (forall fr,
        is_some (_config self) = true ->
        frames w !! f = Some fr ->
        StateFrame.input_tensors fr = None ->
        predict_state read_variable self f w = (Raise AttributeError, w)).
Proof.
  split; [|split].
  - intros w' H.
    destruct (predict_state_ok self f w w' H)
      as (fr0 & inputs & state & _ & _ & _ & _ & Hfr & Hnan & Hwithin).
    exists (StateFrame.set_current_state state fr0), state. auto.
  - intros fr inputs provider prediction Hconfig Hfr Hin Hcur Hprov Hpred new_state.
    unfold predict_state, bind, get_runtime, lift, update_frame, modify,
      StateFrame.get_input_tensors.
    rewrite Hconfig. simpl. rewrite (frame_lookup _ _ _ Hfr), Hin. simpl.
    rewrite Hcur. simpl. rewrite Hprov, Hpred. subst new_state.
    destruct (Tensor.any_nan _); reflexivity.
  - intros fr Hconfig Hfr Hin.
    unfold predict_state, bind, lift, StateFrame.get_input_tensors.
    rewrite Hconfig. simpl. now rewrite (frame_lookup _ _ _ Hfr), Hin.
Qed.

(** The loop of [get_loss] gathers the contributions in order. *)
Lemma collect_losses_contributions (modules : list KernelModule) v
    (previous_frame current_frame : Frame) losses total :
  collect_losses modules v previous_frame current_frame losses total =
    match KernelSpec.contributions modules v previous_frame current_frame with
    | Ok cs =>
        Ok (losses ++ List.map (fun c => Tensor.rmul (fst c) (snd c)) cs,
            fold_left (fun total c => Float.add Float.binary64 total (fst c)) cs total)
    | Raise e => Raise e
    end.
Proof.
  revert losses total. induction modules as [|m ms IH]; intros losses total; simpl.
  - now rewrite app_nil_r.
  - destruct (StateKernelModule.get_loss m v previous_frame current_frame)
      as [[loss|]|e]; [| |reflexivity].
    + destruct (SFltb (S754_zero false) (StateKernelModule.loss_scale m)).
      * rewrite IH.
        destruct (KernelSpec.contributions ms v previous_frame current_frame);
          [|reflexivity].
        simpl. now rewrite <- app_assoc.
      * rewrite IH.
        now destruct (KernelSpec.contributions ms v previous_frame current_frame).
    + rewrite IH.
      now destruct (KernelSpec.contributions ms v previous_frame current_frame).
Qed.

Lemma contributions_positive (modules : list KernelModule) v
    (previous_frame current_frame : Frame) cs :
  KernelSpec.contributions modules v previous_frame current_frame = Ok cs ->
  Forall (fun c => SFltb (S754_zero false) (fst c) = true) cs.
Proof.
  revert cs. induction modules as [|m ms IH]; intros cs; simpl.
  - intros [= <-]. constructor.
  - destruct (StateKernelModule.get_loss m v previous_frame current_frame)
      as [loss|e]; [|discriminate].
    destruct (KernelSpec.contributions ms v previous_frame current_frame)
      as [cs'|e]; [|discriminate].
    specialize (IH cs' eq_refl). intros [= <-].
    destruct loss as [loss|]; [|exact IH].
    destruct (SFltb _ _) eqn:E; [|exact IH]. now constructor.
Qed.

Lemma zero_plus_positive s :
  SFltb (S754_zero false) s = true ->
  Float.add Float.binary64 (S754_zero false) s = s.
Proof. destruct s as [| | |[] m e]; simpl; try discriminate; reflexivity. Qed.

(** C4 (as amended): [get_loss] returns the scale-weighted average of the
    contributing modules' losses, the sum of [scale * loss] divided by the
    sum of the scales in floating-point arithmetic; with one contributing
    module of scale [s] and loss [l] that is [(s * l) / s], which is [l]
    itself when [s] is 1.0; and with no contributing module it is
    [None]. *)
Theorem get_loss_weighted_average (self : Kernel) v (previous_frame current_frame : Frame) :
  get_loss self v previous_frame current_frame =
    (if is_some (_config self) && is_some (StateFrame.current_state previous_frame)
     then match KernelSpec.contributions (_modules self) v previous_frame current_frame with
          | Ok cs => KernelSpec.weighted_average cs
          | Raise e => Raise e
          end
     else Raise AssertionError)
  /\ (forall s l,
        is_some (_config self) = true ->
        is_some (StateFrame.current_state previous_frame) = true ->
        KernelSpec.contributions (_modules self) v previous_frame current_frame
          = Ok [(s, l)] ->
        get_loss self v previous_frame current_frame
          = Ok (Some (Tensor.truediv (Tensor.rmul s l) s)))
  /\ (is_some (_config self) = true ->
      is_some (StateFrame.current_state previous_frame) = true ->
      KernelSpec.contributions (_modules self) v previous_frame current_frame = Ok [] ->
      get_loss self v previous_frame current_frame = Ok None)
  /\ (forall l,
        is_some (_config self) = true ->
        is_some (StateFrame.current_state previous_frame) = true ->
        KernelSpec.contributions (_modules self) v previous_frame current_frame
          = Ok [(py 1 0, l)] ->
        Tensor.valid l = true ->
        get_loss self v previous_frame current_frame = Ok (Some l)).
Proof.
  assert (Hmain :
    get_loss self v previous_frame current_frame =
      (if is_some (_config self) && is_some (StateFrame.current_state previous_frame)
       then match KernelSpec.contributions (_modules self) v previous_frame current_frame with
            | Ok cs => KernelSpec.weighted_average cs
            | Raise e => Raise e
            end
       else Raise AssertionError)).
  { unfold get_loss. destruct (_config self); [|reflexivity]. simpl.
    destruct (StateFrame.current_state previous_frame); [|reflexivity]. simpl.
    rewrite collect_losses_contributions.
    destruct (KernelSpec.contributions _ _ _ _) as [cs|e]; [|reflexivity].
    simpl. unfold KernelSpec.weighted_average, KernelSpec.total_scale.
    destruct cs as [|c1 [|c2 cs]]; simpl.
    - reflexivity.
    - now destruct (SFltb _ _).
    - rewrite orb_false_r. now destruct (SFltb _ _). }
  assert (Hone : forall s l,
    is_some (_config self) = true ->
    is_some (StateFrame.current_state previous_frame) = true ->
    KernelSpec.contributions (_modules self) v previous_frame current_frame
      = Ok [(s, l)] ->
    get_loss self v previous_frame current_frame
      = Ok (Some (Tensor.truediv (Tensor.rmul s l) s))).
  { intros s l Hc Hp Hcs. rewrite Hmain, Hc, Hp, Hcs. simpl.
    pose proof (contributions_positive _ _ _ _ _ Hcs) as Hpos.
    inversion Hpos as [|? ? Hs _]; subst. simpl in Hs.
    unfold KernelSpec.weighted_average, KernelSpec.total_scale.
    cbn [fold_left fst snd List.map].
    rewrite (zero_plus_positive s Hs), Hs. reflexivity. }
  split; [exact Hmain|]. split; [exact Hone|]. split.
  - intros Hc Hp Hcs. rewrite Hmain, Hc, Hp, Hcs. reflexivity.
  - intros l Hc Hp Hcs Hv. rewrite (Hone _ _ Hc Hp Hcs).
    now rewrite (unit_scale l Hv).
Qed.

(** *** The training status of the frames *)

(** No frame's status changes. *)
Definition quiet : relation World :=
  fun w w' => statuses w' = statuses w.

#[local] Instance quiet_refl : Reflexive quiet.
Proof. now intros w. Qed.

#[local] Instance quiet_trans : Transitive quiet.
Proof. intros a b c H1 H2. unfold quiet in *. congruence. Qed.

Lemma quiet_frame f : preserves quiet (frame f).
Proof. intros w. unfold frame. now destruct (frames w !! f). Qed.

Lemma quiet_optional_frame f : preserves quiet (optional_frame f).
Proof.
  destruct f as [f|]; simpl; [|apply preserves_ret; typeclasses eauto].
  apply preserves_bind; [typeclasses eauto|apply quiet_frame|].
  intros fr. apply preserves_ret; typeclasses eauto.
Qed.

Lemma quiet_get_runtime : preserves quiet (@get_runtime Data V).
Proof. now intros w. Qed.

Lemma quiet_put_runtime v : preserves quiet (@put_runtime Data V v).
Proof. now intros w. Qed.

Lemma statuses_alter (g : Frame -> Frame) f (frs : list Frame) :
  (forall fr, status (g fr) = status fr) ->
  List.map status (alter g f frs) = List.map status frs.
Proof.
  intros Hg. revert f. induction frs as [|fr frs IH]; intros [|f]; simpl;
    try reflexivity.
  - now rewrite Hg.
  - f_equal. apply IH.
Qed.

Lemma quiet_update_frame f (g : Frame -> Frame) :
  (forall fr, status (g fr) = status fr) -> preserves quiet (update_frame f g).
Proof.
  intros Hg w. unfold quiet, statuses. simpl. now apply statuses_alter.
Qed.

Ltac quiet_step :=
  first
    [ apply quiet_frame
    | apply quiet_optional_frame
    | apply quiet_get_runtime
    | apply quiet_put_runtime
    | apply quiet_update_frame; reflexivity
    | preserves_step ].

Lemma watch_recording weights tape :
  GradientTape._recording (fold_left GradientTape.watch weights tape)
  = GradientTape._recording tape.
Proof.
  revert tape. induction weights as [|x xs IH]; intros tape; simpl; [reflexivity|].
  now rewrite IH.
Qed.

Lemma statuses_length (w : World) : length (statuses w) = length (frames w).
Proof. unfold statuses. apply length_map. Qed.

Lemma post_frame {A} f (w : World) (k : Frame -> M World A) Q :
  (forall fr, frames w !! f = Some fr -> post (k fr) w Q) ->
  (frames w !! f = None -> Q (Raise InvalidReference) w) ->
  post (bind (frame f) k) w Q.
Proof.
  intros Hsome Hnone. apply post_bind. unfold post at 1, frame.
  destruct (frames w !! f) as [fr|]; simpl; auto.
Qed.

Lemma statuses_lookup (w : World) f :
  statuses w !! f = status <$> frames w !! f.
Proof. unfold statuses. apply list_lookup_fmap. Qed.

Lemma statuses_train f (frs : list Frame) tape :
  List.map status
    (alter (StateFrame.set_trained true) f
       (alter (StateFrame.set_tape None) f
          (alter (StateFrame.set_tape tape) f frs)))
  = <[f := (true, None)]> (List.map status frs).
Proof.
  revert f. induction frs as [|fr frs IH]; intros [|f]; simpl; try reflexivity.
  f_equal. apply IH.
Qed.

Lemma statuses_lookup_Some (w : World) f b tape :
  statuses w !! f = Some (b, tape) ->
  exists fr, frames w !! f = Some fr
             /\ StateFrame.trained fr = b /\ StateFrame.tape fr = tape.
Proof.
  rewrite statuses_lookup. destruct (frames w !! f) as [fr|]; [|discriminate].
  intros [= <- <-]. eauto.
Qed.

(** *** A step does not get past the new frame *)

Lemma optional_frame_same f (w : World) : snd (optional_frame f w) = w.
Proof.
  destruct f as [f|]; simpl; [|reflexivity].
  unfold bind, frame. now destruct (frames w !! f).
Qed.

(** [new_frame] evaluates the constructor's two arguments, and then the
    constructor raises: it is not given the [stream_id] that frame.py
    requires.  So [new_frame] raises whatever it is given, and leaves the
    world as it found it. *)
Lemma new_frame_outcome (self : Kernel) previous_frame (w : World) :
  exists e,
    new_frame self previous_frame w = (Raise e, w)
    /\ (forall previous previous_state tape,
          optional_frame previous_frame w = (Ok previous, w) ->
          get_previous_state self previous = Ok previous_state ->
          new_gradient_tape self = Ok tape ->
          e = TypeError).
Proof.
  unfold new_frame. unfold bind at 1, assert.
  destruct (is_some (_config self)) eqn:Hc; simpl.
  - unfold bind at 1. pose proof (optional_frame_same previous_frame w) as Hsame.
    destruct (optional_frame previous_frame w) as [[previous|e] w1]; simpl in Hsame;
      subst w1.
    + unfold bind at 1, lift.
      destruct (get_previous_state self previous) as [previous_state|e] eqn:Eprev.
      * unfold bind at 1.
        destruct (new_gradient_tape self) as [tape|e] eqn:Etape.
        -- exists TypeError. split; [reflexivity|auto].
        -- exists e. split; [reflexivity|]. intros; discriminate.
      * exists e. split; [reflexivity|]. intros ? ? ? [= <-] H. congruence.
    + exists e. split; [reflexivity|]. intros; discriminate.
  - exists AssertionError. split; [reflexivity|].
    intros previous previous_state tape _ H. unfold get_previous_state in H.
    destruct (_config self); discriminate.
Qed.

Lemma step_outcome (self : Kernel) (environment : Environment) previous_frame
    (w : World) :
  exists e,
    step read_variable tape_gradient clip_by_global_norm
      self environment previous_frame w = (Raise e, w)
    /\ (forall previous previous_state tape,
          optional_frame previous_frame w = (Ok previous, w) ->
          get_previous_state self previous = Ok previous_state ->
          new_gradient_tape self = Ok tape ->
          e = TypeError).
Proof.
  destruct (new_frame_outcome self previous_frame w) as (e & Hnew & He).
  exists e. split; [|exact He]. unfold step. unfold bind at 1. now rewrite Hnew.
Qed.

(** C1: no step trains a frame, because no step gets as far: it raises
    in [new_frame], where the constructor of the frame is called without
    the [stream_id] that frame.py requires.  Whatever kernel, environment
    and previous frame a step is given, it does not return and it leaves
    the world as it found it: no frame is added, and the previous frame
    keeps its [trained] flag and its tape.  Where the kernel is configured
    and the previous frame, if there is one, has its state, the exception
    is the constructor's [TypeError]. *)
Theorem step_trains_no_frame (self : Kernel) (environment : Environment)
    previous_frame (w : World) :
  let outcome :=
    step read_variable tape_gradient clip_by_global_norm
      self environment previous_frame w in
  is_ok (fst outcome) = false
  /\ snd outcome = w
  /\ statuses (snd outcome) = statuses w
  /\ (forall previous previous_state tape,
        optional_frame previous_frame w = (Ok previous, w) ->
        get_previous_state self previous = Ok previous_state ->
        new_gradient_tape self = Ok tape ->
        fst outcome = Raise TypeError).
Proof.
  intros outcome.
  destruct (step_outcome self environment previous_frame w) as (e & Hstep & He).
  subst outcome. rewrite Hstep. simpl.
  split; [reflexivity|]. split; [reflexivity|]. split; [reflexivity|].
  intros previous previous_state tape H1 H2 H3. f_equal. eauto.
Qed.

(** *** The state gradient *)

(** C6: no step records a state gradient: the loop that asks the gradient
    providers and the averaging of what they return come after
    [new_frame], which raises.  Whatever the kernel's modules are, a step
    does not return, no frame is added, and no frame's
    [current_state_gradient] is assigned. *)
Theorem step_records_no_gradient (self : Kernel) (environment : Environment)
    previous_frame (w : World) :
  let outcome :=
    step read_variable tape_gradient clip_by_global_norm
      self environment previous_frame w in
  is_ok (fst outcome) = false
  /\ length (frames (snd outcome)) = length (frames w)
  /\ (forall f fr,
        frames (snd outcome) !! f = Some fr ->
        exists fr0,
          frames w !! f = Some fr0
          /\ StateFrame.current_state_gradient fr
             = StateFrame.current_state_gradient fr0).
Proof.
  intros outcome.
  destruct (step_outcome self environment previous_frame w) as (e & Hstep & _).
  subst outcome. rewrite Hstep. simpl.
  split; [reflexivity|]. split; [reflexivity|]. eauto.
Qed.

End KernelRun.

(** ** The TD agent: counters, protocol and bounds *)

Section TDAgentProtocol.
Import TDAgent.

Ltac run_monad :=
  unfold bind, get, modify, assert, ret, raise, lift; simpl.

(** *** Counters *)

Definition counters (self : t) : nat * nat := (episodes self, total_steps self).

Lemma update_same_counters self :
  counters (snd (_update_previous_decision self)) = counters self.
Proof.
  unfold _update_previous_decision. run_monad.
  destruct (_previous_decision self) as [previous|]; [|easy].
  destruct (ActionDecision.reward previous); [|easy].
  destruct (is_none (ActionDecision.q_value_target previous)); [|easy]. simpl.
  destruct (_current_decision self) as [current|]; simpl.
  - destruct (is_none (ActionDecision.reward current)); [|easy].
    simpl. destruct (need_prediction _ _); simpl; [|easy].
    destruct (stabilize self) eqn:Hs; simpl; auto.
  - destruct (stabilize self) eqn:Hs; simpl; [|auto].
    destruct (Num.truediv _ _); simpl; auto.
Qed.

Lemma close_same_counters self :
  counters (snd (_close_previous_decision self)) = counters self.
Proof.
  unfold _close_previous_decision. run_monad.
  destruct (_previous_decision self) as [previous|]; [|easy].
  destruct (is_some (ActionDecision.selected_q_value_prediction previous)); [|easy].
  simpl. destruct (is_some (ActionDecision.q_value_target previous)); easy.
Qed.

Lemma reset_counters self :
  counters (snd (reset self)) = (episodes self + 1, total_steps self).
Proof.
  rewrite reset_unfold.
  pose proof (update_same_counters (set_episodes (episodes self + 1) self)) as H.
  destruct (_update_previous_decision _) as [[[]|e] s1]; simpl in H; [|exact H].
  rewrite close_same_counters. now destruct (stabilize s1).
Qed.

Lemma choose_action_counters state_input self :
  counters (snd (choose_action state_input self)) = counters self.
Proof.
  rewrite choose_action_unfold.
  destruct (is_none (_current_decision self)); [|reflexivity]. cbv zeta.
  match goal with
  | |- context [_update_previous_decision ?a] =>
      pose proof (update_same_counters a) as H;
      destruct (_update_previous_decision a) as [[[]|e] s1]
  end; exact H.
Qed.

Lemma accept_reward_counters reward self :
  episodes (snd (accept_reward reward self)) = episodes self
  /\ total_steps (snd (accept_reward reward self)) <= total_steps self + 1
  /\ (is_ok (fst (accept_reward reward self)) = true ->
      total_steps (snd (accept_reward reward self)) = total_steps self + 1).
Proof.
  rewrite accept_reward_unfold.
  destruct (_current_decision self) as [current|]; [|simpl; split; [|split]; [easy|lia|easy]].
  destruct (is_none (ActionDecision.reward current));
    [|simpl; split; [|split]; [easy|lia|easy]].
  cbv zeta.
  match goal with
  | |- context [_close_previous_decision ?a] =>
      pose proof (close_same_counters a) as H;
      destruct (_close_previous_decision a) as [r s1]
  end.
  simpl in *. unfold counters in H.
  destruct (stabilize self); simpl in H; injection H as -> ->; split; [|split|..]; auto.
Qed.

(** X1: [episodes] counts the calls of [reset], those that raise
    included; [total_steps] counts the calls of [accept_reward] when all
    calls return, and never exceeds their number. *)
Theorem counters_count_calls (cs : list call) (self : t) :
  episodes (run_calls cs self) = episodes self + count_resets cs
  /\ total_steps (run_calls cs self) <= total_steps self + count_rewards cs
  /\ (all_return cs self = true ->
      total_steps (run_calls cs self) = total_steps self + count_rewards cs).
Proof.
  revert self. induction cs as [|c cs IH]; intros self.
  - simpl. unfold count_resets, count_rewards. simpl. repeat split; lia.
  - change (run_calls (c :: cs) self) with (run_calls cs (run_call c self)).
    destruct (IH (run_call c self)) as (IH1 & IH2 & IH3).
    rewrite IH1. clear IH1.
    assert (Hc : episodes (run_call c self) + count_resets cs
                 = episodes self + count_resets (c :: cs)
                 /\ total_steps (run_call c self) + count_rewards cs
                    <= total_steps self + count_rewards (c :: cs)
                 /\ (returns c self = true ->
                     total_steps (run_call c self) + count_rewards cs
                     = total_steps self + count_rewards (c :: cs))).
    { unfold count_resets, count_rewards. destruct c as [|s|r]; simpl.
      - pose proof (reset_counters self) as [= -> ->]. repeat split; lia.
      - pose proof (choose_action_counters s self) as [= -> ->]. repeat split; lia.
      - destruct (accept_reward_counters r self) as (-> & H2 & H3).
        split; [lia|]. split; [lia|]. intros H. rewrite (H3 H). lia. }
    destruct Hc as (Hc1 & Hc2 & Hc3).
    split; [exact Hc1|]. split; [lia|].
    simpl. intros [Hr Hall]%andb_prop. rewrite (IH3 Hall). now apply Hc3.
Qed.


(** *** The calling protocol *)

(** A decision that has its reward and awaits its target. *)
Definition awaiting_target (d : ActionDecision.t) : Prop :=
  is_some (ActionDecision.reward d) = true
  /\ ActionDecision.q_value_target d = None
  /\ is_some (ActionDecision.selected_q_value_prediction d) = true.

(** A decision that has been has_target. *)
Definition has_target (d : ActionDecision.t) : Prop :=
  is_some (ActionDecision.q_value_target d) = true
  /\ is_some (ActionDecision.selected_q_value_prediction d) = true.

(** A decision that has just been made. *)
Definition just_chosen (d : ActionDecision.t) : Prop :=
  ActionDecision.reward d = None
  /\ ActionDecision.q_value_target d = None
  /\ is_some (ActionDecision.selected_q_value_prediction d) = true
  /\ is_some (ActionDecision.exploit_q_value_prediction d) = true.

(** The agent between the calls of the protocol. *)
Definition in_protocol (pending : bool) (self : t) : Prop :=
  fills_in (_action_policy self)
  /\ discount_not_minus_one (discount self)
  /\ if pending then
       (exists d, _current_decision self = Some d /\ just_chosen d)
       /\ match _previous_decision self with
          | Some p => has_target p
          | None => True
          end
     else
       _current_decision self = None
       /\ match _previous_decision self with
          | Some p => awaiting_target p
          | None => True
          end.

Lemma update_same_configuration self :
  _action_policy (snd (_update_previous_decision self)) = _action_policy self
  /\ discount (snd (_update_previous_decision self)) = discount self.
Proof.
  unfold _update_previous_decision. run_monad.
  destruct (_previous_decision self) as [previous|]; [|easy].
  destruct (ActionDecision.reward previous); [|easy].
  destruct (is_none (ActionDecision.q_value_target previous)); [|easy]. simpl.
  destruct (_current_decision self) as [current|]; simpl.
  - destruct (is_none (ActionDecision.reward current)); [|easy].
    simpl. destruct (need_prediction _ _); simpl; [|easy].
    destruct (stabilize self) eqn:Hs; simpl; auto.
  - destruct (stabilize self) eqn:Hs; simpl; [|auto].
    destruct (Num.truediv _ _); simpl; auto.
Qed.

Lemma get_discount_not_minus_one self :
  discount_not_minus_one (discount self) ->
  Float.is_zero (Float.add Float.binary64 (py 1 0) (get_discount self)) = false.
Proof. unfold get_discount. destruct (discount self); simpl; auto. Qed.

Lemma choose_action_in_protocol state_input self :
  in_protocol false self ->
  is_ok (fst (choose_action state_input self)) = true
  /\ in_protocol true (snd (choose_action state_input self)).
Proof.
  intros (Hfill & Hdisc & Hcur & Hprev).
  rewrite choose_action_unfold, Hcur. cbn [is_none]. cbv zeta.
  set (decision := ActionPolicy.choose_action (_action_policy self) _).
  assert (Hchosen : just_chosen decision).
  { destruct (Hfill (ActionDecision.new state_input
                       match _previous_decision self with
                       | Some previous => ActionDecision.step previous + 1
                       | None => 0
                       end)) as (H1 & H2 & H3 & H4).
    fold decision in H1, H2, H3, H4. now repeat split. }
  destruct (_previous_decision self) as [previous|] eqn:Eprev.
  - destruct Hprev as (Hr & Hq & Hsel).
    destruct (ActionDecision.reward previous) as [r|] eqn:Er; [|discriminate].
    destruct Hchosen as (Hcr & Hcq & Hcsel & Hcp).
    destruct (ActionDecision.exploit_q_value_prediction decision) as [p|] eqn:Ep;
      [|discriminate].
    rewrite (update_with_successor
               (set_decisions (Some previous) (Some decision) self)
               previous decision r p eq_refl Er Hq eq_refl Hcr Ep).
    simpl. split; [reflexivity|]. split; [exact Hfill|]. split; [exact Hdisc|].
    split.
    + exists decision. split; [reflexivity|]. unfold just_chosen. rewrite Ep. now repeat split.
    + now split.
  - rewrite update_without_previous by reflexivity.
    simpl. split; [reflexivity|]. split; [exact Hfill|]. split; [exact Hdisc|].
    split; [|exact I]. now exists decision.
Qed.

Lemma accept_reward_in_protocol reward self :
  in_protocol true self ->
  is_ok (fst (accept_reward reward self)) = true
  /\ in_protocol false (snd (accept_reward reward self)).
Proof.
  intros (Hfill & Hdisc & (d & Hcur & Hr & Hq & Hsel & Hp) & Hprev).
  rewrite accept_reward_unfold, Hcur, Hr. cbn [is_none]. cbv zeta.
  unfold _close_previous_decision. run_monad.
  assert (Hend : awaiting_target (ActionDecision.set_reward d reward)) by now repeat split.
  destruct (_previous_decision self) as [previous|] eqn:Eprev.
  - destruct Hprev as [Hpq Hpsel].
    destruct (stabilize self); simpl; rewrite ?Eprev, ?Hpsel; simpl;
      rewrite ?Hpq; simpl;
      (split; [reflexivity|]); (split; [exact Hfill|]); (split; [exact Hdisc|]);
      (split; [reflexivity|exact Hend]).
  - destruct (stabilize self); simpl; rewrite ?Eprev; simpl;
      (split; [reflexivity|]); (split; [exact Hfill|]); (split; [exact Hdisc|]);
      (split; [reflexivity|exact Hend]).
Qed.

Lemma reset_in_protocol self :
  in_protocol false self ->
  is_ok (fst (reset self)) = true
  /\ in_protocol false (snd (reset self)).
Proof.
  intros (Hfill & Hdisc & Hcur & Hprev).
  rewrite reset_unfold.
  destruct (_previous_decision self) as [previous|] eqn:Eprev.
  - destruct Hprev as (Hr & Hq & Hsel).
    destruct (ActionDecision.reward previous) as [r|] eqn:Er; [|discriminate].
    pose proof (update_at_end_of_episode (set_episodes (episodes self + 1) self)
                  previous r Eprev Er Hq Hcur) as Hupdate.
    cbv zeta in Hupdate. simpl stabilize in Hupdate. rewrite Hupdate.
    assert (Hdiv : exists q,
              TDSpec.final_target r (get_discount (set_episodes (episodes self + 1) self))
              = Ok q).
    { unfold TDSpec.final_target, Num.truediv.
      destruct r as [x|x]; [|eauto].
      rewrite (get_discount_not_minus_one (set_episodes (episodes self + 1) self) Hdisc).
      eauto. }
    destruct Hdiv as [q Hdiv].
    destruct (stabilize self) eqn:Hs.
    + rewrite Hdiv. simpl. rewrite Hs.
      unfold _close_previous_decision. run_monad. rewrite Hsel. simpl.
      split; [reflexivity|]. split; [exact Hfill|]. split; [exact Hdisc|].
      split; [reflexivity|exact I].
    + simpl. rewrite Hs.
      unfold _close_previous_decision. run_monad. rewrite Hsel. simpl.
      split; [reflexivity|]. split; [exact Hfill|]. split; [exact Hdisc|].
      split; [reflexivity|exact I].
  - rewrite update_without_previous by exact Eprev. simpl.
    unfold _close_previous_decision. run_monad.
    destruct (stabilize self); simpl; rewrite ?Eprev; simpl; rewrite ?Hcur;
      (split; [reflexivity|]); (split; [exact Hfill|]); (split; [exact Hdisc|]);
      (split; [reflexivity|exact I]).
Qed.

Lemma protocol_returns (cs : list call) pending (self : t) :
  in_protocol pending self ->
  follows_protocol pending cs = true ->
  all_return cs self = true.
Proof.
  revert pending self. induction cs as [|c cs IH]; intros pending self Hin Hcs;
    [reflexivity|].
  cbn [all_return]. destruct c as [|s|r]; cbn [follows_protocol] in Hcs;
    apply andb_prop in Hcs as [Hpending Hcs]; cbn [returns run_call].
  - apply negb_true_iff in Hpending. subst pending.
    destruct (reset_in_protocol self Hin) as [Hok Hin'].
    rewrite Hok. now apply (IH false).
  - apply negb_true_iff in Hpending. subst pending.
    destruct (choose_action_in_protocol s self Hin) as [Hok Hin'].
    rewrite Hok. now apply (IH true).
  - subst pending.
    destruct (accept_reward_in_protocol r self Hin) as [Hok Hin'].
    rewrite Hok. now apply (IH false).
Qed.

(** X2: a new agent whose policy fills in its decisions and whose discount
    is never -1 returns from every call of a sequence that follows the
    protocol: [choose_action] and [accept_reward] in turn, [reset] only
    when no decision awaits its reward. *)
Theorem protocol_never_raises policy discount stabilize (cs : list call) :
  fills_in policy ->
  discount_not_minus_one discount ->
  follows_protocol false cs = true ->
  all_return cs (__init__ policy discount stabilize) = true.
Proof.
  intros Hfill Hdisc. apply protocol_returns.
  split; [exact Hfill|]. split; [exact Hdisc|]. now split.
Qed.

(** *** A reset with a decision pending *)

(** The previous decision has no reward and no target: nothing can close
    it any more. *)
Definition stuck (self : t) : Prop :=
  exists d, _previous_decision self = Some d
            /\ ActionDecision.reward d = None
            /\ ActionDecision.q_value_target d = None.

Lemma update_stuck self :
  stuck self -> _update_previous_decision self = (Raise AssertionError, self).
Proof.
  intros (d & Hprev & Hr & Hq). unfold _update_previous_decision. run_monad.
  now rewrite Hprev, Hr.
Qed.

Lemma stuck_call (c : call) (self : t) :
  stuck self -> returns c self = false /\ stuck (run_call c self).
Proof.
  intros Hstuck. pose proof Hstuck as (d & Hprev & Hr & Hq).
  destruct c as [|s|r]; simpl.
  - rewrite reset_unfold, update_stuck; [simpl; split; [reflexivity|]|];
      exists d; auto.
  - rewrite choose_action_unfold.
    destruct (is_none (_current_decision self)); [|now split].
    cbv zeta. rewrite update_stuck; [simpl; split; [reflexivity|]|];
      exists d; auto.
  - rewrite accept_reward_unfold.
    destruct (_current_decision self) as [current|]; [|now split].
    destruct (is_none (ActionDecision.reward current)); [|now split].
    cbv zeta. unfold _close_previous_decision. run_monad.
    destruct (stabilize self); simpl; rewrite Hprev;
      destruct (is_some (ActionDecision.selected_q_value_prediction d)); simpl;
      rewrite ?Hq; simpl; (split; [reflexivity|]); exists d; auto.
Qed.

Lemma stuck_forever (cs : list call) (c : call) (self : t) :
  stuck self -> returns c (run_calls cs self) = false.
Proof.
  revert self. induction cs as [|c0 cs IH]; intros self Hstuck.
  - now apply stuck_call.
  - change (run_calls (c0 :: cs) self) with (run_calls cs (run_call c0 self)).
    apply IH. now apply (stuck_call c0).
Qed.

Lemma close_shifts self loss self' :
  _close_previous_decision self = (Ok loss, self') ->
  _previous_decision self' = _current_decision self
  /\ _current_decision self' = None.
Proof.
  unfold _close_previous_decision. run_monad.
  destruct (_previous_decision self) as [previous|].
  - destruct (is_some (ActionDecision.selected_q_value_prediction previous));
      [|discriminate]. simpl.
    destruct (is_some (ActionDecision.q_value_target previous)); [|discriminate].
    simpl. now intros [= _ <-].
  - now intros [= _ <-].
Qed.

(** X3: a [reset] that returns while a decision awaits its reward makes
    that decision the previous one, without a reward, and leaves none
    pending; after it no call of the agent returns any more. *)
Theorem reset_with_pending_decision self current loss self' :
  _current_decision self = Some current ->
  ActionDecision.reward current = None ->
  ActionDecision.q_value_target current = None ->
  reset self = (Ok loss, self') ->
  _previous_decision self' = Some current
  /\ _current_decision self' = None
  /\ forall (cs : list call) (c : call), returns c (run_calls cs self') = false.
Proof.
  intros Hcur Hr Hq Hreset.
  rewrite reset_unfold in Hreset.
  pose proof (update_keeps_current (set_episodes (episodes self + 1) self)) as Hkeep.
  destruct (_update_previous_decision _) as [[[]|e] s1]; [|discriminate].
  simpl in Hkeep. apply close_shifts in Hreset as [Hprev Hnone].
  assert (Hp : _previous_decision self' = Some current).
  { rewrite Hprev. now destruct (stabilize s1); simpl; rewrite Hkeep. }
  split; [exact Hp|]. split; [exact Hnone|].
  intros cs c. apply stuck_forever. exists current. auto.
Qed.

(** *** Calls out of turn *)

(** X4: an [accept_reward] that returns, and a [reset] that returns, leave
    no decision pending, so an [accept_reward] right after either raises
    an assertion error and changes nothing. *)
Theorem accept_reward_needs_decision self :
  (_current_decision self = None ->
   forall reward, accept_reward reward self = (Raise AssertionError, self))
  /\ (forall reward loss self' reward',
        accept_reward reward self = (Ok loss, self') ->
        accept_reward reward' self' = (Raise AssertionError, self'))
  /\ (forall loss self' reward',
        reset self = (Ok loss, self') ->
        accept_reward reward' self' = (Raise AssertionError, self')).
Proof.
  assert (Hnone : forall a, _current_decision a = None ->
            forall reward, accept_reward reward a = (Raise AssertionError, a)).
  { intros a H reward. now rewrite accept_reward_unfold, H. }
  split; [apply Hnone|]. split.
  - intros reward loss self' reward' H. apply Hnone.
    rewrite accept_reward_unfold in H.
    destruct (_current_decision self) as [current|]; [|discriminate].
    destruct (is_none (ActionDecision.reward current)); [|discriminate].
    cbv zeta in H. now apply close_shifts in H.
  - intros loss self' reward' H. apply Hnone.
    rewrite reset_unfold in H.
    destruct (_update_previous_decision _) as [[[]|e] s1]; [|discriminate].
    now apply close_shifts in H.
Qed.


(** *** The reward bounds *)

Lemma Num_lt_le a b : Num.lt a b = true -> Num.le a b = true.
Proof.
  destruct a as [x|x], b as [y|y]; unfold Num.lt, Num.le; simpl; apply SFltb_SFleb.
Qed.

Lemma Num_le_refl a : Num.is_nan a = false -> Num.le a a = true.
Proof. destruct a as [x|x]; unfold Num.le; simpl; apply SFleb_refl. Qed.

Lemma observe_within reward self :
  Num.is_nan reward = false -> within_bounds reward (observe reward self) = true.
Proof.
  intros Hnan. unfold within_bounds, observe. simpl.
  assert (Hmax : forall hi, Num.le reward (Num.max reward hi) = true).
  { intros hi. unfold Num.max, Num.gt.
    destruct (Num.lt reward hi) eqn:E; [now apply Num_lt_le|now apply Num_le_refl]. }
  assert (Hmin : forall lo, Num.le (Num.min reward lo) reward = true).
  { intros lo. unfold Num.min.
    destruct (Num.lt lo reward) eqn:E; [now apply Num_lt_le|now apply Num_le_refl]. }
  destruct (min_observable_reward self), (max_observable_reward self);
    rewrite ?Hmax, ?Hmin, ?Num_le_refl by assumption; reflexivity.
Qed.

Lemma within_bounds_bounds v a b :
  bounds a = bounds b -> within_bounds v a = within_bounds v b.
Proof. unfold bounds, within_bounds. now intros [= -> ->]. Qed.

(** X5: with stabilization, a reward that is not NaN lies within the
    bounds once [accept_reward] has returned: both are set, and
    [min_observable_reward <= reward <= max_observable_reward]. *)
Theorem accepted_reward_within_bounds self reward loss self' :
  stabilize self = true ->
  Num.is_nan reward = false ->
  accept_reward reward self = (Ok loss, self') ->
  within_bounds reward self' = true.
Proof.
  intros Hstab Hnan H.
  assert (Hb : bounds self' = bounds (observe reward self)).
  { rewrite accept_reward_unfold in H.
    destruct (_current_decision self) as [current|]; [|discriminate].
    destruct (is_none (ActionDecision.reward current)); [|discriminate].
    cbv zeta in H. rewrite Hstab in H.
    match type of H with
    | _close_previous_decision ?a = _ =>
        pose proof (proj1 (close_same_bounds a)) as Hc
    end.
    rewrite H in Hc. exact Hc. }
  rewrite (within_bounds_bounds _ _ _ Hb). now apply observe_within.
Qed.

(** X6: with both bounds set and [min <= max], the prediction that the
    stabilized target uses lies between the bounds, whatever the
    prediction (not NaN) was. *)
Theorem stabilized_prediction_within_bounds self lo hi p :
  min_observable_reward self = Some lo ->
  max_observable_reward self = Some hi ->
  SFleb (Num.to_tensor lo) (Num.to_tensor hi) = true ->
  Float.is_nan p = false ->
  SFleb (Num.to_tensor lo) (stabilized_prediction self p) = true
  /\ SFleb (stabilized_prediction self p) (Num.to_tensor hi) = true.
Proof.
  intros Hlo Hhi Hle Hp. unfold stabilized_prediction. rewrite Hlo, Hhi.
  set (l := Num.to_tensor lo) in *. set (h := Num.to_tensor hi) in *.
  destruct (SFleb_not_nan _ _ Hle) as [Hl Hh].
  assert (Hq : SFleb l (tf_maximum p l) = true
               /\ Float.is_nan (tf_maximum p l) = false).
  { unfold tf_maximum. rewrite Hp, Hl. simpl. destruct (SFltb p l) eqn:E.
    - split; [now apply SFleb_refl|exact Hl].
    - split; [now apply SFltb_false_SFleb|exact Hp]. }
  destruct Hq as [Hq1 Hq2]. set (q := tf_maximum p l) in *.
  unfold tf_minimum. rewrite Hq2, Hh. simpl. destruct (SFltb h q) eqn:E.
  - split; [exact Hle|now apply SFleb_refl].
  - split; [exact Hq1|now apply SFltb_false_SFleb].
Qed.

(** *** The end of an episode *)

(** X7: a [reset] that returns when no decision is pending leaves the
    agent without any decision: the next [choose_action] numbers its
    decision 0 and closes nothing. *)
Theorem reset_starts_new_episode self loss self' :
  _current_decision self = None ->
  reset self = (Ok loss, self') ->
  _previous_decision self' = None
  /\ _current_decision self' = None
  /\ episodes self' = episodes self + 1
  /\ forall state_input,
       let decision :=
         ActionPolicy.choose_action (_action_policy self')
           (ActionDecision.new state_input 0) in
       choose_action state_input self' =
         (Ok (ActionDecision.selected_action decision),
          set_decisions None (Some decision) self').
Proof.
  intros Hcur Hreset.
  pose proof (reset_counters self) as Hcount. rewrite Hreset in Hcount.
  injection Hcount as Hep _.
  rewrite reset_unfold in Hreset.
  pose proof (update_keeps_current (set_episodes (episodes self + 1) self)) as Hkeep.
  destruct (_update_previous_decision _) as [[[]|e] s1]; [|discriminate].
  simpl in Hkeep. rewrite Hcur in Hkeep.
  apply close_shifts in Hreset as [Hprev Hnone].
  assert (Hp : _previous_decision self' = None).
  { rewrite Hprev. now destruct (stabilize s1). }
  split; [exact Hp|]. split; [exact Hnone|]. split; [exact Hep|].
  intros state_input decision.
  rewrite choose_action_unfold, Hnone, Hp. cbn [is_none]. cbv zeta.
  fold decision. now rewrite update_without_previous.
Qed.

(** *** Clones *)

(** What the constructor is given: the policy, the discount and the
    stabilization flag. *)
Definition configuration (self : t) : ActionPolicy.t * Discount * bool :=
  (_action_policy self, discount self, stabilize self).

Lemma update_configuration self :
  configuration (snd (_update_previous_decision self)) = configuration self.
Proof.
  unfold configuration.
  destruct (update_same_configuration self) as [-> ->].
  now rewrite (proj2 (update_same_bounds self)).
Qed.

Lemma close_configuration self :
  configuration (snd (_close_previous_decision self)) = configuration self.
Proof.
  unfold _close_previous_decision, bind, get, modify, ret, raise. simpl.
  destruct (_previous_decision self) as [previous|]; [|easy].
  destruct (is_some (ActionDecision.selected_q_value_prediction previous)); [|easy].
  simpl. destruct (is_some (ActionDecision.q_value_target previous)); easy.
Qed.

Lemma run_call_configuration (c : call) self :
  configuration (run_call c self) = configuration self.
Proof.
  destruct c as [|s|r]; simpl.
  - rewrite reset_unfold.
    pose proof (update_configuration (set_episodes (episodes self + 1) self)) as H.
    destruct (_update_previous_decision _) as [[[]|e] s1]; simpl in H; [|exact H].
    rewrite close_configuration. now destruct (stabilize s1).
  - rewrite choose_action_unfold.
    destruct (is_none (_current_decision self)); [|reflexivity]. cbv zeta.
    match goal with
    | |- context [_update_previous_decision ?a] =>
        pose proof (update_configuration a) as H;
        destruct (_update_previous_decision a) as [[[]|e] s1]
    end; exact H.
  - rewrite accept_reward_unfold.
    destruct (_current_decision self) as [current|]; [|reflexivity].
    destruct (is_none (ActionDecision.reward current)); [|reflexivity].
    cbv zeta. rewrite close_configuration. now destruct (stabilize self).
Qed.

(** X8: no call changes the policy, the discount or the stabilization
    flag of an agent; so [clone] yields the same new agent, without
    decisions, bounds or counts, whatever the agent has been through. *)
Theorem clone_forgets_history (cs : list call) (self : t) :
  clone (run_calls cs self) = clone self
  /\ clone self = __init__ (_action_policy self) (discount self) (stabilize self)
  /\ _action_policy (run_calls cs self) = _action_policy self
  /\ discount (run_calls cs self) = discount self
  /\ stabilize (run_calls cs self) = stabilize self.
Proof.
  assert (H : configuration (run_calls cs self) = configuration self).
  { revert self. induction cs as [|c cs IH]; intros self; [reflexivity|].
    change (run_calls (c :: cs) self) with (run_calls cs (run_call c self)).
    now rewrite IH, run_call_configuration. }
  unfold configuration in H. injection H as H1 H2 H3.
  unfold clone. now rewrite H1, H2, H3.
Qed.

(** X27: the loss that [accept_reward] returns is the policy's loss on the
    decision before the one rewarded, closed by the [choose_action] in
    between with the target of its own prediction (and the bounds as they
    were then); after it the rewarded decision is the previous one.  For
    the first decision of an episode there is no loss. *)
Theorem accept_reward_returns_loss self state_input reward :
  _current_decision self = None ->
  let step :=
    match _previous_decision self with
    | Some previous => ActionDecision.step previous + 1
    | None => 0
    end in
  let decision :=
    ActionPolicy.choose_action (_action_policy self)
      (ActionDecision.new state_input step) in
  ActionDecision.reward decision = None ->
  (_previous_decision self = None ->
   exists self',
     (choose_action state_input ;; accept_reward reward) self = (Ok None, self')
     /\ _previous_decision self' = Some (ActionDecision.set_reward decision reward)
     /\ _current_decision self' = None)
  /\ (forall previous r p,
        _previous_decision self = Some previous ->
        ActionDecision.reward previous = Some r ->
        ActionDecision.q_value_target previous = None ->
        is_some (ActionDecision.selected_q_value_prediction previous) = true ->
        ActionDecision.exploit_q_value_prediction decision = Some p ->
        let target :=
          if stabilize self
          then TDSpec.stabilized_target r (get_discount self) p
                 (min_observable_reward self) (max_observable_reward self)
          else TDSpec.plain_target r (get_discount self) p in
        exists self',
          (choose_action state_input ;; accept_reward reward) self
          = (Ok (ActionPolicy.get_loss (_action_policy self)
                   (ActionDecision.set_target previous target
                      (ActionDecision.exploit_confidence decision))),
             self')
          /\ _previous_decision self' = Some (ActionDecision.set_reward decision reward)
          /\ _current_decision self' = None).
Proof.
  intros Hcur step decision Hdr. subst step decision. split.
  - intros Hprev. rewrite Hprev in Hdr |- *. unfold bind at 1.
    rewrite choose_action_unfold, Hcur, Hprev. cbn [is_none]. cbv zeta.
    rewrite update_without_previous by reflexivity.
    rewrite accept_reward_unfold. cbn [_current_decision set_decisions]. rewrite Hdr.
    cbn [is_none]. cbv zeta.
    unfold _close_previous_decision, bind, get, modify, ret. simpl.
    destruct (stabilize self); simpl; rewrite ?Hprev; simpl; eauto.
  - intros previous r p Hprev Hr Hq Hsel. rewrite Hprev in Hdr |- *.
    intros Hp target. unfold bind at 1.
    rewrite (choose_action_closes_previous state_input self previous r p
               Hcur Hprev Hr Hq Hdr Hp).
    fold target.
    rewrite accept_reward_unfold. cbn [_current_decision set_decisions]. rewrite Hdr.
    cbn [is_none]. cbv zeta.
    unfold _close_previous_decision, bind, get, modify, ret, raise. simpl.
    destruct (stabilize self); simpl; rewrite ?Hsel; simpl; eauto.
Qed.

End TDAgentProtocol.

(** ** The kernel: modules and configuration *)

Section KernelModules.
Context {Environment Data V : Type}.
Import StateKernel.

Abbreviation Kernel := (StateKernel.t Environment Data V).
Abbreviation KernelModule := (StateKernelModule.t Environment Data V).
Abbreviation Config := (StateKernelConfig.t V).

(** [invariant I]: a computation that starts where [I] holds ends where
    [I] holds. *)
Definition invariant {S} (I : S -> Prop) : relation S := fun s s' => I s -> I s'.

#[local] Instance invariant_refl {S} (I : S -> Prop) : Reflexive (invariant I).
Proof. now intros s. Qed.

#[local] Instance invariant_trans {S} (I : S -> Prop) : Transitive (invariant I).
Proof. intros a b c H1 H2 H. auto. Qed.

(** The modules stay. *)
Definition same_modules : relation Kernel :=
  fun k k' => _modules k' = _modules k.

#[local] Instance same_modules_refl : Reflexive same_modules.
Proof. now intros k. Qed.

#[local] Instance same_modules_trans : Transitive same_modules.
Proof. intros a b c H1 H2. unfold same_modules in *. congruence. Qed.

Lemma recompute_same_modules :
  preserves same_modules (@recompute_trainable_weights Environment Data V).
Proof.
  unfold recompute_trainable_weights.
  repeat preserves_step; now apply preserves_modify.
Qed.

Lemma module_configure_same_modules (module : KernelModule) :
  preserves same_modules (module_configure module).
Proof.
  unfold module_configure, set_state_prediction_provider,
    set_retroactive_gradient_provider, set_input_attention_provider,
    set_initial_state, set_default_input.
  repeat preserves_step; now apply preserves_modify.
Qed.

Lemma has_module_app (module : KernelModule) ms (self : Kernel) :
  has_module module (set__modules (_modules self ++ ms) self)
  = has_module module self
    || existsb (fun m => Nat.eqb (StateKernelModule.id m) (StateKernelModule.id module)) ms.
Proof. unfold has_module. simpl. apply existsb_app. Qed.

Lemma has_module_same (module : KernelModule) (a b : Kernel) :
  _modules a = _modules b -> has_module module a = has_module module b.
Proof. unfold has_module. now intros ->. Qed.

Lemma add_module_unfold (module : KernelModule) (self : Kernel) :
  add_module module self =
    if has_module module self then (Ok tt, self)
    else
      let s1 := set__modules (_modules self ++ [module]) self in
      if is_some (_config self)
      then (module_configure module ;; recompute_trainable_weights) s1
      else (Ok tt, s1).
Proof.
  unfold add_module. unfold bind at 1, get.
  destruct (has_module module self); [reflexivity|].
  unfold bind at 1, modify. destruct (is_some (_config self)); reflexivity.
Qed.

Lemma add_module_modules (module : KernelModule) (self : Kernel) :
  _modules (snd (add_module module self))
  = if has_module module self then _modules self else _modules self ++ [module].
Proof.
  rewrite add_module_unfold.
  destruct (has_module module self); [reflexivity|]. cbv zeta.
  destruct (is_some (_config self)); [|reflexivity].
  assert (H : preserves same_modules
                (module_configure module ;; @recompute_trainable_weights Environment Data V))
    by (repeat first [ apply module_configure_same_modules
                     | apply recompute_same_modules
                     | preserves_step ]).
  exact (H _).
Qed.

(** X9: after [add_module], returned or raised, the module is one of the
    kernel's modules, every module that was one still is, and adding the
    module again does nothing. *)
Theorem add_module_adds (module : KernelModule) (self : Kernel) :
  let self' := snd (add_module module self) in
  has_module module self' = true
  /\ (forall m, has_module m self = true -> has_module m self' = true)
  /\ add_module module self' = (Ok tt, self').
Proof.
  intros self'.
  assert (Hm : _modules self'
               = if has_module module self then _modules self
                 else _modules self ++ [module]) by apply add_module_modules.
  assert (Hhas : has_module module self' = true).
  { unfold has_module at 1. rewrite Hm.
    destruct (has_module module self) eqn:E; [exact E|].
    rewrite existsb_app. simpl. now rewrite Nat.eqb_refl, orb_true_r. }
  split; [exact Hhas|]. split.
  - intros m H. unfold has_module at 1. rewrite Hm.
    destruct (has_module module self); [exact H|].
    rewrite existsb_app. unfold has_module in H. now rewrite H.
  - now rewrite add_module_unfold, Hhas.
Qed.

Lemma has_module_filter (m module : KernelModule) (self : Kernel) :
  has_module m
    (set__modules
       (List.filter (fun m' => negb (Nat.eqb (StateKernelModule.id m')
                                       (StateKernelModule.id module)))
                    (_modules self)) self)
  = has_module m self
    && negb (Nat.eqb (StateKernelModule.id m) (StateKernelModule.id module)).
Proof.
  unfold has_module. simpl. induction (_modules self) as [|x xs IH]; [reflexivity|].
  simpl. destruct (Nat.eqb (StateKernelModule.id x) (StateKernelModule.id module)) eqn:E1;
    simpl; rewrite IH.
  - destruct (Nat.eqb (StateKernelModule.id x) (StateKernelModule.id m)) eqn:E2; simpl;
      [|reflexivity].
    apply Nat.eqb_eq in E1, E2. rewrite <- E2, E1, Nat.eqb_refl. simpl.
    now rewrite andb_false_r.
  - destruct (Nat.eqb (StateKernelModule.id x) (StateKernelModule.id m)) eqn:E2; simpl;
      [|reflexivity].
    apply Nat.eqb_eq in E2. rewrite <- E2, E1. reflexivity.
Qed.

Lemma filter_absent (module : KernelModule) (ms : list KernelModule) :
  existsb (fun m => Nat.eqb (StateKernelModule.id m) (StateKernelModule.id module)) ms
  = false ->
  List.filter (fun m' => negb (Nat.eqb (StateKernelModule.id m')
                                 (StateKernelModule.id module))) ms = ms.
Proof.
  induction ms as [|x xs IH]; [reflexivity|]. simpl.
  intros [E1 E2]%orb_false_elim. rewrite E1. simpl. now rewrite IH.
Qed.

Lemma discard_module_unfold (module : KernelModule) (self : Kernel) :
  discard_module module self =
    if match _state_prediction_provider self with
       | Some p => Nat.eqb (StateKernelModule.id p) (StateKernelModule.id module)
       | None => false
       end
    then (Raise AssertionError, self)
    else if has_module module self then
      let s1 :=
        set__modules
          (List.filter (fun m' => negb (Nat.eqb (StateKernelModule.id m')
                                          (StateKernelModule.id module)))
                       (_modules self)) self in
      if is_some (_config self) then recompute_trainable_weights s1 else (Ok tt, s1)
    else (Ok tt, self).
Proof.
  unfold discard_module. unfold bind at 1, get. unfold bind at 1, assert.
  destruct (match _state_prediction_provider self with
            | Some p => _
            | None => false
            end); [reflexivity|]. simpl.
  destruct (has_module module self); [|reflexivity].
  unfold bind at 1, modify. destruct (is_some (_config self)); reflexivity.
Qed.

Lemma discard_module_modules (module : KernelModule) (self : Kernel) :
  _modules (snd (discard_module module self))
  = if match _state_prediction_provider self with
       | Some p => Nat.eqb (StateKernelModule.id p) (StateKernelModule.id module)
       | None => false
       end
    then _modules self
    else List.filter (fun m' => negb (Nat.eqb (StateKernelModule.id m')
                                        (StateKernelModule.id module)))
                     (_modules self).
Proof.
  rewrite discard_module_unfold.
  destruct (match _state_prediction_provider self with
            | Some p => _
            | None => false
            end); [reflexivity|].
  destruct (has_module module self) eqn:Ehas.
  - cbv zeta. destruct (is_some (_config self)); [|reflexivity].
    exact (recompute_same_modules _).
  - simpl. symmetry. now apply filter_absent.
Qed.

Lemma discard_module_has (module : KernelModule) (self : Kernel) :
  if match _state_prediction_provider self with
     | Some p => Nat.eqb (StateKernelModule.id p) (StateKernelModule.id module)
     | None => false
     end
  then discard_module module self = (Raise AssertionError, self)
  else forall m,
         has_module m (snd (discard_module module self))
         = has_module m self
           && negb (Nat.eqb (StateKernelModule.id m) (StateKernelModule.id module)).
Proof.
  pose proof (discard_module_modules module self) as Hm.
  destruct (match _state_prediction_provider self with
            | Some p => _
            | None => false
            end) eqn:E.
  - now rewrite discard_module_unfold, E.
  - intros m. rewrite <- has_module_filter. apply has_module_same. exact Hm.
Qed.

(** X10: [discard_module] refuses the state prediction provider with an
    assertion error and changes nothing; any other module is no module of
    the kernel afterwards, and the other modules stay. *)
Theorem discard_module_removes (module : KernelModule) (self : Kernel) :
  if match _state_prediction_provider self with
     | Some p => Nat.eqb (StateKernelModule.id p) (StateKernelModule.id module)
     | None => false
     end
  then discard_module module self = (Raise AssertionError, self)
  else has_module module (snd (discard_module module self)) = false
       /\ forall m,
            has_module m (snd (discard_module module self))
            = has_module m self
              && negb (Nat.eqb (StateKernelModule.id m) (StateKernelModule.id module)).
Proof.
  pose proof (discard_module_has module self) as H.
  destruct (match _state_prediction_provider self with
            | Some p => _
            | None => false
            end) eqn:E; [exact H|].
  split; [|exact H]. rewrite H, Nat.eqb_refl. apply andb_false_r.
Qed.

(** *** What holds of every kernel *)

(** No module is held twice, and the state prediction provider is one of
    the modules. *)
Definition well_formed (self : Kernel) : Prop :=
  NoDup (module_ids self)
  /\ forall p, _state_prediction_provider self = Some p -> has_module p self = true.

Lemma has_module_ids (module : KernelModule) (self : Kernel) :
  has_module module self = true <-> In (StateKernelModule.id module) (module_ids self).
Proof.
  unfold has_module, module_ids. rewrite existsb_exists, in_map_iff.
  split; intros (m & H1 & H2).
  - apply Nat.eqb_eq in H2. eauto.
  - exists m. split; [exact H2|]. now apply Nat.eqb_eq.
Qed.

Lemma preserves_for_each_in {S A X} (R : relation S) `{!Reflexive R} `{!Transitive R}
    (xs : list X) (body : A -> X -> M S A) acc :
  (forall a x, In x xs -> preserves R (body a x)) -> preserves R (for_each xs body acc).
Proof.
  revert acc. induction xs as [|x xs IH]; intros acc Hbody; simpl.
  - now apply preserves_ret.
  - apply preserves_bind; [typeclasses eauto .. | apply Hbody; now left |].
    intros a. apply IH. intros a' x' Hx'. apply Hbody. now right.
Qed.

(** While a module configures itself the kernel stays well formed and
    keeps its modules. *)
Lemma module_configure_well_formed (module : KernelModule) ms :
  In module ms ->
  preserves (invariant (fun s : Kernel => well_formed s /\ _modules s = ms))
            (module_configure module).
Proof.
  intros Hin.
  assert (Hother : forall f : Kernel -> Kernel,
            (forall s, _modules (f s) = _modules s) ->
            (forall s, _state_prediction_provider (f s) = _state_prediction_provider s) ->
            preserves (invariant (fun s : Kernel => well_formed s /\ _modules s = ms))
                      (modify f)).
  { intros f Hm Hp. apply preserves_modify. intros s [[Hnd Hprov] Hms].
    split; [split|].
    - unfold module_ids. now rewrite Hm.
    - intros p. rewrite Hp. intros H. rewrite (has_module_same p (f s) s) by apply Hm.
      now apply Hprov.
    - now rewrite Hm. }
  unfold module_configure, set_state_prediction_provider,
    set_retroactive_gradient_provider, set_input_attention_provider,
    set_initial_state, set_default_input.
  repeat preserves_step; try (apply Hother; reflexivity).
  apply preserves_modify. intros s [[Hnd Hprov] Hms].
  split; [split|]; [exact Hnd| |exact Hms].
  intros p [= <-]. unfold has_module. simpl. rewrite Hms.
  apply existsb_exists. exists module. split; [exact Hin|apply Nat.eqb_refl].
Qed.

Lemma recompute_well_formed ms :
  preserves (invariant (fun s : Kernel => well_formed s /\ _modules s = ms))
            (@recompute_trainable_weights Environment Data V).
Proof.
  unfold recompute_trainable_weights. repeat preserves_step.
  apply preserves_modify. now intros s [[Hnd Hprov] Hms].
Qed.

Lemma add_module_well_formed (module : KernelModule) (self : Kernel) :
  well_formed self -> well_formed (snd (add_module module self)).
Proof.
  intros [Hnd Hprov]. rewrite add_module_unfold.
  destruct (has_module module self) eqn:Ehas; [now split|]. cbv zeta.
  set (s1 := set__modules (_modules self ++ [module]) self).
  assert (Hs1 : well_formed s1 /\ _modules s1 = _modules self ++ [module]).
  { split; [split|reflexivity].
    - unfold module_ids, s1. simpl. rewrite map_app. simpl.
      apply NoDup_app. split; [exact Hnd|]. split; [|apply NoDup_singleton].
      intros x Hx Hx'. apply list_elem_of_singleton in Hx'. subst x.
      apply list_elem_of_In in Hx. apply has_module_ids in Hx. congruence.
    - intros p Hp. unfold s1. rewrite has_module_app. now rewrite (Hprov p Hp). }
  destruct (is_some (_config self)); [|exact (proj1 Hs1)].
  assert (H : preserves (invariant (fun s : Kernel =>
                           well_formed s /\ _modules s = _modules self ++ [module]))
                (module_configure module ;; recompute_trainable_weights)).
  { apply preserves_bind; [typeclasses eauto..| |intros _; apply recompute_well_formed].
    apply module_configure_well_formed. apply in_or_app. right. now left. }
  exact (proj1 (H s1 Hs1)).
Qed.

Lemma recompute_same_provider (s : Kernel) :
  _state_prediction_provider (snd (recompute_trainable_weights s))
  = _state_prediction_provider s.
Proof.
  assert (H : preserves (fun k k' : Kernel =>
                           _state_prediction_provider k' = _state_prediction_provider k)
                (@recompute_trainable_weights Environment Data V)).
  { assert (Reflexive (fun k k' : Kernel =>
              _state_prediction_provider k' = _state_prediction_provider k))
      by now intros k.
    assert (Transitive (fun k k' : Kernel =>
              _state_prediction_provider k' = _state_prediction_provider k))
      by (intros a b c H1 H2; congruence).
    unfold recompute_trainable_weights.
    repeat preserves_step; now apply preserves_modify. }
  apply H.
Qed.

Lemma discard_module_provider (module : KernelModule) (self : Kernel) :
  _state_prediction_provider (snd (discard_module module self))
  = _state_prediction_provider self.
Proof.
  rewrite discard_module_unfold.
  destruct (match _state_prediction_provider self with
            | Some p => _
            | None => false
            end); [reflexivity|].
  destruct (has_module module self); [|reflexivity]. cbv zeta.
  destruct (is_some (_config self)); [|reflexivity].
  now rewrite recompute_same_provider.
Qed.

Lemma NoDup_filter_ids (module : KernelModule) (ms : list KernelModule) :
  NoDup (List.map StateKernelModule.id ms) ->
  NoDup (List.map StateKernelModule.id
           (List.filter (fun m' => negb (Nat.eqb (StateKernelModule.id m')
                                           (StateKernelModule.id module))) ms)).
Proof.
  induction ms as [|x xs IH]; [constructor|].
  simpl. intros [Hx Hxs]%NoDup_cons.
  destruct (negb _); [|now apply IH].
  simpl. apply NoDup_cons. split; [|now apply IH].
  intros Hin. apply Hx. apply list_elem_of_In in Hin. apply list_elem_of_In.
  apply in_map_iff in Hin as (m & H1 & H2). apply in_map_iff.
  exists m. split; [exact H1|]. now apply List.filter_In in H2.
Qed.

Lemma discard_module_well_formed (module : KernelModule) (self : Kernel) :
  well_formed self -> well_formed (snd (discard_module module self)).
Proof.
  intros [Hnd Hprov].
  pose proof (discard_module_has module self) as Hrem.
  pose proof (discard_module_modules module self) as Hm.
  pose proof (discard_module_provider module self) as Hp.
  destruct (match _state_prediction_provider self with
            | Some p => _
            | None => false
            end) eqn:E.
  - rewrite Hrem. now split.
  - split.
    + unfold module_ids. rewrite Hm. now apply NoDup_filter_ids.
    + intros p. rewrite Hp. intros Hpp. rewrite Hrem, (Hprov p Hpp).
      rewrite Hpp in E. now rewrite E.
Qed.

Section OperationFacts.
Context (StandardInputAttentionProvider StandardStatePredictionProvider :
           nat -> KernelModule).

Lemma configure_well_formed config (self : Kernel) :
  well_formed self ->
  well_formed (snd (configure StandardInputAttentionProvider
                      StandardStatePredictionProvider config self)).
Proof.
  assert (Hadd : forall module, preserves (invariant well_formed) (add_module module)).
  { intros module s Hs. now apply add_module_well_formed. }
  assert (Hdrop : forall ms {A} (c : M Kernel A),
            preserves (invariant (fun s : Kernel => well_formed s /\ _modules s = ms)) c ->
            forall s, _modules s = ms -> invariant well_formed s (snd (c s))).
  { intros ms A c Hc s Hms Hwf. now apply (Hc s). }
  intros Hwf. unfold configure.
  unfold bind at 1, get. unfold bind at 1, assert.
  destruct (is_none (_config self)); [|exact Hwf]. simpl.
  unfold bind at 1, modify.
  set (s1 := set__config (Some config) self).
  assert (Hs1 : well_formed s1) by exact Hwf.
  unfold bind at 1.
  pose proof (Hdrop (_modules self) _
                (for_each (_modules self) (fun _ module => module_configure module) tt)) as H2.
  specialize (H2 (preserves_for_each_in _ _ _ _
                    (fun a x Hx => module_configure_well_formed x (_modules self) Hx))
                 s1 eq_refl Hs1).
  destruct (for_each _ _ _ s1) as [[[]|e] s2]; [|exact H2]. simpl in H2.
  match goal with
  | |- well_formed (snd (?rest s2)) =>
      assert (Hrest : preserves (invariant well_formed) rest)
  end.
  { assert (Hrec : preserves (invariant well_formed)
                     (@recompute_trainable_weights Environment Data V)).
    { intros s Hs.
      exact (proj1 (recompute_well_formed (_modules s) s (conj Hs eq_refl))). }
    assert (Hinit : forall value,
              preserves (invariant well_formed)
                (@set_initial_state Environment Data V value)).
    { intros value. unfold set_initial_state. repeat preserves_step.
      apply preserves_modify. now intros s. }
    repeat first [ apply Hadd | apply Hrec | apply Hinit | preserves_step ]. }
  exact (Hrest s2 H2).
Qed.

Lemma run_operation_well_formed o (self : Kernel) :
  well_formed self ->
  well_formed (run_operation StandardInputAttentionProvider
                 StandardStatePredictionProvider o self).
Proof.
  destruct o; simpl;
    auto using add_module_well_formed, discard_module_well_formed, configure_well_formed.
Qed.

(** X11: in a kernel built from [StateKernel()] by [add_module],
    [discard_module] and [configure], whether they return or raise, no
    module is held twice and the state prediction provider, once
    designated, is one of the kernel's modules. *)
Theorem kernel_well_formed (os : list (operation (Environment := Environment))) :
  let self := run_operations StandardInputAttentionProvider
                StandardStatePredictionProvider os empty in
  NoDup (module_ids self)
  /\ forall p, _state_prediction_provider self = Some p -> has_module p self = true.
Proof.
  change (well_formed (run_operations StandardInputAttentionProvider
                         StandardStatePredictionProvider os empty)).
  assert (H : well_formed (@empty Environment Data V)).
  { split; [constructor|discriminate]. }
  revert H. generalize (@empty Environment Data V).
  induction os as [|o os IH]; intros self H; [exact H|].
  apply IH. now apply run_operation_well_formed.
Qed.

End OperationFacts.

(** *** The initial state *)

(** X12: the initial state is assigned once: after an assignment that
    returns, the property yields the value, it is trainable exactly when
    the value is a variable, and every further assignment raises an
    assertion error and changes nothing. *)
Theorem initial_state_set_once (value : TensorOrVariable) (self self' : Kernel) :
  set_initial_state value self = (Ok tt, self') ->
  initial_state self' = Ok value
  /\ initial_state_is_trainable self' = Ok (is_variable value)
  /\ forall value', set_initial_state value' self' = (Raise AssertionError, self').
Proof.
  unfold set_initial_state, bind, get, assert, modify. simpl.
  destruct (is_none (_initial_state self)); [|discriminate]. simpl.
  intros [= <-]. repeat split.
Qed.

(** *** Configuration *)

Lemma recompute_ok (s s' : Kernel) :
  recompute_trainable_weights s = (Ok tt, s') ->
  exists initial default,
    _initial_state s = Some initial
    /\ _default_input s = Some default
    /\ is_some (_config s) = true
    /\ s' = set__trainable_weights
              (Some ((if _initial_state_is_trainable s then [initial] else [])
                     ++ (if _default_input_is_trainable s then [default] else [])
                     ++ flat_map (fun m => List.map IsVariable
                                             (StateKernelModule.get_trainable_weights m))
                                 (_modules s))) s.
Proof.
  unfold recompute_trainable_weights, initial_state_is_trainable, initial_state,
    default_input_is_trainable, default_input, bind, get, assert, lift, modify, ret.
  simpl. destruct (is_some (_config s)); [|discriminate]. simpl.
  destruct (_initial_state s) as [initial|]; [|discriminate]. simpl.
  destruct (_default_input s) as [default|];
    [|destruct (_initial_state_is_trainable s); discriminate].
  intros H. exists initial, default.
  destruct (_initial_state_is_trainable s), (_default_input_is_trainable s);
    simpl in *; injection H as <-; auto.
Qed.

(** After [recompute_trainable_weights] the trainable weights are those
    of the kernel's modules as they are then. *)
Lemma recomputed_weights (s s' : Kernel) :
  recompute_trainable_weights s = (Ok tt, s') ->
  _modules s' = _modules s
  /\ exists initial default,
       _initial_state s' = Some initial
       /\ _default_input s' = Some default
       /\ get_trainable_weights s'
          = Ok ((if _initial_state_is_trainable s' then [initial] else [])
                ++ (if _default_input_is_trainable s' then [default] else [])
                ++ flat_map (fun m => List.map IsVariable
                                        (StateKernelModule.get_trainable_weights m))
                            (_modules s')).
Proof.
  intros H. apply recompute_ok in H as (initial & default & Hi & Hd & Hc & ->).
  split; [reflexivity|].
  exists initial, default. unfold get_trainable_weights. simpl.
  destruct (_config s); [|discriminate]. auto.
Qed.

(** X28: on a configured kernel, a module change that returns leaves the
    trainable weights up to date: they are the initial state and the
    default input, where trainable, followed by the weights of the modules
    the kernel has afterwards, in the order in which the kernel goes
    through its modules.  After [add_module] of a new module, the module
    is one of them and each of its weights is a trainable weight of the
    kernel; after [discard_module] of a module of the kernel, the module
    is none of them. *)
Theorem module_change_recomputes_weights (module : KernelModule) (self self' : Kernel) :
  is_some (_config self) = true ->
  let up_to_date :=
    exists initial default,
      _initial_state self' = Some initial
      /\ _default_input self' = Some default
      /\ get_trainable_weights self'
         = Ok ((if _initial_state_is_trainable self' then [initial] else [])
               ++ (if _default_input_is_trainable self' then [default] else [])
               ++ flat_map (fun m => List.map IsVariable
                                       (StateKernelModule.get_trainable_weights m))
                           (_modules self')) in
  (has_module module self = false ->
   add_module module self = (Ok tt, self') ->
   up_to_date
   /\ has_module module self' = true
   /\ forall weights weight,
        get_trainable_weights self' = Ok weights ->
        In weight (StateKernelModule.get_trainable_weights module) ->
        In (IsVariable weight) weights)
  /\ (has_module module self = true ->
      discard_module module self = (Ok tt, self') ->
      up_to_date /\ has_module module self' = false).
Proof.
  intros Hc up_to_date. subst up_to_date. cbv beta. split.
  - intros Hhas H.
    pose proof (add_module_modules module self) as Hm.
    rewrite H, Hhas in Hm. simpl in Hm.
    rewrite add_module_unfold, Hhas, Hc in H. cbv zeta in H.
    apply bind_ok in H as ([] & s1 & Hconf & H).
    apply recomputed_weights in H as (_ & initial & default & Hi & Hd & Hw).
    split; [eauto|]. split.
    + unfold has_module. rewrite Hm, existsb_app. simpl.
      now rewrite Nat.eqb_refl, orb_true_r.
    + intros weights weight Hweights Hin. rewrite Hw in Hweights.
      injection Hweights as <-.
      apply in_or_app. right. apply in_or_app. right.
      apply in_flat_map. exists module. split.
      * rewrite Hm. apply in_or_app. right. now left.
      * now apply in_map.
  - intros Hhas H.
    pose proof (discard_module_has module self) as Hd.
    rewrite discard_module_unfold, Hhas, Hc in H.
    destruct (match _state_prediction_provider self with
              | Some p => _
              | None => false
              end) eqn:E; [discriminate|]. cbv zeta in H.
    pose proof H as H0.
    apply recomputed_weights in H as (_ & initial & default & Hi & Hdf & Hw).
    split; [eauto|].
    assert (Hsnd : snd (discard_module module self) = self').
    { rewrite discard_module_unfold, Hhas, Hc, E. cbv zeta. now rewrite H0. }
    specialize (Hd module). rewrite Hsnd in Hd. rewrite Hd.
    now rewrite Nat.eqb_refl, andb_false_r.
Qed.

Section ConfigureFacts.
Context (StandardInputAttentionProvider StandardStatePredictionProvider :
           nat -> KernelModule).

#[local] Existing Instance same_config_refl.
#[local] Existing Instance same_config_trans.

(** X13: when [configure] returns, the kernel has the configuration, an
    initial state and a default input, and [get_trainable_weights] yields
    the initial state and the default input (each if it is a variable)
    followed by the weights of the modules. *)
Theorem configure_postcondition config (self self' : Kernel) :
  configure StandardInputAttentionProvider StandardStatePredictionProvider config self
  = (Ok tt, self') ->
  exists initial default,
    _config self' = Some config
    /\ _initial_state self' = Some initial
    /\ _default_input self' = Some default
    /\ get_trainable_weights self'
       = Ok ((if _initial_state_is_trainable self' then [initial] else [])
             ++ (if _default_input_is_trainable self' then [default] else [])
             ++ flat_map (fun m => List.map IsVariable
                                     (StateKernelModule.get_trainable_weights m))
                         (_modules self')).
Proof.
  intros H.
  assert (Hc : _config self' = Some config).
  { unfold configure in H.
    apply bind_ok in H as (a & s1 & Hget & H). injection Hget as <- <-.
    apply bind_ok in H as ([] & s2 & Hassert & H).
    apply bind_ok in H as ([] & s3 & Hmodify & H). injection Hmodify as <-.
    match type of H with
    | ?rest _ = _ => assert (Hrest : preserves same_config rest)
    end.
    { unfold set_initial_state.
      repeat first [ apply add_module_same_config
                   | apply module_configure_same_config
                   | apply recompute_same_config
                   | preserves_step ];
        now apply preserves_modify. }
    specialize (Hrest (set__config (Some config) s2)).
    rewrite H in Hrest. exact Hrest. }
  unfold configure in H.
  apply bind_ok in H as (a & s1 & _ & H).
  apply bind_ok in H as ([] & s2 & _ & H).
  apply bind_ok in H as ([] & s3 & _ & H).
  apply bind_ok in H as ([] & s4 & _ & H).
  apply bind_ok in H as (a5 & s5 & _ & H).
  apply bind_ok in H as ([] & s6 & _ & H).
  apply bind_ok in H as (a7 & s7 & _ & H).
  apply bind_ok in H as ([] & s8 & _ & H).
  apply bind_ok in H as (a9 & s9 & _ & H).
  apply bind_ok in H as ([] & s10 & _ & H).
  apply recompute_ok in H as (initial & default & Hi & Hd & _ & ->).
  exists initial, default. simpl in *.
  unfold get_trainable_weights. simpl. rewrite Hc. auto.
Qed.


(** **** The default providers come before the initial state *)

(** A result that is an assertion error, or a state where [J] holds. *)
Definition asserts {A} (J : Kernel -> Prop) : result A -> Kernel -> Prop :=
  fun r s => match r with
             | Ok _ => J s
             | Raise e => e = AssertionError
             end.

Lemma post_for_each_asserts {A X} (J : Kernel -> Prop) (xs : list X)
    (body : A -> X -> M Kernel A) acc s :
  J s ->
  (forall a x s, In x xs -> J s -> post (body a x) s (asserts J)) ->
  post (for_each xs body acc) s (asserts J).
Proof.
  revert acc s. induction xs as [|x xs IH]; intros acc s Hs Hbody; simpl.
  - exact Hs.
  - apply post_bind. eapply post_weaken; [apply Hbody; [now left|exact Hs]|].
    intros [a|e] s1; simpl; [|auto].
    intros Hs1. apply IH; [exact Hs1|]. intros a' x' s' Hx'. apply Hbody. now right.
Qed.

(** The kernel is configured and has no initial state (and, with
    [no_provider], no state prediction provider). *)
Definition awaits_initial_state (no_provider : bool) (s : Kernel) : Prop :=
  is_some (_config s) = true
  /\ _initial_state s = None
  /\ (no_provider = true -> _state_prediction_provider s = None).

Lemma module_configure_awaits no_provider (module : KernelModule) (s : Kernel) :
  (forall config,
     existsb sets_initial_state (StateKernelModule.configure module config) = false) ->
  (no_provider = true ->
   forall config,
     existsb designates_state_prediction (StateKernelModule.configure module config)
     = false) ->
  awaits_initial_state no_provider s ->
  post (module_configure module) s (asserts (awaits_initial_state no_provider)).
Proof.
  intros Hinit Hprov Hs. unfold module_configure.
  apply post_bind, post_get.
  destruct Hs as (Hc & Hi & Hp).
  destruct (_config s) as [config|] eqn:Ec; [|discriminate].
  specialize (Hinit config).
  assert (Hprov' : no_provider = true ->
            existsb designates_state_prediction (StateKernelModule.configure module config)
            = false) by auto.
  clear Hprov.
  assert (Hs : awaits_initial_state no_provider s).
  { split; [now rewrite Ec|]. now split. }
  clear Hc Hi Hp Ec. revert s Hs.
  induction (StateKernelModule.configure module config) as [|r rs IH]; intros s Hs;
    simpl; [exact Hs|].
  simpl in Hinit. apply orb_false_elim in Hinit as [Hr Hrs].
  assert (Hprs : no_provider = true -> existsb designates_state_prediction rs = false).
  { intros Hn. specialize (Hprov' Hn). simpl in Hprov'.
    now apply orb_false_elim in Hprov'. }
  assert (Hpr : no_provider = true -> designates_state_prediction r = false).
  { intros Hn. specialize (Hprov' Hn). simpl in Hprov'.
    now apply orb_false_elim in Hprov'. }
  apply post_bind.
  assert (Hstep : post match r with
                       | Set_state_prediction_provider =>
                           set_state_prediction_provider module
                       | Set_retroactive_gradient_provider =>
                           set_retroactive_gradient_provider module
                       | Set_input_attention_provider =>
                           set_input_attention_provider module
                       | Set_initial_state value => set_initial_state value
                       | Set_default_input value => set_default_input value
                       end s (asserts (awaits_initial_state no_provider))).
  { destruct Hs as (Hc & Hi & Hp).
    destruct r; try discriminate;
      unfold set_state_prediction_provider, set_retroactive_gradient_provider,
        set_input_attention_provider, set_default_input.
    - apply post_bind, post_get, post_bind, post_assert; intros _; [|reflexivity].
      apply post_modify. split; [exact Hc|]. split; [exact Hi|].
      intros Hn. specialize (Hpr Hn). discriminate.
    - apply post_bind, post_get, post_bind, post_assert; intros _; [|reflexivity].
      apply post_modify. now split.
    - apply post_modify. now split.
    - apply post_modify. now split. }
  eapply post_weaken; [exact Hstep|].
  intros [[]|e] s1; simpl; [|auto]. intros Hs1. now apply IH.
Qed.

Lemma recompute_awaits no_provider (s : Kernel) :
  awaits_initial_state no_provider s ->
  recompute_trainable_weights s = (Raise AssertionError, s).
Proof.
  intros (Hc & Hi & _).
  unfold recompute_trainable_weights, initial_state_is_trainable, bind, get, assert, lift.
  now rewrite Hc, Hi.
Qed.

Lemma fresh_id_fresh (s : Kernel) (module : KernelModule) :
  StateKernelModule.id module = fresh_id s -> has_module module s = false.
Proof.
  intros Hid. apply not_true_is_false. intros Hhas.
  apply has_module_ids in Hhas. rewrite Hid in Hhas. unfold module_ids, fresh_id in *.
  assert (Hle : forall ids n, In n ids -> n <= fold_right Nat.max 0 ids).
  { clear. induction ids as [|i ids IH]; intros n [].
    - subst. simpl. lia.
    - simpl. specialize (IH n H). lia. }
  apply Hle in Hhas. lia.
Qed.

Lemma add_module_awaits (module : KernelModule) (s : Kernel) :
  (forall config,
     existsb sets_initial_state (StateKernelModule.configure module config) = false) ->
  has_module module s = false ->
  awaits_initial_state false s ->
  fst (add_module module s) = Raise AssertionError.
Proof.
  intros Hinit Hhas Hs. rewrite add_module_unfold, Hhas. cbv zeta.
  destruct Hs as (Hc & Hi & Hp). rewrite Hc.
  pose proof (module_configure_awaits false module
                (set__modules (_modules s ++ [module]) s) Hinit
                ltac:(discriminate) ltac:(now split)) as Hpost.
  unfold post in Hpost. unfold bind.
  destruct (module_configure module _) as [[[]|e] s1]; simpl in *; [|now subst].
  now rewrite (recompute_awaits false s1 Hpost).
Qed.

(** X14: [configure] adds the default providers, which recomputes the
    trainable weights, before it creates the initial state.  So when the
    kernel has no initial state and no state prediction provider, and no
    module's [configure] supplies either, [configure] raises an assertion
    error. *)
Theorem configure_needs_initial_state config (self : Kernel) :
  _initial_state self = None ->
  _state_prediction_provider self = None ->
  (forall module config,
     In module (_modules self) ->
     existsb sets_initial_state (StateKernelModule.configure module config) = false
     /\ existsb designates_state_prediction (StateKernelModule.configure module config)
        = false) ->
  (forall n config,
     StateKernelModule.id (StandardInputAttentionProvider n) = n
     /\ StateKernelModule.id (StandardStatePredictionProvider n) = n
     /\ existsb sets_initial_state
          (StateKernelModule.configure (StandardInputAttentionProvider n) config) = false
     /\ existsb sets_initial_state
          (StateKernelModule.configure (StandardStatePredictionProvider n) config) = false
     /\ existsb designates_state_prediction
          (StateKernelModule.configure (StandardInputAttentionProvider n) config) = false) ->
  fst (configure StandardInputAttentionProvider StandardStatePredictionProvider config self)
  = Raise AssertionError.
Proof.
  intros Hi Hp Hmods Hstd.
  assert (Hpost : post (configure StandardInputAttentionProvider
                          StandardStatePredictionProvider config) self
                    (fun r _ => r = Raise AssertionError)); [|exact Hpost].
  unfold configure.
  apply post_bind, post_get, post_bind, post_assert; intros _; [|reflexivity].
  apply post_bind, post_modify.
  apply post_bind.
  eapply post_weaken.
  { apply (post_for_each_asserts (awaits_initial_state true)).
    - now split.
    - intros [] module s Hin Hs. apply module_configure_awaits; [| |exact Hs].
      + intros c. apply (Hmods module c Hin).
      + intros _ c. apply (Hmods module c Hin). }
  intros [[]|e] s1; simpl; [|now intros ->]. intros (Hc1 & Hi1 & Hp1).
  specialize (Hp1 eq_refl).
  assert (Hadd_state :
            fst (add_module (StandardStatePredictionProvider (fresh_id s1)) s1)
            = Raise AssertionError).
  { apply add_module_awaits; [intros c; apply (Hstd (fresh_id s1) c)| |now split].
    apply fresh_id_fresh. apply (Hstd (fresh_id s1) config). }
  assert (Hadd_attention :
            fst (add_module (StandardInputAttentionProvider (fresh_id s1)) s1)
            = Raise AssertionError).
  { apply add_module_awaits; [intros c; apply (Hstd (fresh_id s1) c)| |now split].
    apply fresh_id_fresh. apply (Hstd (fresh_id s1) config). }
  apply post_bind, post_get.
  destruct (_input_attention_provider s1) as [provider|]; simpl.
  - apply post_bind, post_ret, post_bind, post_get. rewrite Hp1. simpl.
    apply post_bind. unfold post at 1.
    destruct (add_module (StandardStatePredictionProvider (fresh_id s1)) s1)
      as [[[]|e] s2]; simpl in *; [discriminate|].
    now injection Hadd_state as ->.
  - apply post_bind. unfold post at 1.
    destruct (add_module (StandardInputAttentionProvider (fresh_id s1)) s1)
      as [[[]|e] s2]; simpl in *; [discriminate|].
    now injection Hadd_attention as ->.
Qed.

End ConfigureFacts.

End KernelModules.

(** ** The kernel: frames *)

Section KernelFrames.
Context {Environment Data V : Type}.
Context (read_variable : V -> TfVariable -> Tensor.t).
Context (tape_gradient :
           V -> StateFrame.t Data -> Tensor.t -> list TensorOrVariable ->
           result (list (option Tensor.t))).
Context (clip_by_global_norm : list (option Tensor.t) -> list (option Tensor.t)).
Import StateKernel.

Abbreviation Kernel := (StateKernel.t Environment Data V).
Abbreviation KernelModule := (StateKernelModule.t Environment Data V).
Abbreviation Frame := (StateFrame.t Data).
Abbreviation World := (StateKernel.World Data V).

#[local] Existing Instance quiet_refl.
#[local] Existing Instance quiet_trans.

Ltac quiet_step :=
  first
    [ apply quiet_frame
    | apply quiet_optional_frame
    | apply quiet_get_runtime
    | apply quiet_put_runtime
    | apply quiet_update_frame; reflexivity
    | preserves_step ].

(** *** New frames *)

Lemma watch_all weights tape :
  GradientTape._watched (fold_left GradientTape.watch weights tape)
  = GradientTape._watched tape ++ weights.
Proof.
  revert tape. induction weights as [|x xs IH]; intros tape; simpl.
  - now rewrite app_nil_r.
  - rewrite IH. simpl. now rewrite <- app_assoc.
Qed.

(** X15: [new_frame] returns no frame.  It raises whatever it is given
    and leaves the world as it found it; and where everything before the
    constructor goes well (the kernel is configured and has its trainable
    weights, and the previous frame, if one is given, exists and has its
    state), what it raises is the [TypeError] of [StateFrame(...)] called
    without a [stream_id].  The same constructor call with a [stream_id]
    returns the frame. *)
Theorem new_frame_raises (self : Kernel) previous_frame (w : World) :
  is_ok (fst (new_frame self previous_frame w)) = false
  /\ snd (new_frame self previous_frame w) = w
  /\ (forall previous previous_state tape,
        optional_frame previous_frame w = (Ok previous, w) ->
        get_previous_state self previous = Ok previous_state ->
        new_gradient_tape self = Ok tape ->
        new_frame self previous_frame w = (Raise TypeError, w)
        /\ GradientTape._recording tape = true
        /\ get_trainable_weights self = Ok (GradientTape._watched tape)
        /\ forall stream_id,
             StateFrame.__init__ (Data := Data) (Some stream_id) previous_state (Some tape)
             = Ok (StateFrame.new stream_id previous_state (Some tape))).
Proof.
  destruct (new_frame_outcome self previous_frame w) as (e & Hnew & He).
  rewrite Hnew. simpl. split; [reflexivity|]. split; [reflexivity|].
  intros previous previous_state tape H1 H2 H3.
  rewrite (He _ _ _ H1 H2 H3). split; [reflexivity|].
  unfold new_gradient_tape in H3. destruct (_config self); [|discriminate].
  destruct (get_trainable_weights self) as [ws|]; [|discriminate].
  injection H3 as <-. rewrite watch_recording, watch_all. auto.
Qed.

(** *** Inputs and states are recorded once *)

Lemma gather_loop (self : Kernel) (environment : Environment) f (w : World) fr
    (modules : list KernelModule) acc width :
  input_width self = Ok width ->
  frames w !! f = Some fr ->
  exists r,
    for_each modules
      (fun input_tensors module =>
         if negb (StateKernelModule.is_InputProvider module) then ret input_tensors
         else
           v <- get_runtime ;;
           fr <- frame f ;;
           input_tensor <- lift (StateKernelModule.get_input module v environment fr) ;;
           match input_tensor with
           | Some x =>
               width <- lift (input_width self) ;;
               assert (bool_decide (Tensor.shape x = [width])) ;;
               ret (input_tensors ++ [IsTensor x])
           | None => ret input_tensors
           end) acc w = (r, w)
    /\ forall input_tensors,
         r = Ok input_tensors ->
         exists inputs,
           KernelSpec.provided_inputs modules (runtime w) environment fr = Ok inputs
           /\ input_tensors = acc ++ List.map IsTensor inputs
           /\ Forall (fun x => Tensor.shape x = [width]) inputs.
Proof.
  intros Hwidth Hfr.
  cbv beta iota delta [bind get_runtime lift assert ret raise frame].
  rewrite Hwidth.
  revert acc. induction modules as [|m ms IH]; intros acc.
  - exists (Ok acc). split; [reflexivity|]. intros ? [= <-]. exists [].
    split; [reflexivity|]. split; [now rewrite app_nil_r|constructor].
  - cbn [for_each KernelSpec.provided_inputs].
    cbv beta iota delta [bind get_runtime lift assert ret raise frame] in IH |- *.
    destruct (StateKernelModule.is_InputProvider m); cbn [negb]; [|apply IH].
    rewrite Hfr.
    destruct (StateKernelModule.get_input m (runtime w) environment fr)
      as [[x|]|e]; [|apply IH|exists (Raise e); split; [reflexivity|discriminate]].
    case_bool_decide as Hshape;
      [|exists (Raise AssertionError); split; [reflexivity|discriminate]].
    destruct (IH (acc ++ [IsTensor x])) as (r & Hr & Hok).
    exists r. split; [exact Hr|]. intros input_tensors Hi.
    destruct (Hok _ Hi) as (inputs & Hinputs & -> & Hall).
    exists (x :: inputs). rewrite Hinputs.
    split; [reflexivity|]. split; [now rewrite <- app_assoc|now constructor].
Qed.

(** X17: [gather_inputs] reads the attribute [input_tensors], which
    frame.py does not declare: on a frame as the constructor leaves it, it
    raises [AttributeError].  On a frame where the attribute has been
    assigned [None], a [gather_inputs] that returns has recorded the
    default input followed by the inputs of the input providers, in the
    order of the kernel's modules and each of the kernel's input width;
    and the inputs of a frame are gathered once: on the frame as it is
    then, [gather_inputs] raises an assertion error and changes
    nothing. *)
Theorem gather_inputs_once (self : Kernel) (environment : Environment) f (w : World) :
  (forall fr,
     is_some (_config self) = true ->
     frames w !! f = Some fr ->
     StateFrame.current_state fr = None ->
     StateFrame.input_tensors fr = None ->
     gather_inputs self environment f w = (Raise AttributeError, w))
  /\ (forall w',
        gather_inputs self environment f w = (Ok tt, w') ->
        exists fr default width inputs,
          frames w !! f = Some fr
          /\ StateFrame.input_tensors fr = Some None
          /\ default_input self = Ok default
          /\ input_width self = Ok width
          /\ KernelSpec.provided_inputs (_modules self) (runtime w) environment fr
             = Ok inputs
          /\ Forall (fun x => Tensor.shape x = [width]) inputs
          /\ frames w' !! f
             = Some (StateFrame.set_input_tensors
                       (Some (default :: List.map IsTensor inputs)) fr)
          /\ forall environment',
               gather_inputs self environment' f w' = (Raise AssertionError, w')).
Proof.
  split.
  - intros fr Hc Hfr Hcur Hin.
    unfold gather_inputs, bind, assert, frame, lift, StateFrame.get_input_tensors.
    rewrite Hc. simpl. now rewrite Hfr, Hcur, Hin.
  - intros w' H. unfold gather_inputs in H.
    apply bind_ok in H as ([] & s1 & H1 & H). apply assert_ok in H1 as [Hc ->].
    apply bind_ok in H as (fr & s1 & H1 & H). apply frame_ok in H1 as [Hfr ->].
    apply bind_ok in H as ([] & s1 & H1 & H). apply assert_ok in H1 as [Hcur ->].
    apply bind_ok in H as (assigned & s1 & H1 & H). apply lift_ok in H1 as [Hassigned ->].
    apply bind_ok in H as ([] & s1 & H1 & H). apply assert_ok in H1 as [Hnone ->].
    assert (Hin : StateFrame.input_tensors fr = Some None).
    { unfold StateFrame.get_input_tensors in Hassigned.
      destruct (StateFrame.input_tensors fr) as [value|]; [|discriminate].
      injection Hassigned as ->. now destruct assigned. }
    apply bind_ok in H as (default & s1 & H1 & H). apply lift_ok in H1 as [Hdef ->].
    apply bind_ok in H as (input_tensors & s1 & H1 & H).
    assert (Hwidth : exists width, input_width self = Ok width).
    { unfold input_width. destruct (_config self); [eauto|discriminate]. }
    destruct Hwidth as [width Hwidth].
    destruct (gather_loop self environment f w fr (_modules self) [default] width
                Hwidth Hfr) as (r & Hr & Hok).
    rewrite Hr in H1. injection H1 as -> <-.
    destruct (Hok _ eq_refl) as (inputs & Hinputs & -> & Hall).
    assert (Hnew : frames w' !! f
                   = Some (StateFrame.set_input_tensors
                             (Some (default :: List.map IsTensor inputs)) fr)).
    { injection H as <-. simpl. now rewrite list_lookup_alter_eq, Hfr. }
    clear H. exists fr, default, width, inputs.
    split; [exact Hfr|]. split; [exact Hin|]. split; [exact Hdef|].
    split; [exact Hwidth|]. split; [exact Hinputs|]. split; [exact Hall|].
    split; [exact Hnew|].
    intros environment'.
    unfold gather_inputs, bind, assert, frame, lift, StateFrame.get_input_tensors.
    rewrite Hc. simpl. rewrite Hnew. simpl.
    destruct (StateFrame.current_state fr); [discriminate|reflexivity].
Qed.

(** X18: the state of a frame is predicted after its inputs have been
    gathered, and once: while the attribute [input_tensors] holds [None],
    [predict_state] raises an assertion error and changes nothing; and
    after a [predict_state] that returns, both [predict_state] and
    [gather_inputs] raise an assertion error on the frame and change
    nothing. *)
Theorem predict_state_once (self : Kernel) f (w : World) :
  (forall fr,
     is_some (_config self) = true ->
     frames w !! f = Some fr ->
     StateFrame.input_tensors fr = Some None ->
     predict_state read_variable self f w = (Raise AssertionError, w))
  /\ (forall w',
        predict_state read_variable self f w = (Ok tt, w') ->
        predict_state read_variable self f w' = (Raise AssertionError, w')
        /\ forall environment,
             gather_inputs self environment f w' = (Raise AssertionError, w')).
Proof.
  split.
  - intros fr Hc Hfr Hin.
    unfold predict_state, bind, assert, frame, lift, StateFrame.get_input_tensors.
    rewrite Hc. simpl. now rewrite Hfr, Hin.
  - intros w' H.
    destruct (predict_state_ok read_variable self f w w' H)
      as (fr0 & inputs & state & Hc & _ & Hin & _ & Hfr & _).
    split.
    + unfold predict_state, bind, assert, frame, lift, StateFrame.get_input_tensors.
      rewrite Hc. simpl. rewrite Hfr. simpl. now rewrite Hin.
    + intros environment. unfold gather_inputs, bind, assert, frame.
      rewrite Hc. simpl. now rewrite Hfr.
Qed.


(** *** Training *)

(** Once [train] is past its opening assertions, it ends in its
    [finally] clause, whatever its body does. *)
Lemma train_finally (self : Kernel) p f (w : World) fr tape :
  is_some (_config self) = true ->
  frames w !! p = Some fr ->
  StateFrame.trained fr = false ->
  StateFrame.tape fr = Some tape ->
  statuses (snd (train tape_gradient clip_by_global_norm self p f w))
  = <[p := (true, None)]> (statuses w).
Proof.
  intros Hc Hfr Htrained Htape.
  assert (Hpost : post (train tape_gradient clip_by_global_norm self p f) w
                    (fun _ w' => statuses w' = <[p := (true, None)]> (statuses w)));
    [|exact Hpost].
  unfold train.
  apply post_bind, post_assert; intros E; [|congruence].
  apply post_frame; [|congruence]. intros fr0 Hfr0.
  assert (fr0 = fr) as -> by congruence.
  apply post_bind, post_assert; rewrite Htrained; intros E1; [|discriminate].
  apply post_bind, post_assert; rewrite Htape; intros E2; [|discriminate].
  apply post_try_finally, (post_preserves quiet); [repeat quiet_step|].
  intros r s1 Hs1. unfold quiet in Hs1.
  assert (Hst : statuses w !! p = Some (false, Some tape)).
  { rewrite statuses_lookup, Hfr. simpl. unfold status. now rewrite Htrained, Htape. }
  assert (Hfr1 : exists fr1, frames s1 !! p = Some fr1
                             /\ StateFrame.tape fr1 = Some tape).
  { rewrite <- Hs1, statuses_lookup in Hst.
    destruct (frames s1 !! p) as [fr1|]; [|discriminate].
    injection Hst as Hst1 Hst2. eauto. }
  destruct Hfr1 as (fr1 & Hfr1 & Etape1).
  apply post_frame; [|congruence]. intros fr1' Hfr1'.
  assert (fr1' = fr1) as -> by congruence. rewrite Etape1.
  unfold post, bind, update_frame, modify. simpl.
  unfold statuses at 1. simpl. rewrite statuses_train. fold (statuses s1).
  now rewrite Hs1.
Qed.

(** X19: a [train] that is past its opening assertions leaves the
    previous frame trained and without a tape whether it returns or
    raises; and on a trained frame [train] raises an assertion error and
    changes nothing.  So the training of a frame is attempted once, and a
    training that has failed is not tried again. *)
Theorem train_is_attempted_once (self : Kernel) p f (w : World) fr tape :
  is_some (_config self) = true ->
  frames w !! p = Some fr ->
  StateFrame.trained fr = false ->
  StateFrame.tape fr = Some tape ->
  let w' := snd (train tape_gradient clip_by_global_norm self p f w) in
  (exists fr',
     frames w' !! p = Some fr'
     /\ StateFrame.trained fr' = true
     /\ StateFrame.tape fr' = None)
  /\ forall g, train tape_gradient clip_by_global_norm self p g w'
               = (Raise AssertionError, w').
Proof.
  intros Hc Hfr Htrained Htape w'.
  pose proof (train_finally self p f w fr tape Hc Hfr Htrained Htape) as Hst.
  fold w' in Hst.
  assert (Hp : statuses w' !! p = Some (true, None)).
  { rewrite Hst. apply list_lookup_insert_eq.
    rewrite statuses_length. now apply lookup_lt_Some in Hfr. }
  destruct (statuses_lookup_Some w' p _ _ Hp) as (fr' & Hfr' & Htr' & Htape').
  split; [eauto|].
  intros g. unfold train, bind, assert, frame. rewrite Hc. simpl.
  now rewrite Hfr', Htr'.
Qed.

(** X21: a step from a frame whose state has not been predicted raises an
    assertion error and creates no frame. *)
Theorem step_from_unpredicted_frame (self : Kernel) (environment : Environment)
    p (w : World) fr :
  frames w !! p = Some fr ->
  StateFrame.current_state fr = None ->
  fst (step read_variable tape_gradient clip_by_global_norm
         self environment (Some p) w) = Raise AssertionError
  /\ frames (snd (step read_variable tape_gradient clip_by_global_norm
                    self environment (Some p) w)) = frames w.
Proof.
  intros Hfr Hcur.
  assert (Hnew : new_frame self (Some p) w = (Raise AssertionError, w)).
  { unfold new_frame, bind, assert, optional_frame, bind, frame, lift, get_previous_state.
    destruct (_config self); simpl; [|reflexivity].
    rewrite Hfr. simpl. now rewrite Hcur. }
  assert (Hstep : step read_variable tape_gradient clip_by_global_norm
                    self environment (Some p) w
                  = (Raise AssertionError, w)).
  { unfold step. unfold bind at 1. now rewrite Hnew. }
  rewrite Hstep. split; reflexivity.
Qed.

(** X22: a kernel that has not been configured refuses to run: [step]
    raises an assertion error and creates no frame, and so do the
    operations a step is made of; its trainable weights are not to be had
    either. *)
Theorem unconfigured_kernel_refuses (self : Kernel) (environment : Environment)
    previous_frame f g v (w : World) (previous current : Frame) :
  _config self = None ->
  (fst (step read_variable tape_gradient clip_by_global_norm
          self environment previous_frame w) = Raise AssertionError
   /\ frames (snd (step read_variable tape_gradient clip_by_global_norm
                     self environment previous_frame w)) = frames w)
  /\ new_frame self previous_frame w = (Raise AssertionError, w)
  /\ gather_inputs self environment f w = (Raise AssertionError, w)
  /\ predict_state read_variable self f w = (Raise AssertionError, w)
  /\ train tape_gradient clip_by_global_norm self f g w = (Raise AssertionError, w)
  /\ get_loss self v previous current = Raise AssertionError
  /\ get_trainable_weights self = Raise AssertionError
  /\ recompute_trainable_weights self = (Raise AssertionError, self)
  /\ future_gradient_coefficient self = Raise AttributeError
  /\ stabilized_gradient self = Raise AttributeError.
Proof.
  intros Hc.
  assert (Hnew : new_frame self previous_frame w = (Raise AssertionError, w)).
  { unfold new_frame, bind, assert. now rewrite Hc. }
  split; [|split; [exact Hnew|]].
  - assert (Hstep : step read_variable tape_gradient clip_by_global_norm
                      self environment previous_frame w
                    = (Raise AssertionError, w)).
    { unfold step. unfold bind at 1. now rewrite Hnew. }
    rewrite Hstep. split; reflexivity.
  - repeat split.
    + unfold gather_inputs, bind, assert. now rewrite Hc.
    + unfold predict_state, bind, assert. now rewrite Hc.
    + unfold train, bind, assert. now rewrite Hc.
    + unfold get_loss. now rewrite Hc.
    + unfold get_trainable_weights. now rewrite Hc.
    + unfold recompute_trainable_weights, bind, get, assert. now rewrite Hc.
    + unfold future_gradient_coefficient. now rewrite Hc.
    + unfold stabilized_gradient. now rewrite Hc.
Qed.


Lemma try_finally_ok {S A} (body : M S A) (final : M S unit) s a s' :
  try_finally body final s = (Ok a, s') ->
  exists s1, body s = (Ok a, s1) /\ final s1 = (Ok tt, s').
Proof.
  unfold try_finally. destruct (body s) as [r s1].
  destruct (final s1) as [[[]|e] s2] eqn:Ef; [|discriminate].
  intros [= -> <-]. exists s1. split; [reflexivity|exact Ef].
Qed.

(** The frames stay. *)
Definition same_frames : relation World :=
  fun w w' => frames w' = frames w.

#[local] Instance same_frames_refl : Reflexive same_frames.
Proof. now intros w. Qed.

#[local] Instance same_frames_trans : Transitive same_frames.
Proof. intros a b c H1 H2. unfold same_frames in *. congruence. Qed.

Lemma same_frames_retroactive (self : Kernel) p f :
  preserves same_frames
    (for_each (_modules self)
       (fun _ module =>
          if StateKernelModule.is_RetroactiveLossProvider module then
            v <- get_runtime ;;
            previous <- frame p ;;
            current <- frame f ;;
            v <- lift (StateKernelModule.train_retroactive_loss module v previous current) ;;
            put_runtime v
          else ret tt) tt).
Proof.
  assert (Hframe : forall g, preserves same_frames (@frame Data V g)).
  { intros g w. unfold frame. now destruct (frames w !! g). }
  repeat first [ apply Hframe | preserves_step ]; now intros w.
Qed.

(** X23: when [train] returns, the loss it has recorded on the previous
    frame is the kernel's loss for the two frames, or the scalar zero when
    the kernel has none; it is a scalar and not NaN.  The frame is then
    trained and without a tape, with nothing else changed. *)
Theorem train_records_loss (self : Kernel) p f (w w' : World) :
  train tape_gradient clip_by_global_norm self p f w = (Ok tt, w') ->
  exists previous current loss,
    frames w !! p = Some previous
    /\ frames w !! f = Some current
    /\ get_loss self (runtime w) previous current = Ok loss
    /\ let loss := match loss with
                   | Some loss => loss
                   | None => Tensor.zeros []
                   end in
       Tensor.shape loss = []
       /\ Tensor.any_nan loss = false
       /\ frames w' !! p
          = Some (StateFrame.set_trained true
                    (StateFrame.set_tape None
                       (StateFrame.set_combined_loss loss previous))).
Proof.
  intros H. unfold train in H.
  apply bind_ok in H as ([] & s & H1 & H). apply assert_ok in H1 as [Hc ->].
  apply bind_ok in H as (previous & s & H1 & H). apply frame_ok in H1 as [Hp ->].
  apply bind_ok in H as ([] & s & H1 & H). apply assert_ok in H1 as [Htrained ->].
  apply bind_ok in H as ([] & s & H1 & H). apply assert_ok in H1 as [Htape ->].
  apply try_finally_ok in H as (s1 & Hbody & Hfinal).
  apply bind_ok in Hbody as (previous' & s & H1 & H). apply frame_ok in H1 as [Hp' ->].
  assert (previous' = previous) as -> by congruence.
  apply bind_ok in H as (current & s & H1 & H). apply frame_ok in H1 as [Hf ->].
  apply bind_ok in H as (v & s & H1 & H). injection H1 as <- <-.
  apply bind_ok in H as (loss & s & H1 & H). apply lift_ok in H1 as [Hloss ->].
  apply bind_ok in H as ([] & s & H1 & H).
  assert (Hshape : Tensor.shape match loss with
                                | Some loss => loss
                                | None => Tensor.zeros []
                                end = [] /\ s = w).
  { revert H1. case_bool_decide; [intros [= <-]; auto|discriminate]. }
  destruct Hshape as [Hshape ->]. clear H1.
  apply bind_ok in H as ([] & s & H1 & H). apply assert_ok in H1 as [Hnan ->].
  apply negb_true_iff in Hnan.
  apply bind_ok in H as (weights & s & H1 & H). apply lift_ok in H1 as [_ ->].
  apply bind_ok in H as (gradients & s & H1 & H). apply lift_ok in H1 as [_ ->].
  apply bind_ok in H as ([] & s & H1 & H). apply assert_ok in H1 as [_ ->].
  apply bind_ok in H as (apply_gradients & s & H1 & H). apply lift_ok in H1 as [_ ->].
  apply bind_ok in H as (v' & s & H1 & H). apply lift_ok in H1 as [_ ->].
  apply bind_ok in H as ([] & s & H1 & H). injection H1 as <-.
  apply bind_ok in H as ([] & s & H1 & H). injection H1 as <-.
  match type of H with
  | _ ?s0 = _ => pose proof (same_frames_retroactive self p f s0) as Hsame
  end.
  rewrite H in Hsame.
  unfold same_frames in Hsame. simpl in Hsame.
  assert (Hp1 : frames s1 !! p
                = Some (StateFrame.set_combined_loss
                          match loss with
                          | Some loss => loss
                          | None => Tensor.zeros []
                          end previous)).
  { rewrite Hsame. now rewrite list_lookup_alter_eq, Hp. }
  clear H Hsame.
  apply bind_ok in Hfinal as (fr1 & s & H1 & H). apply frame_ok in H1 as [Hfr1 ->].
  rewrite Hp1 in Hfr1. injection Hfr1 as <-.
  simpl in H. destruct (StateFrame.tape previous) as [tape|]; [|discriminate].
  injection H as <-.
  exists previous, current, loss. split; [exact Hp|]. split; [exact Hf|].
  split; [exact Hloss|]. cbv zeta. split; [exact Hshape|]. split; [exact Hnan|].
  simpl. rewrite !list_lookup_alter_eq, Hp1. reflexivity.
Qed.

(** *** The null state prediction provider *)

(** X24: with the null state prediction provider, the state that
    [predict_state] records is the kernel's initial state as the kernel
    holds it when [predict_state] is called (its value at the time,
    clipped), whatever the frame holds; and while the kernel has no
    initial state, the provider's reading of it raises an assertion
    error. *)
Theorem null_provider_predicts_initial_state (self : Kernel) loss_scale id f
    (w : World) :
  _state_prediction_provider self
  = Some (StatePrediction.NullStatePredictionProvider loss_scale id) ->
  (forall w',
     predict_state read_variable self f w = (Ok tt, w') ->
     exists initial fr,
       _initial_state self = Some initial
       /\ frames w' !! f = Some fr
       /\ StateFrame.current_state fr
          = Some (Tensor.clip_by_value (value_of read_variable (runtime w) initial)
                    (py_neg 1000000 0) (py 1000000 0)))
  /\ (forall fr inputs,
        is_some (_config self) = true ->
        frames w !! f = Some fr ->
        StateFrame.input_tensors fr = Some (Some inputs) ->
        StateFrame.current_state fr = None ->
        _initial_state self = None ->
        predict_state read_variable self f w = (Raise AssertionError, w)).
Proof.
  intros Hprov. split.
  - intros w' H. unfold predict_state in H.
    apply bind_ok in H as ([] & s1 & H1 & H). apply assert_ok in H1 as [_ ->].
    apply bind_ok in H as (fr & s1 & H1 & H). apply frame_ok in H1 as [Hfr ->].
    apply bind_ok in H as (assigned & s1 & H1 & H). apply lift_ok in H1 as [_ ->].
    apply bind_ok in H as ([] & s1 & H1 & H). apply assert_ok in H1 as [_ ->].
    apply bind_ok in H as ([] & s1 & H1 & H). apply assert_ok in H1 as [_ ->].
    rewrite Hprov in H.
    apply bind_ok in H as (v & s1 & H1 & H). injection H1 as <- <-.
    apply bind_ok in H as (new_state & s1 & H1 & H). apply lift_ok in H1 as [Hpred ->].
    simpl in Hpred. unfold initial_state in Hpred.
    destruct (_initial_state self) as [initial|]; [|discriminate].
    injection Hpred as <-.
    apply bind_ok in H as ([] & s1 & H1 & H). apply assert_ok in H1 as [_ ->].
    injection H as <-. exists initial. eexists. split; [reflexivity|].
    simpl. rewrite list_lookup_alter_eq, Hfr. simpl. split; reflexivity.
  - intros fr inputs Hc Hfr Hin Hcur Hinit.
    unfold predict_state, bind, assert, frame, lift, get_runtime,
      StateFrame.get_input_tensors.
    rewrite Hc. simpl. rewrite Hfr, Hin. simpl. rewrite Hcur. simpl.
    rewrite Hprov. simpl. unfold initial_state. now rewrite Hinit.
Qed.

End KernelFrames.

(* ================================================================== *)
(** * Part III: the theorems at concrete instances *)
(* ================================================================== *)

(** ** The TD agent *)

(** The specification's example: [r = 1.0], [d = 0.9], [p = 2.0] clamped
    to [max_r = 1.0]; the target is [1.0]. *)
Lemma update_previous_decision_target_witness :
  fst (TDAgent._update_previous_decision Demo.pending) = Ok tt
  /\ (ActionDecision.q_value_target
        <$> TDAgent._previous_decision (snd (TDAgent._update_previous_decision Demo.pending)))
     = Some (Some (Num.Tensor (f32 (py 1 0))))
  /\ TDSpec.clamp (f32 (py 2 0)) (TDAgent.min_observable_reward Demo.pending)
       (TDAgent.max_observable_reward Demo.pending)
     = f32 (py 1 0).
Proof.
  destruct (update_previous_decision_target Demo.pending
              (ActionDecision.set_reward
                 (ActionPolicy.choose_action Demo.policy (ActionDecision.new [] 0))
                 (Num.PyFloat (py 1 0)))
              (ActionPolicy.choose_action Demo.policy (ActionDecision.new [] 1))
              (Num.PyFloat (py 1 0)) (f32 (py 2 0))
              eq_refl eq_refl eq_refl eq_refl eq_refl eq_refl) as [H1 H2].
  rewrite H1. split; [reflexivity|]. split; [vm_compute; reflexivity|].
  rewrite (H2 (Num.PyFloat (py 1 0)) (Num.PyFloat (py 1 0)));
    vm_compute; reflexivity.
Defined.

(** A prediction that is not a number gives a target that is not a
    number; and of two zeros of different sign, [tf.maximum] and
    [tf.minimum] return the first. *)
Example nan_prediction_gives_nan_target :
  TDAgent.stabilized_prediction Demo.pending S754_nan = S754_nan
  /\ TDSpec.stabilized_target (Num.PyFloat (py 1 0)) (py 9 1) S754_nan
       (TDAgent.min_observable_reward Demo.pending)
       (TDAgent.max_observable_reward Demo.pending)
     = Num.Tensor S754_nan
  /\ tf_maximum (S754_zero true) (S754_zero false) = S754_zero true
  /\ tf_minimum (S754_zero false) (S754_zero true) = S754_zero false
  /\ tf_maximum (f32 (py 1 0)) S754_nan = S754_nan.
Proof. vm_compute. auto. Qed.

(** End of an episode with [d = 0.5] and [r = 0.0]: the target is [0.0]. *)
Lemma end_of_episode_target_witness :
  (ActionDecision.q_value_target
     <$> TDAgent._previous_decision
           (snd (TDAgent._update_previous_decision Demo.rewarded_zero)))
  = Some (Some (Num.PyFloat (S754_zero false))).
Proof.
  rewrite (proj2 (proj2 (end_of_episode_target Demo.rewarded_zero
                           (ActionDecision.set_reward
                              (ActionPolicy.choose_action Demo.policy
                                 (ActionDecision.new [] 0))
                              (Num.PyFloat (S754_zero false)))
                           (Num.PyFloat (S754_zero false))
                           eq_refl eq_refl eq_refl eq_refl))
             eq_refl eq_refl eq_refl).
  reflexivity.
Defined.

(** The same through [reset]: the loss returned is the policy's loss on
    the decision closed with target [0.0]. *)
Example reset_at_end_of_episode :
  fst (TDAgent.reset Demo.rewarded_zero) = Ok (Some (S754_zero false)).
Proof. vm_compute. reflexivity. Qed.

(** A first [choose_action] returns an action; a second one raises. *)
Lemma choose_action_pending_witness :
  fst (TDAgent.choose_action [] Demo.agent) = Ok (Some 0)
  /\ TDAgent.choose_action [] (snd (TDAgent.choose_action [] Demo.agent))
     = (Raise AssertionError, snd (TDAgent.choose_action [] Demo.agent)).
Proof.
  split; [vm_compute; reflexivity|].
  apply (proj2 (choose_action_pending Demo.agent []) (Some 0)).
  vm_compute. reflexivity.
Defined.



(** Without any NaN: a tensor bound meets a float reward that is negative
    but rounds to zero in float32, and the upper bound becomes negative. *)
Example mixed_rewards_lose_zero :
  let after_reset := snd (TDAgent.reset Demo.agent) in
  TDAgent.bounds_contain_zero after_reset = true
  /\ TDAgent.bounds_contain_zero
       (TDAgent.run_calls
          [TDAgent.ChooseAction [];
           TDAgent.AcceptReward (Num.Tensor (S754_zero false));
           TDAgent.ChooseAction [];
           TDAgent.AcceptReward (Num.PyFloat (py_neg 1 50))]
          after_reset) = false.
Proof. vm_compute. auto. Qed.

(** ** The kernel *)

(** A kernel with an input attention provider and a state prediction
    provider among its modules configures, and then refuses to be
    configured again. *)
Lemma configure_once_witness :
  fst (StateKernel.configure Demo.attention Demo.prediction Demo.config Demo.unconfigured)
  = Ok tt
  /\ StateKernel.configure Demo.attention Demo.prediction Demo.config Demo.kernel
     = (Raise AssertionError, Demo.kernel).
Proof.
  split; [vm_compute; reflexivity|].
  apply (configure_once Demo.attention Demo.prediction Demo.unconfigured Demo.kernel
           Demo.config Demo.config).
  vm_compute. reflexivity.
Defined.

(** C7 at concrete kernels: a second state prediction provider makes
    [configure] raise; a second input attention provider does not, and
    the provider designated last is the one the kernel keeps. *)
Example second_provider_evaluated :
  fst (StateKernel.configure Demo.attention Demo.prediction Demo.config
         Demo.two_predictions) = Raise AssertionError
  /\ fst (StateKernel.configure Demo.attention Demo.prediction Demo.config
            Demo.two_attentions) = Ok tt
  /\ (StateKernelModule.id
        <$> StateKernel._input_attention_provider
              (snd (StateKernel.configure Demo.attention Demo.prediction Demo.config
                      Demo.two_attentions))) = Some 1
  /\ fst ((StateKernel.set_input_attention_provider (Demo.attention 0) ;;
           StateKernel.set_input_attention_provider (Demo.attention 1))
            StateKernel.empty) = Ok tt
  /\ fst ((StateKernel.set_state_prediction_provider (Demo.prediction 0) ;;
           StateKernel.set_state_prediction_provider (Demo.prediction 1))
            StateKernel.empty) = Raise AssertionError.
Proof. vm_compute. auto 10. Qed.

(** The null provider's prediction is recorded, clamped: on a frame the
    caller has built and given the attribute [input_tensors], and whose
    inputs have then been gathered. *)
Lemma predict_state_recorded_witness :
  exists fr state,
    StateKernel.frames
      (snd (StateKernel.predict_state Demo.read_variable Demo.kernel 0
              (Demo.attended Demo.kernel))) !! 0 = Some fr
    /\ StateFrame.current_state fr = Some state
    /\ Tensor.any_nan state = false
    /\ Tensor.within (py_neg 1000000 0) (py 1000000 0) state = true.
Proof.
  apply (proj1 (predict_state_recorded Demo.read_variable Demo.kernel 0
                  (Demo.attended Demo.kernel))).
  vm_compute. reflexivity.
Defined.

(** On the frame as the constructor of frame.py leaves it, there is no
    attribute [input_tensors] to read. *)
Example predict_state_without_attribute :
  StateKernel.predict_state Demo.read_variable Demo.kernel 0 Demo.constructed
  = (Raise AttributeError, Demo.constructed)
  /\ StateKernel.gather_inputs Demo.kernel tt 0 Demo.constructed
     = (Raise AttributeError, Demo.constructed).
Proof. vm_compute. auto. Qed.

(** A prediction with a NaN raises, and a prediction outside the range is
    clamped to it. *)
Example predict_state_nan :
  StateKernel.predict_state Demo.read_variable Demo.nan_kernel 0
    (Demo.attended Demo.nan_kernel)
  = (Raise AssertionError, Demo.attended Demo.nan_kernel).
Proof. vm_compute. reflexivity. Qed.

Example clip_by_value_examples :
  Tensor.clip_by_value
    (Tensor.mk [3] [f32 (py 3 0); f32 (py 2000000 0); S754_infinity true])
    (py_neg 1000000 0) (py 1000000 0)
  = Tensor.mk [3] [f32 (py 3 0); f32 (py 1000000 0); f32 (py_neg 1000000 0)].
Proof. vm_compute. reflexivity. Qed.

(** One contributing module of scale 0.1 and loss 0.1: the combined loss
    is [(0.1 * 0.1) / 0.1] in float32. *)
Lemma get_loss_weighted_average_witness :
  StateKernel.get_loss Demo.kernel tt (Demo.frame_of (Demo.predicted Demo.kernel) 0)
    (Demo.frame_of (Demo.predicted Demo.kernel) 0)
  = Ok (Some (Tensor.truediv
                (Tensor.rmul (py 1 1) (Tensor.scalar (f32 (py 1 1)))) (py 1 1))).
Proof.
  apply (proj1 (proj2 (get_loss_weighted_average Demo.kernel tt
                         (Demo.frame_of (Demo.predicted Demo.kernel) 0)
                         (Demo.frame_of (Demo.predicted Demo.kernel) 0)))).
  - reflexivity.
  - reflexivity.
  - vm_compute. reflexivity.
Defined.

(** C4 as stated fails: that combined loss is not the module's raw loss
    0.1; it is the next float32 above it. *)
Lemma get_loss_counterexample :
  KernelSpec.contributions (StateKernel._modules Demo.kernel) tt
    (Demo.frame_of (Demo.predicted Demo.kernel) 0)
    (Demo.frame_of (Demo.predicted Demo.kernel) 0)
  = Ok [(py 1 1, Tensor.scalar (f32 (py 1 1)))]
  /\ f32 (py 1 1) = S754_finite false 13421773 (-27)
  /\ StateKernel.get_loss Demo.kernel tt (Demo.frame_of (Demo.predicted Demo.kernel) 0)
       (Demo.frame_of (Demo.predicted Demo.kernel) 0)
     = Ok (Some (Tensor.scalar (S754_finite false 13421774 (-27))))
  /\ StateKernel.get_loss Demo.kernel tt (Demo.frame_of (Demo.predicted Demo.kernel) 0)
       (Demo.frame_of (Demo.predicted Demo.kernel) 0)
     <> Ok (Some (Tensor.scalar (f32 (py 1 1)))).
Proof.
  split; [vm_compute; reflexivity|]. split; [vm_compute; reflexivity|].
  split; [vm_compute; reflexivity|]. vm_compute. discriminate.
Qed.

(** With scale 1.0 the scale does cancel on this loss. *)
Example unit_scale_cancels :
  Tensor.truediv (Tensor.rmul (py 1 0) (Tensor.scalar (f32 (py 1 1)))) (py 1 0)
  = Tensor.scalar (f32 (py 1 1)).
Proof. vm_compute. reflexivity. Qed.

(** A scale that is positive as a Python float but rounds to zero in
    float32 turns the combined loss into NaN. *)
Example tiny_scale_is_nan :
  Tensor.truediv (Tensor.rmul (py 1 50) (Tensor.scalar (f32 (py 1 1)))) (py 1 50)
  = Tensor.scalar S754_nan.
Proof. vm_compute. reflexivity. Qed.

(** C1 and C6 at the demo kernel.  [kernel.step(environment)], the first
    step of a stream, raises the constructor's [TypeError] and creates no
    frame. *)
Example first_step_raises :
  Demo.step Demo.kernel None Demo.start = (Raise TypeError, Demo.start).
Proof. vm_compute. reflexivity. Qed.

(** A step from a frame that has its state (one the caller has built)
    raises the same error: the frame stays untrained, its tape stays open,
    and no successor is made. *)
Example step_from_predicted_frame_raises :
  Demo.step Demo.kernel (Some 0) (Demo.predicted Demo.kernel)
  = (Raise TypeError, Demo.predicted Demo.kernel)
  /\ length (StateKernel.frames (Demo.predicted Demo.kernel)) = 1
  /\ StateFrame.trained (Demo.frame_of (Demo.predicted Demo.kernel) 0) = false
  /\ (GradientTape._recording
        <$> StateFrame.tape (Demo.frame_of (Demo.predicted Demo.kernel) 0)) = Some true.
Proof. vm_compute. auto. Qed.

(** The demo kernel has three gradient providers, each returning
    [0.9, 0.9] on that frame; the step asks none of them and records no
    gradient. *)
Example step_records_nothing :
  KernelSpec.provided_gradients (StateKernel._modules Demo.kernel) tt tt
    (Demo.frame_of (Demo.predicted Demo.kernel) 0)
  = Ok [Tensor.mk [2] [f32 (py 9 1); f32 (py 9 1)];
        Tensor.mk [2] [f32 (py 9 1); f32 (py 9 1)];
        Tensor.mk [2] [f32 (py 9 1); f32 (py 9 1)]]
  /\ List.map StateFrame.current_state_gradient
       (StateKernel.frames
          (snd (Demo.step Demo.kernel (Some 0) (Demo.predicted Demo.kernel))))
     = [None].
Proof. vm_compute. auto. Qed.

(** ** Further properties at concrete instances *)

(** *** The TD agent *)

(** Two rewarded decisions, the end of the episode and the first decision
    of the next one. *)
Lemma protocol_never_raises_witness :
  TDAgent.all_return
    [TDAgent.ChooseAction []; TDAgent.AcceptReward (Num.PyFloat (py 1 0));
     TDAgent.ChooseAction []; TDAgent.AcceptReward (Num.PyFloat (py_neg 5 1));
     TDAgent.Reset; TDAgent.ChooseAction []]
    Demo.agent = true.
Proof.
  apply (protocol_never_raises Demo.policy (TDAgent.Constant (py 9 1)) true).
  - intros d. repeat split.
  - vm_compute. reflexivity.
  - reflexivity.
Defined.

(** A [reset] right after [choose_action]: it returns, the decision just
    made is the previous one, and then neither [accept_reward], [reset] nor
    [choose_action] returns. *)
Lemma reset_with_pending_decision_witness :
  is_ok (fst (TDAgent.reset Demo.chosen)) = true
  /\ TDAgent._previous_decision (snd (TDAgent.reset Demo.chosen))
     = Some (ActionPolicy.choose_action Demo.policy (ActionDecision.new [] 0))
  /\ TDAgent._current_decision (snd (TDAgent.reset Demo.chosen)) = None
  /\ TDAgent.returns (TDAgent.ChooseAction [])
       (TDAgent.run_calls [TDAgent.AcceptReward (Num.PyFloat (py 1 0)); TDAgent.Reset]
          (snd (TDAgent.reset Demo.chosen))) = false.
Proof.
  split; [vm_compute; reflexivity|].
  destruct (reset_with_pending_decision Demo.chosen
              (ActionPolicy.choose_action Demo.policy (ActionDecision.new [] 0))
              None (snd (TDAgent.reset Demo.chosen))) as (H1 & H2 & H3).
  - vm_compute. reflexivity.
  - reflexivity.
  - reflexivity.
  - vm_compute. reflexivity.
  - split; [exact H1|]. split; [exact H2|apply H3].
Defined.

(** The reward -0.5 after the reward 1.0: both bounds are set and
    [-0.5 <= -0.5 <= 1.0]. *)
Lemma accepted_reward_within_bounds_witness :
  TDAgent.within_bounds (Num.PyFloat (py_neg 5 1))
    (snd (TDAgent.accept_reward (Num.PyFloat (py_neg 5 1))
            (snd (TDAgent.choose_action [] Demo.rewarded)))) = true.
Proof.
  eapply (accepted_reward_within_bounds
            (snd (TDAgent.choose_action [] Demo.rewarded))
            (Num.PyFloat (py_neg 5 1))).
  - reflexivity.
  - reflexivity.
  - vm_compute. reflexivity.
Defined.

(** With the bounds [0.0] and [1.0] the prediction 2.0 is clamped into
    them. *)
Lemma stabilized_prediction_within_bounds_witness :
  SFleb (f32 (S754_zero false))
        (TDAgent.stabilized_prediction (snd (TDAgent.reset Demo.rewarded)) (f32 (py 2 0)))
  = true
  /\ SFleb (TDAgent.stabilized_prediction (snd (TDAgent.reset Demo.rewarded)) (f32 (py 2 0)))
           (f32 (py 1 0))
     = true.
Proof.
  apply (stabilized_prediction_within_bounds (snd (TDAgent.reset Demo.rewarded))
           (Num.PyFloat (S754_zero false)) (Num.PyFloat (py 1 0)) (f32 (py 2 0)));
    vm_compute; reflexivity.
Defined.

(** After the reset that ends the first episode the agent holds no
    decision, and the next decision is numbered 0. *)
Lemma reset_starts_new_episode_witness :
  TDAgent._previous_decision (snd (TDAgent.reset Demo.rewarded)) = None
  /\ TDAgent._current_decision (snd (TDAgent.reset Demo.rewarded)) = None
  /\ TDAgent.episodes (snd (TDAgent.reset Demo.rewarded)) = 1
  /\ (ActionDecision.step
        <$> TDAgent._current_decision
              (snd (TDAgent.choose_action [] (snd (TDAgent.reset Demo.rewarded)))))
     = Some 0.
Proof.
  destruct (reset_starts_new_episode Demo.rewarded
              (Some (f32 (Float.div Float.binary64 (py 1 0) (py 19 1))))
              (snd (TDAgent.reset Demo.rewarded)))
    as (H1 & H2 & H3 & H4).
  - reflexivity.
  - vm_compute. reflexivity.
  - split; [exact H1|]. split; [exact H2|]. split; [exact H3|].
    rewrite (H4 []). reflexivity.
Defined.

(** *** The kernel *)

(** The initial state of a new kernel is assigned once. *)
Lemma initial_state_set_once_witness :
  StateKernel.initial_state
    (snd (StateKernel.set_initial_state (IsTensor (Tensor.zeros [2]))
            (@StateKernel.empty unit unit unit)))
  = Ok (IsTensor (Tensor.zeros [2]))
  /\ fst (StateKernel.set_initial_state (IsTensor (Tensor.zeros [3]))
            (snd (StateKernel.set_initial_state (IsTensor (Tensor.zeros [2]))
                    (@StateKernel.empty unit unit unit))))
     = Raise AssertionError.
Proof.
  destruct (initial_state_set_once (IsTensor (Tensor.zeros [2]))
              (@StateKernel.empty unit unit unit)
              (snd (StateKernel.set_initial_state (IsTensor (Tensor.zeros [2]))
                      (@StateKernel.empty unit unit unit)))
              eq_refl) as (H1 & _ & H3).
  split; [exact H1|]. now rewrite H3.
Defined.

(** The demo kernel after [configure]: its trainable weights are the
    initial state, a variable. *)
Lemma configure_postcondition_witness :
  exists initial default,
    StateKernel._config Demo.kernel = Some Demo.config
    /\ StateKernel._initial_state Demo.kernel = Some initial
    /\ StateKernel._default_input Demo.kernel = Some default
    /\ StateKernel.get_trainable_weights Demo.kernel
       = Ok ((if StateKernel._initial_state_is_trainable Demo.kernel
              then [initial] else [])
             ++ (if StateKernel._default_input_is_trainable Demo.kernel
                 then [default] else [])
             ++ flat_map (fun m => List.map IsVariable
                                     (StateKernelModule.get_trainable_weights m))
                         (StateKernel._modules Demo.kernel)).
Proof.
  apply (configure_postcondition Demo.attention Demo.prediction Demo.config
           Demo.unconfigured Demo.kernel).
  vm_compute. reflexivity.
Defined.

(** [StateKernel([attention]).configure(config)]: the default state
    prediction provider is added while the kernel has no initial state. *)
Lemma configure_needs_initial_state_witness :
  fst (StateKernel.configure Demo.attention Demo.standard_prediction Demo.config
         Demo.attention_only)
  = Raise AssertionError.
Proof.
  apply (configure_needs_initial_state Demo.attention Demo.standard_prediction
           Demo.config Demo.attention_only).
  - reflexivity.
  - reflexivity.
  - intros module config [<-|[]]. split; reflexivity.
  - intros n config. repeat split.
Defined.

(** [new_frame] on the configured demo kernel: everything before the
    constructor goes well, and the constructor raises. *)
Lemma new_frame_raises_witness :
  StateKernel.new_frame Demo.kernel None Demo.start = (Raise TypeError, Demo.start).
Proof.
  destruct (new_frame_raises Demo.kernel None Demo.start) as (_ & _ & H).
  apply (H None
           (IsVariable (KernelVariable "initial_state" (Tensor.zeros [2])))
           (GradientTape.mk true
              [IsVariable (KernelVariable "initial_state" (Tensor.zeros [2]))]));
    vm_compute; reflexivity.
Defined.

(** A kernel with input providers: the inputs of the frame are the
    default input and then the input 1.0 of the one provider that gives
    one; and they are gathered once. *)
Lemma gather_inputs_once_witness :
  exists fr,
    StateKernel.frames (Demo.fresh Demo.input_kernel) !! 0 = Some fr
    /\ StateKernel.frames
         (snd (StateKernel.gather_inputs Demo.input_kernel tt 0
                 (Demo.fresh Demo.input_kernel))) !! 0
       = Some (StateFrame.set_input_tensors
                 (Some [IsTensor (Tensor.zeros [1]);
                        IsTensor (Tensor.mk [1] [f32 (py 1 0)])]) fr)
    /\ StateKernel.gather_inputs Demo.input_kernel tt 0
         (snd (StateKernel.gather_inputs Demo.input_kernel tt 0
                 (Demo.fresh Demo.input_kernel)))
       = (Raise AssertionError,
          snd (StateKernel.gather_inputs Demo.input_kernel tt 0
                 (Demo.fresh Demo.input_kernel))).
Proof.
  destruct (proj2 (gather_inputs_once Demo.input_kernel tt 0
                     (Demo.fresh Demo.input_kernel))
              (snd (StateKernel.gather_inputs Demo.input_kernel tt 0
                      (Demo.fresh Demo.input_kernel))))
    as (fr & default & width & inputs & H1 & _ & H3 & _ & H5 & _ & H7 & H8).
  - vm_compute. reflexivity.
  - exists fr. split; [exact H1|]. split; [|apply H8].
    rewrite H7. f_equal.
    assert (Hfr : fr = Demo.frame_of (Demo.fresh Demo.input_kernel) 0).
    { unfold Demo.frame_of. now rewrite H1. }
    rewrite Hfr in H5. vm_compute in H5, H3.
    injection H5 as <-. injection H3 as <-. reflexivity.
Defined.

(** The state of the first frame is predicted once. *)
Lemma predict_state_once_witness :
  fst (StateKernel.predict_state Demo.read_variable Demo.kernel 0
         (Demo.fresh Demo.kernel))
  = Raise AssertionError
  /\ fst (StateKernel.predict_state Demo.read_variable Demo.kernel 0
            (Demo.predicted Demo.kernel))
     = Raise AssertionError.
Proof.
  destruct (predict_state_once Demo.read_variable Demo.kernel 0
              (Demo.fresh Demo.kernel)) as [H1 _].
  destruct (predict_state_once Demo.read_variable Demo.kernel 0
              (Demo.attended Demo.kernel)) as [_ H2].
  split.
  - rewrite (H1 (Demo.frame_of (Demo.fresh Demo.kernel) 0)); reflexivity.
  - destruct (H2 (Demo.predicted Demo.kernel)) as [H3 _].
    + vm_compute. reflexivity.
    + now rewrite H3.
Defined.

(** Training the first frame, and trying again. *)
Lemma train_is_attempted_once_witness :
  (exists fr',
     StateKernel.frames
       (snd (StateKernel.train Demo.tape_gradient Demo.clip_by_global_norm
               Demo.kernel 0 1 Demo.two_frames)) !! 0 = Some fr'
     /\ StateFrame.trained fr' = true
     /\ StateFrame.tape fr' = None)
  /\ fst (StateKernel.train Demo.tape_gradient Demo.clip_by_global_norm Demo.kernel 0 1
            (snd (StateKernel.train Demo.tape_gradient Demo.clip_by_global_norm
                    Demo.kernel 0 1 Demo.two_frames)))
     = Raise AssertionError.
Proof.
  destruct (train_is_attempted_once Demo.tape_gradient Demo.clip_by_global_norm
              Demo.kernel 0 1 Demo.two_frames (Demo.frame_of Demo.two_frames 0)
              (GradientTape.mk true
                 [IsVariable (KernelVariable "initial_state" (Tensor.zeros [2]))]))
    as [H1 H2].
  - reflexivity.
  - vm_compute. reflexivity.
  - vm_compute. reflexivity.
  - vm_compute. reflexivity.
  - split; [exact H1|]. now rewrite (H2 1).
Defined.

(** A step from a frame whose state has not been predicted. *)
Lemma step_from_unpredicted_frame_witness :
  fst (Demo.step Demo.kernel (Some 0) (Demo.fresh Demo.kernel)) = Raise AssertionError
  /\ StateKernel.frames (snd (Demo.step Demo.kernel (Some 0) (Demo.fresh Demo.kernel)))
     = StateKernel.frames (Demo.fresh Demo.kernel).
Proof.
  apply (step_from_unpredicted_frame Demo.read_variable Demo.tape_gradient
           Demo.clip_by_global_norm Demo.kernel tt 0 (Demo.fresh Demo.kernel)
           (Demo.frame_of (Demo.fresh Demo.kernel) 0)).
  - vm_compute. reflexivity.
  - vm_compute. reflexivity.
Defined.

(** The demo kernel before [configure]. *)
Lemma unconfigured_kernel_refuses_witness :
  fst (Demo.step Demo.unconfigured None Demo.start) = Raise AssertionError
  /\ StateKernel.get_trainable_weights Demo.unconfigured = Raise AssertionError
  /\ StateKernel.future_gradient_coefficient Demo.unconfigured = Raise AttributeError.
Proof.
  destruct (unconfigured_kernel_refuses Demo.read_variable Demo.tape_gradient
              Demo.clip_by_global_norm Demo.unconfigured tt None 0 0 tt Demo.start
              (Demo.frame_of Demo.start 0) (Demo.frame_of Demo.start 0) eq_refl)
    as ((H1 & _) & _ & _ & _ & _ & _ & H2 & _ & H3 & _).
  split; [exact H1|]. split; [exact H2|exact H3].
Defined.

(** The loss of the first of two frames of the demo kernel, as [train]
    records it. *)
Lemma train_records_loss_witness :
  exists previous current loss,
    StateKernel.frames Demo.two_frames !! 0 = Some previous
    /\ StateKernel.frames Demo.two_frames !! 1 = Some current
    /\ StateKernel.get_loss Demo.kernel (StateKernel.runtime Demo.two_frames)
         previous current = Ok loss
    /\ let loss := match loss with
                   | Some loss => loss
                   | None => Tensor.zeros []
                   end in
       Tensor.shape loss = []
       /\ Tensor.any_nan loss = false
       /\ StateKernel.frames
            (snd (StateKernel.train Demo.tape_gradient Demo.clip_by_global_norm
                    Demo.kernel 0 1 Demo.two_frames)) !! 0
          = Some (StateFrame.set_trained true
                    (StateFrame.set_tape None
                       (StateFrame.set_combined_loss loss previous))).
Proof.
  apply (train_records_loss Demo.tape_gradient Demo.clip_by_global_norm
           Demo.kernel 0 1 Demo.two_frames).
  vm_compute. reflexivity.
Defined.

(** The demo kernel's provider is the null provider: the state of its
    first frame is the initial state, zero. *)
Lemma null_provider_predicts_initial_state_witness :
  exists initial fr,
    StateKernel._initial_state Demo.kernel = Some initial
    /\ StateKernel.frames (Demo.predicted Demo.kernel) !! 0 = Some fr
    /\ StateFrame.current_state fr
       = Some (Tensor.clip_by_value
                 (StateKernel.value_of Demo.read_variable
                    (StateKernel.runtime (Demo.attended Demo.kernel)) initial)
                 (py_neg 1000000 0) (py 1000000 0)).
Proof.
  destruct (null_provider_predicts_initial_state Demo.read_variable Demo.kernel
              (py 1 0) 1 0 (Demo.attended Demo.kernel)) as [H _].
  - vm_compute. reflexivity.
  - apply (H (Demo.predicted Demo.kernel)). vm_compute. reflexivity.
Defined.

(** A second round of the demo agent: [accept_reward] returns the loss on
    the first decision. *)
Lemma accept_reward_returns_loss_witness :
  exists loss self',
    (TDAgent.choose_action [] ;; TDAgent.accept_reward (Num.PyFloat (py 1 0))) Demo.rewarded
    = (Ok loss, self')
    /\ TDAgent._current_decision self' = None.
Proof.
  destruct (accept_reward_returns_loss Demo.rewarded [] (Num.PyFloat (py 1 0))
              eq_refl eq_refl) as [_ H].
  edestruct H as (self' & H1 & _ & H3); try reflexivity.
  eexists. exists self'. split; [exact H1|exact H3].
Defined.

(** Adding a seventh module, with a weight of its own, to the configured
    demo kernel. *)
Lemma module_change_recomputes_weights_witness :
  StateKernel.has_module (Demo.weighted_module 6)
    (snd (StateKernel.add_module (Demo.weighted_module 6) Demo.kernel)) = true
  /\ exists weights,
       StateKernel.get_trainable_weights
         (snd (StateKernel.add_module (Demo.weighted_module 6) Demo.kernel))
       = Ok weights
       /\ In (IsVariable (ModuleVariable 6 0)) weights.
Proof.
  destruct (module_change_recomputes_weights (Demo.weighted_module 6) Demo.kernel
              (snd (StateKernel.add_module (Demo.weighted_module 6) Demo.kernel))
              eq_refl) as [Hadd _].
  destruct Hadd as ((initial & default & _ & _ & Hw) & Hhas & Hin).
  - reflexivity.
  - vm_compute. reflexivity.
  - split; [exact Hhas|]. eexists. split; [exact Hw|].
    apply (Hin _ (ModuleVariable 6 0) Hw). now left.
Defined.
